(** * CardiiiiX: the vital-scan session pipeline of [src/components/VitalScan.tsx]

    A shallow embedding of the scan component (recording controller,
    [processRecording], the local fallback report and
    [renderClinicalReport]) together with
    [geminiService.interpretVitals] of [src/services/geminiService.ts],
    and the properties of that code.

    Conventions of the embedding.
    - A JavaScript string is a [string]; each [ascii] stands for one UTF-16
      code unit, so the texts covered are those whose code units are below
      256.  White space and line terminators are the members of the
      ECMAScript sets that lie in that range.
    - A JavaScript number read from the extractor's JSON is a rational
      (every finite double is one); [NaN] is added because [Math.round]
      of [undefined] produces it.
    - A React handler closes over the state of the render that created it:
      handlers take that snapshot as an argument, read refs from the live
      store, and write state through the setters. *)

From Stdlib Require Import Bool Ascii String List ZArith QArith Qround Lia.
From Stdlib Require Import Numbers.DecimalString Lqa.
Import ListNotations.

Local Open Scope string_scope.
Local Open Scope list_scope.

(** ** JavaScript string primitives used by the component *)

Module JsString.

(** [String.prototype.startsWith]. *)
Definition startsWith (s pat : string) : bool := String.prefix pat s.

(** [String.prototype.includes]: some suffix of [s] starts with [pat]. *)
Fixpoint includes (s pat : string) : bool :=
  startsWith s pat ||
  match s with
  | EmptyString => false
  | String _ s' => includes s' pat
  end.

(** Drop the first [n] code units. *)
Fixpoint drop (n : nat) (s : string) : string :=
  match n, s with
  | O, _ => s
  | S _, EmptyString => EmptyString
  | S k, String _ s' => drop k s'
  end.

(** [s.replace(pat, '')] with a string pattern: the first occurrence of
    [pat] is removed. *)
Fixpoint remove_first (pat s : string) : string :=
  if startsWith s pat then drop (String.length pat) s
  else match s with
       | EmptyString => EmptyString
       | String c s' => String c (remove_first pat s')
       end.

(** The alternative of a regular expression [p1|p2|...] of literal
    patterns that matches at the head of [s]: the length of the first
    one, in the order written. *)
Fixpoint first_match (pats : list string) (s : string) : option nat :=
  match pats with
  | [] => None
  | p :: ps => if startsWith s p then Some (String.length p)
               else first_match ps s
  end.

(** [s.replace(/p1|p2|.../g, '')]: a left-to-right scan; where an
    alternative matches it is skipped ([skip] counts the code units of
    the match still to pass), elsewhere the code unit is kept. *)
Fixpoint remove_all_from (pats : list string) (skip : nat) (s : string)
  : string :=
  match s with
  | EmptyString => EmptyString
  | String c s' =>
      match skip with
      | S k => remove_all_from pats k s'
      | O =>
          match first_match pats s with
          | Some (S k) => remove_all_from pats k s'
          | _ => String c (remove_all_from pats 0 s')
          end
      end
  end.

Definition remove_all (pats : list string) (s : string) : string :=
  remove_all_from pats 0 s.

(** ECMAScript WhiteSpace and LineTerminator code units below 256:
    TAB, LF, VT, FF, CR, SP and NBSP. *)
Definition is_white_space (c : ascii) : bool :=
  let n := nat_of_ascii c in
  ((9 <=? n) && (n <=? 13) || (n =? 32) || (n =? 160))%nat.

(** LineTerminator code units below 256 (what [.] does not match). *)
Definition is_line_terminator (c : ascii) : bool :=
  let n := nat_of_ascii c in ((n =? 10) || (n =? 13))%nat.

Fixpoint trimStart (s : string) : string :=
  match s with
  | EmptyString => EmptyString
  | String c s' => if is_white_space c then trimStart s' else s
  end.

Fixpoint trimEnd (s : string) : string :=
  match s with
  | EmptyString => EmptyString
  | String c s' =>
      match trimEnd s' with
      | EmptyString => if is_white_space c then EmptyString
                       else String c EmptyString
      | t => String c t
      end
  end.

(** [String.prototype.trim]. *)
Definition trim (s : string) : string := trimEnd (trimStart s).

(** Truthiness of a string: non-empty. *)
Definition truthy (s : string) : bool :=
  match s with EmptyString => false | _ => true end.

Definition newline : ascii := ascii_of_nat 10.

(** [s.split(sep)] for a one-code-unit separator. *)
Fixpoint split (sep : ascii) (s : string) : list string :=
  match s with
  | EmptyString => [EmptyString]
  | String c s' =>
      if Ascii.eqb c sep then EmptyString :: split sep s'
      else match split sep s' with
           | h :: t => String c h :: t
           | [] => [String c EmptyString]
           end
  end.

(** The rest of a match of [\[.*?\]] after its opening bracket: the code
    units up to and including the nearest ["]"], none of them a line
    terminator; [None] when a line terminator or the end comes first. *)
Fixpoint scan_close (s : string) : option string :=
  match s with
  | EmptyString => None
  | String c s' =>
      if Ascii.eqb c "]" then Some (String c EmptyString)
      else if is_line_terminator c then None
      else match scan_close s' with
           | Some tok => Some (String c tok)
           | None => None
           end
  end.

(** [s.split(/(\[.*?\])/g)]: the pieces between the matches and, because
    of the capturing group, the matches themselves, in order.  The head
    of the result is the piece being collected; [skip] counts the code
    units of the current match still to pass. *)
Fixpoint split_brackets_from (skip : nat) (s : string) : list string :=
  match s with
  | EmptyString => [EmptyString]
  | String c s' =>
      match skip with
      | S k => split_brackets_from k s'
      | O =>
          match (if Ascii.eqb c "[" then scan_close s' else None) with
          | Some tok =>
              EmptyString :: String c tok
                :: split_brackets_from (String.length tok) s'
          | None =>
              match split_brackets_from 0 s' with
              | h :: t => String c h :: t
              | [] => [String c EmptyString]
              end
          end
      end
  end.

Definition split_brackets (s : string) : list string :=
  split_brackets_from 0 s.

End JsString.

(** ** The report renderer, [renderClinicalReport] (VitalScan.tsx 204-250) *)

Module Report.
Import JsString.

(** The badge printed for a bracketed token (lines 225-227). *)
Inductive metric_kind := HR | BP | HRV.

(** The children of a finding paragraph: a badge (lines 225-227) or a
    plain span (line 228). *)
Inductive segment :=
| MetricTag (kind : metric_kind) (value : string)
| PlainText (text : string).

(** The two colour sets of the status banner (line 212): the emerald
    classes are the positive severity, the rose classes the negative. *)
Inductive severity := positive | negative.

Definition color (sev : severity) : string :=
  match sev with
  | positive => "bg-emerald-50 text-emerald-700 border-emerald-200"
  | negative => "bg-rose-50 text-rose-700 border-rose-200"
  end.

(** One constructor for each element [lines.map] can return. *)
Inductive ReportBlock :=
| StatusBanner (status : string) (severityClass : severity)
| FindingLine (segments : list segment)
| VerdictBlock (text : string)
| Heading (text : string)
| PlainLine (text : string).

(** The callback of [parts.map] (lines 224-229). *)
Definition render_part (part : string) : segment :=
  if startsWith part "[BPM:" then
    MetricTag HR (remove_first "]" (remove_first "[BPM:" part))
  else if startsWith part "[BP:" then
    MetricTag BP (remove_first "]" (remove_first "[BP:" part))
  else if startsWith part "[HRV:" then
    MetricTag HRV (remove_first "]" (remove_first "[HRV:" part))
  else PlainText (remove_all ["*"] part).

(** The test of line 219. *)
Definition has_metric_token (line : string) : bool :=
  includes line "[BPM:" || includes line "[BP:" || includes line "[HRV:".

(** The status text and colour of lines 211-212. *)
Definition status_of (line : string) : string :=
  trim (remove_all ["###"; "REPORT_STATUS:"] line).

Definition severity_of (status : string) : severity :=
  if includes status "OPTIMAL" || includes status "STABLE"
  then positive else negative.

(** The callback of [lines.map] (lines 209-247); [None] is the [null]
    child, which React does not render. *)
Definition render_line (line : string) : option ReportBlock :=
  if startsWith line "###" then
    let status := status_of line in
    Some (StatusBanner status (severity_of status))
  else if has_metric_token line then
    Some (FindingLine (map render_part (split_brackets line)))
  else if startsWith line "**AI Verdict:**" then
    Some (VerdictBlock (trim (remove_first "**AI Verdict:**" line)))
  else if startsWith line "**" then
    Some (Heading (remove_all ["**"] line))
  else if truthy (trim line) then
    Some (PlainLine (remove_all ["*"] line))
  else None.

(** [renderClinicalReport]: [null] for the empty text (line 205),
    otherwise the children of the wrapping element, one per line. *)
Definition renderClinicalReport (text : string)
  : option (list (option ReportBlock)) :=
  if truthy text then Some (map render_line (split newline text))
  else None.

(** The blocks that reach the page: the non-null children, in order. *)
Fixpoint rendered (children : list (option ReportBlock))
  : list ReportBlock :=
  match children with
  | [] => []
  | Some b :: rest => b :: rendered rest
  | None :: rest => rendered rest
  end.

Definition report_blocks (text : string) : list ReportBlock :=
  match renderClinicalReport text with
  | Some children => rendered children
  | None => []
  end.

(** A blank line: nothing is left of it after [trim]. *)
Definition is_blank (line : string) : bool := negb (truthy (trim line)).

(** The five checks of [render_line], named in the order they are
    written. *)
Inductive block_kind :=
  KStatus | KFinding | KVerdict | KHeading | KPlain.

Definition kind_of (b : ReportBlock) : block_kind :=
  match b with
  | StatusBanner _ _ => KStatus
  | FindingLine _ => KFinding
  | VerdictBlock _ => KVerdict
  | Heading _ => KHeading
  | PlainLine _ => KPlain
  end.

End Report.

Import JsString Report.

(** ** JavaScript values read from the extractor's response *)

Module JsValue.

(** A number: a finite double, as the rational it denotes, or [NaN]. *)
Inductive number := NaN | Fin (q : Q).

(** What a vitals property of the response can hold once the JSON body
    is parsed: nothing (the property is absent), [null] or a number. *)
Inductive value := undefined | null | Num (n : number).

Definition ToNumber (v : value) : number :=
  match v with
  | undefined => NaN
  | null => Fin 0
  | Num n => n
  end.

(** Truthiness: [undefined], [null], [NaN] and zero are falsy. *)
Definition ToBoolean (v : value) : bool :=
  match v with
  | Num (Fin q) => negb (Qeq_bool q 0)
  | _ => false
  end.

(** [a || b]. *)
Definition or_else (a b : value) : value :=
  if ToBoolean a then a else b.

(** [typeof v === 'undefined']. *)
Definition is_undefined (v : value) : bool :=
  match v with undefined => true | _ => false end.

(** [Math.round]: the nearest integer, ties towards plus infinity. *)
Definition Math_round (n : number) : number :=
  match n with
  | NaN => NaN
  | Fin q => Fin (inject_Z (Qfloor (q + (1 # 2))))
  end.

(** [a > b] on numbers; any comparison with [NaN] is false. *)
Definition gt (a b : number) : bool :=
  match a, b with
  | Fin x, Fin y => negb (Qle_bool x y)
  | _, _ => false
  end.

Definition lit (z : Z) : value := Num (Fin (inject_Z z)).

Definition Z_to_string (z : Z) : string :=
  NilEmpty.string_of_int (Z.to_int z).

(** A rational that is a safe integer (of magnitude below 2^53): the
    numbers whose exact digits JavaScript prints.  Beyond them a double
    prints as its shortest round-trip digits padded with zeros. *)
Definition plain_integer (q : Q) : option Z :=
  let z := Qfloor q in
  if Qeq_bool q (inject_Z z) && (Z.abs z <? 2 ^ 53)%Z then Some z
  else None.

Section Printing.

(** [Number.prototype.toString] on the other finite numbers, those with
    a fraction or beyond the safe integers (the shortest digits that read
    back as the same double), belongs to the JavaScript runtime and is
    taken as given. *)
Variable Number_toString_other : Q -> string.

Definition Number_toString (n : number) : string :=
  match n with
  | NaN => "NaN"
  | Fin q =>
      match plain_integer q with
      | Some z => Z_to_string z
      | None => Number_toString_other q
      end
  end.

(** The string a template literal puts in place of [${v}]. *)
Definition ToString (v : value) : string :=
  match v with
  | undefined => "undefined"
  | null => "null"
  | Num n => Number_toString n
  end.

End Printing.

End JsValue.

Import JsValue.

(** ** The extractor's response and the scan result *)

(** The object [localServices.analyzeVideo] resolves to, seen through the
    properties the code reads: the snake_case ones in [processRecording],
    and both spellings in [interpretVitals]. *)
Module Rppg.

(** A blood-pressure object; an absent property reads [undefined]. *)
Record Pressure := { systolic : value; diastolic : value }.

Record Response := {
  heart_rate : value;
  heartRate : value;
  hrv : value;
  blood_pressure : option Pressure;
  bloodPressure : option Pressure;
  stress_index : value
}.

(** The same response with one property replaced. *)
Definition with_hrv (v : value) (r : Response) : Response :=
  {| heart_rate := heart_rate r; heartRate := heartRate r; hrv := v;
     blood_pressure := blood_pressure r;
     bloodPressure := bloodPressure r; stress_index := stress_index r |}.

Definition with_blood_pressure (p : option Pressure) (r : Response)
  : Response :=
  {| heart_rate := heart_rate r; heartRate := heartRate r; hrv := hrv r;
     blood_pressure := p;
     bloodPressure := bloodPressure r; stress_index := stress_index r |}.

Definition with_stress_index (v : value) (r : Response) : Response :=
  {| heart_rate := heart_rate r; heartRate := heartRate r; hrv := hrv r;
     blood_pressure := blood_pressure r;
     bloodPressure := bloodPressure r; stress_index := v |}.

(** [o?.systolic] and [o?.diastolic]: [undefined] when [o] is nullish. *)
Definition opt_systolic (o : option Pressure) : value :=
  match o with Some p => systolic p | None => undefined end.

Definition opt_diastolic (o : option Pressure) : value :=
  match o with Some p => diastolic p | None => undefined end.

End Rppg.

(** [VitalScanResult] of [../types], as [processRecording] builds it. *)
Module Scan.

Inductive StressLevel := High | Normal.

Record Pressure := { systolic : number; diastolic : number }.

Record VitalScanResult := {
  heartRate : number;
  hrv : number;
  bloodPressure : Pressure;
  stressLevel : StressLevel;
  timestamp : string;
  aiInterpretation : string
}.

End Scan.

Module Vitals.

Definition nl : string := String newline EmptyString.

Section Fallback.

Variable Number_toString_other : Q -> string.

Let show := ToString Number_toString_other.

(** [hr] of line 107. *)
Definition rounded_heart_rate (rppgData : Rppg.Response) : number :=
  Math_round (ToNumber (Rppg.heart_rate rppgData)).

(** The status word of the template of line 108. *)
Definition fallback_status (hr : number) : string :=
  if gt hr (Fin 100) then "ELEVATED" else "STABLE".

(** The text of line 108 before the heart-rate token. *)
Definition fallback_head (hr : number) : string :=
  "### REPORT_STATUS: " ++ fallback_status hr ++ nl ++ nl
  ++ "**Summary:** Signals processed via local engine fallback."
  ++ nl ++ nl ++ "**Clinical Findings:**" ++ nl ++ "* ".

(** The text of line 108 after the heart-rate token. *)
Definition fallback_tail (rppgData : Rppg.Response) : string :=
  " - Normal rhythm detected." ++ nl
  ++ "* [BP: "
  ++ show (or_else (Rppg.opt_systolic (Rppg.blood_pressure rppgData))
                   (lit 120))
  ++ "/"
  ++ show (or_else (Rppg.opt_diastolic (Rppg.blood_pressure rppgData))
                   (lit 80))
  ++ "] - Estimated values." ++ nl ++ nl
  ++ "**AI Verdict:** Data captured and stored in local history.".

(** The heart-rate token of the template. *)
Definition bpm_token (hr : number) : string :=
  "[BPM: " ++ show (Num hr) ++ "]".

(** The values [interpretVitals] writes into its prompt
    (geminiService.ts 110-112): the heart rate and the pressures are read
    under the snake_case name first and under the camelCase name when
    that one is falsy. *)
Definition prompt_readings (vitals : Rppg.Response) : list string :=
  [ show (or_else (Rppg.heart_rate vitals) (Rppg.heartRate vitals));
    show (Rppg.hrv vitals);
    show (or_else (Rppg.opt_systolic (Rppg.blood_pressure vitals))
                  (Rppg.opt_systolic (Rppg.bloodPressure vitals)));
    show (or_else (Rppg.opt_diastolic (Rppg.blood_pressure vitals))
                  (Rppg.opt_diastolic (Rppg.bloodPressure vitals))) ].

(** The local report of the [catch] branch (lines 107-108). *)
Definition fallback_report (rppgData : Rppg.Response) : string :=
  let hr := rounded_heart_rate rppgData in
  fallback_head hr ++ bpm_token hr ++ fallback_tail rppgData.

End Fallback.

(** [scanResult] of lines 111-121. *)
Definition assemble (rppgData : Rppg.Response) (now aiText : string)
  : Scan.VitalScanResult :=
  {| Scan.heartRate := Math_round (ToNumber (Rppg.heart_rate rppgData));
     Scan.hrv :=
       Math_round (ToNumber (or_else (Rppg.hrv rppgData) (lit 45)));
     Scan.bloodPressure :=
       {| Scan.systolic :=
            Math_round (ToNumber
              (or_else (Rppg.opt_systolic (Rppg.blood_pressure rppgData))
                       (lit 120)));
          Scan.diastolic :=
            Math_round (ToNumber
              (or_else (Rppg.opt_diastolic (Rppg.blood_pressure rppgData))
                       (lit 80))) |};
     Scan.stressLevel :=
       if gt (ToNumber (or_else (Rppg.stress_index rppgData) (lit 0)))
             (Fin 50)
       then Scan.High else Scan.Normal;
     Scan.timestamp := now;
     Scan.aiInterpretation := aiText |}.

End Vitals.

Import Vitals.

(** ** Promises, the interpretation call and its deadline *)

Module Async.

(** How an awaited promise settles. *)
Inductive settled (A : Type) :=
| Fulfilled (v : A)
| Rejected (message : string).
Arguments Fulfilled {A} v.
Arguments Rejected {A} message.

(** What [fetch] and [response.json()] give [interpretVitals]
    (geminiService.ts 121-130): a failure of either, or the parsed body
    with its [success], [error] and [response] properties. *)
Inductive chat_reply :=
| FetchFailed (message : string)
| Body (success : bool) (error : option string) (response : string).

(** [geminiService.interpretVitals] (geminiService.ts 107-141) from the
    reply on: the [throw] of line 133 and any failure of the [try] block
    are caught at line 137 and replaced by one fixed error. *)
Definition interpretVitals (reply : chat_reply) : settled string :=
  let attempt :=
    match reply with
    | FetchFailed m => Rejected m
    | Body success error response =>
        if success then Fulfilled response
        else Rejected (match error with
                       | Some e => if JsString.truthy e then e
                                   else "Failed to interpret vitals"
                       | None => "Failed to interpret vitals"
                       end)
    end in
  match attempt with
  | Fulfilled text => Fulfilled text
  | Rejected _ => Rejected "Failed to interpret vitals"
  end.

(** The interpretation service as the session sees it: the reply and
    the time, in milliseconds after the call, at which the promise of
    [interpretVitals] settles, or no settlement at all. *)
Inductive remote :=
| Settles (at_ms : N) (reply : chat_reply)
| NeverSettles.

(** The delay of the timer of line 100. *)
Definition deadline_ms : N := 8000.

(** [Promise.race([interpretVitals(..), timeoutPromise])] (lines 99-105):
    the promise that settles first decides; the timer rejects at
    [deadline_ms].  The timer is set (line 99) before the call is made
    (line 103), so it also wins against a settlement in the very
    millisecond of the deadline. *)
Definition race_with_deadline (r : remote) : settled string :=
  match r with
  | Settles at_ms reply =>
      if (at_ms <? deadline_ms)%N then interpretVitals reply
      else Rejected "AI Timeout"
  | NeverSettles => Rejected "AI Timeout"
  end.

(** The inner [try]/[catch] of lines 97-109: the text of the service, or
    the local report on any rejection. *)
Definition interpretation_step (Number_toString_other : Q -> string)
    (rppgData : Rppg.Response) (r : remote) : string :=
  match race_with_deadline r with
  | Fulfilled aiText => aiText
  | Rejected _ => fallback_report Number_toString_other rppgData
  end.

End Async.

Import Async.

(** ** The component: state, refs and handlers *)

Module Session.

Definition Blob := list Byte.byte.

(** [new Blob(chunks)] and [blob.size]. *)
Definition new_Blob (chunks : list Blob) : Blob := List.concat chunks.
Definition size (b : Blob) : nat := List.length b.

Inductive storage := local | cloud.

(** The [useState] cells of the component (lines 13-20) that the session
    handlers read or write. *)
Record State := {
  isRecording : bool;
  recordingTime : Z;
  isProcessing : bool;
  result : option Scan.VitalScanResult;
  error : option string;
  useProxy : bool;
  storageStatus : option storage
}.

(** What the closures of one render see: the prop and the state values
    of that render. *)
Record Render := {
  simulationMode : bool;
  view : State
}.

(** The calls made to the collaborators, latest first. *)
Inductive call :=
| AnalyzeVideo (payload : Blob) (simulation : bool)
               (proxy : option bool)
| InterpretVitals (vitals : Rppg.Response)
| SaveScanResult (scan : Scan.VitalScanResult) (simulation : bool).

Inductive RecorderState := inactive | recording.

(** The [MediaRecorder] made by [startRecording]: its state, whether a
    [stop] event is still to be delivered, and the render whose
    [processRecording] its [onstop] handler calls. *)
Record Recorder := {
  rstate : RecorderState;
  stop_pending : bool;
  mimeType : string;
  onstop_render : Render
}.

(** A running [setInterval]: its id (a positive integer, hence truthy),
    the [startTime] and the render the callback closed over. *)
Record Interval := {
  interval_id : BinNums.positive;
  startTime : Z;
  tick_render : Render
}.

(** The state cells, the refs (lines 22-26) and the window's timers. *)
Record Store := {
  state : State;
  chunksRef : list Blob;
  timerRef : option BinNums.positive;
  mediaRecorderRef : option Recorder;
  intervals : list Interval;
  next_interval : BinNums.positive;
  calls : list call
}.

(** The setters. *)
Definition with_state (f : State -> State) (s : Store) : Store :=
  {| state := f (state s); chunksRef := chunksRef s;
     timerRef := timerRef s; mediaRecorderRef := mediaRecorderRef s;
     intervals := intervals s; next_interval := next_interval s;
     calls := calls s |}.

Definition setIsRecording (b : bool) : Store -> Store :=
  with_state (fun st =>
    {| isRecording := b; recordingTime := recordingTime st;
       isProcessing := isProcessing st; result := result st;
       error := error st; useProxy := useProxy st;
       storageStatus := storageStatus st |}).

Definition setRecordingTime (t : Z) : Store -> Store :=
  with_state (fun st =>
    {| isRecording := isRecording st; recordingTime := t;
       isProcessing := isProcessing st; result := result st;
       error := error st; useProxy := useProxy st;
       storageStatus := storageStatus st |}).

Definition setIsProcessing (b : bool) : Store -> Store :=
  with_state (fun st =>
    {| isRecording := isRecording st; recordingTime := recordingTime st;
       isProcessing := b; result := result st;
       error := error st; useProxy := useProxy st;
       storageStatus := storageStatus st |}).

Definition setResult (r : option Scan.VitalScanResult) : Store -> Store :=
  with_state (fun st =>
    {| isRecording := isRecording st; recordingTime := recordingTime st;
       isProcessing := isProcessing st; result := r;
       error := error st; useProxy := useProxy st;
       storageStatus := storageStatus st |}).

Definition setError (e : option string) : Store -> Store :=
  with_state (fun st =>
    {| isRecording := isRecording st; recordingTime := recordingTime st;
       isProcessing := isProcessing st; result := result st;
       error := e; useProxy := useProxy st;
       storageStatus := storageStatus st |}).

Definition setStorageStatus (x : option storage) : Store -> Store :=
  with_state (fun st =>
    {| isRecording := isRecording st; recordingTime := recordingTime st;
       isProcessing := isProcessing st; result := result st;
       error := error st; useProxy := useProxy st;
       storageStatus := x |}).

Definition log (c : call) (s : Store) : Store :=
  {| state := state s; chunksRef := chunksRef s;
     timerRef := timerRef s; mediaRecorderRef := mediaRecorderRef s;
     intervals := intervals s; next_interval := next_interval s;
     calls := c :: calls s |}.

(** *** A monad for handlers that write state and may throw *)

Definition M (A : Type) : Type := Store -> Store * settled A.

Definition ret {A} (a : A) : M A := fun s => (s, Fulfilled a).

Definition bind {A B} (m : M A) (k : A -> M B) : M B :=
  fun s => match m s with
           | (s', Fulfilled a) => k a s'
           | (s', Rejected e) => (s', Rejected e)
           end.

Definition throw {A} (message : string) : M A :=
  fun s => (s, Rejected message).

(** A state write. *)
Definition write (f : Store -> Store) : M unit :=
  fun s => (f s, Fulfilled tt).

(** [await p] for a promise that settles as [p]. *)
Definition await {A} (p : settled A) : M A := fun s => (s, p).

(** [try { m } catch (err) { handler(err.message) }]. *)
Definition try_catch {A} (m : M A) (handler : string -> M A) : M A :=
  fun s => match m s with
           | (s', Fulfilled a) => (s', Fulfilled a)
           | (s', Rejected e) => handler e s'
           end.

(** [try { m } finally { cleanup }]. *)
Definition try_finally {A} (m : M A) (cleanup : M unit) : M A :=
  fun s => match m s with
           | (s', r) => match cleanup s' with
                        | (s'', Fulfilled _) => (s'', r)
                        | (s'', Rejected e) => (s'', Rejected e)
                        end
           end.

Definition when (b : bool) (m : M unit) : M unit :=
  if b then m else ret tt.

Declare Scope session_scope.
Delimit Scope session_scope with session.
Notation "x <- m ;; k" := (bind m (fun x => k))
  (at level 61, m at next level, right associativity) : session_scope.
Notation "m ;; k" := (bind m (fun _ => k))
  (at level 61, right associativity) : session_scope.

End Session.

Module VitalScan.
Import Session.
Local Open Scope session_scope.

(** What the browser answers when [startRecording] runs. *)
Record StartEnv := {
  Date_now : Z;             (* [Date.now()] of line 168 *)
  has_stream : bool;        (* [videoRef.current?.srcObject] is set *)
  vp8_supported : bool;     (* [MediaRecorder.isTypeSupported] *)
  recorder_fails : bool     (* the recorder cannot be made or started *)
}.

Definition set_timer (id : option BinNums.positive)
    (timers : list Interval) (next : BinNums.positive) (s : Store)
  : Store :=
  {| state := state s; chunksRef := chunksRef s; timerRef := id;
     mediaRecorderRef := mediaRecorderRef s; intervals := timers;
     next_interval := next; calls := calls s |}.

Definition set_chunks (c : list Blob) (s : Store) : Store :=
  {| state := state s; chunksRef := c; timerRef := timerRef s;
     mediaRecorderRef := mediaRecorderRef s; intervals := intervals s;
     next_interval := next_interval s; calls := calls s |}.

Definition set_recorder (r : option Recorder) (s : Store) : Store :=
  {| state := state s; chunksRef := chunksRef s; timerRef := timerRef s;
     mediaRecorderRef := r; intervals := intervals s;
     next_interval := next_interval s; calls := calls s |}.

(** [clearInterval(id)]. *)
Definition clearInterval (id : BinNums.positive) (s : Store) : Store :=
  set_timer (timerRef s)
    (filter (fun i => negb (Pos.eqb (interval_id i) id)) (intervals s))
    (next_interval s) s.

Definition no_pulse_message : string :=
  "The diagnostic engine could not extract a pulse from this video.".

Definition no_data_message : string :=
  "No video data captured. Please hold still.".

Definition network_message : string :=
  "Network Error: Cannot connect to rPPG server on Port 8001. Check CORS or use Simulation Mode.".

Section Collaborators.

(** The runtime's printing of non-integral numbers. *)
Variable Number_toString_other : Q -> string.

(** [localServices.analyzeVideo(blob, simulation, useProxy)]: how its
    promise settles; [None] is a [null] or [undefined] body. *)
Variable analyzeVideo :
  Blob -> bool -> option bool -> settled (option Rppg.Response).

(** The chat backend behind [geminiService.interpretVitals]. *)
Variable interpretation_service : Rppg.Response -> remote.

(** [localServices.saveScanResult(scanResult, simulationMode)]. *)
Variable saveScanResult : Scan.VitalScanResult -> bool -> settled bool.

(** [new Date().toISOString()] of line 119. *)
Variable now_iso : string.

(** [isMounted.current] as read at lines 123, 131 and 139; the unmount
    clean-up may run during any [await] before them. *)
Variable mounted_at_result mounted_at_catch mounted_at_finally : bool.

(** The inner [try]/[catch] of lines 97-109 inside the handler: the
    call is made, its promise is raced against the timer, and any
    rejection is answered with the local report. *)
Definition interpretation (data : Rppg.Response) : M string :=
  try_catch
    (write (log (InterpretVitals data)) ;;
     await (race_with_deadline (interpretation_service data)))
    (fun _ => ret (fallback_report Number_toString_other data)).

(** The [try] block of [processRecording] (lines 82-127). *)
Definition process_body (r : Render) (capturedChunks : list Blob)
  : M unit :=
  rppgData <-
    (if simulationMode r then
       write (log (AnalyzeVideo (new_Blob []) true None)) ;;
       await (analyzeVideo (new_Blob []) true None)
     else
       let blob := new_Blob capturedChunks in
       if (size blob =? 0)%nat then throw no_data_message
       else
         write (log (AnalyzeVideo blob false
                       (Some (useProxy (view r))))) ;;
         await (analyzeVideo blob false (Some (useProxy (view r))))) ;;
  match rppgData with
  | None => throw no_pulse_message
  | Some data =>
      if is_undefined (Rppg.heart_rate data) then throw no_pulse_message
      else
        aiText <- interpretation data ;;
        let scanResult := assemble data now_iso aiText in
        when mounted_at_result
          (write (setResult (Some scanResult)) ;;
           write (log (SaveScanResult scanResult (simulationMode r))) ;;
           saved <- await (saveScanResult scanResult (simulationMode r)) ;;
           write (setStorageStatus
                    (Some (if saved : bool
                           then (if simulationMode r then local
                                 else cloud)
                           else local))))
  end.

(** The [catch] block (lines 129-137). *)
Definition process_catch (message : string) : M unit :=
  when mounted_at_catch
    (write (setError
              (Some (if includes message "Failed to fetch"
                     then network_message else message)))).

(** [processRecording] (lines 76-141), run to completion. *)
Definition processRecording (r : Render) (capturedChunks : list Blob)
  : M unit :=
  if isProcessing (view r) then ret tt
  else
    write (setIsProcessing true) ;;
    write (setError None) ;;
    try_finally
      (try_catch (process_body r capturedChunks) process_catch)
      (when mounted_at_finally (write (setIsProcessing false))).

(** [recorder.stop()]: the recorder becomes inactive and owes a [stop]
    event. *)
Definition recorder_stop (rec : Recorder) : Recorder :=
  {| rstate := inactive; stop_pending := true;
     mimeType := mimeType rec; onstop_render := onstop_render rec |}.

(** [stopRecording] (lines 143-157) of the render [r].  The promise of
    [processRecording] is not awaited: only its effects remain. *)
Definition stopRecording (r : Render) (s : Store) : Store :=
  if negb (isRecording (view r)) then s
  else
    let s1 := setIsRecording false s in
    let s2 := match timerRef s1 with
              | Some id => set_timer None (intervals (clearInterval id s1))
                             (next_interval s1) s1
              | None => s1
              end in
    match mediaRecorderRef s2 with
    | Some rec =>
        match rstate rec with
        | recording => set_recorder (Some (recorder_stop rec)) s2
        | inactive => fst (processRecording r (chunksRef s2) s2)
        end
    | None => fst (processRecording r (chunksRef s2) s2)
    end.

(** The callback given to [setInterval] (lines 169-175). *)
Definition interval_callback (i : Interval) (now : Z) (s : Store)
  : Store :=
  let elapsed := ((now - startTime i) / 1000)%Z in
  let s1 := setRecordingTime elapsed s in
  if (15 <=? elapsed)%Z then stopRecording (tick_render i) s1 else s1.

(** The window runs the callback of interval [id], if still set. *)
Definition fire_interval (id : BinNums.positive) (now : Z) (s : Store)
  : Store :=
  match find (fun i => Pos.eqb (interval_id i) id) (intervals s) with
  | Some i => interval_callback i now s
  | None => s
  end.

(** The ticks of interval [id] at the given times, one after the other. *)
Definition run_ticks (id : BinNums.positive) (times : list Z) (s : Store)
  : Store :=
  fold_left (fun st t => fire_interval id t st) times s.

(** [recorder.ondataavailable] (lines 186-188). *)
Definition ondataavailable (data : Blob) (s : Store) : Store :=
  if (0 <? size data)%nat then set_chunks (chunksRef s ++ [data]) s
  else s.

(** [recorder.onstop] (lines 190-192) for the recorder the ref holds,
    when its [stop] event is delivered. *)
Definition onstop (s : Store) : Store :=
  match mediaRecorderRef s with
  | Some rec =>
      if stop_pending rec then
        let s1 := set_recorder
                    (Some {| rstate := rstate rec; stop_pending := false;
                             mimeType := mimeType rec;
                             onstop_render := onstop_render rec |}) s in
        fst (processRecording (onstop_render rec) (chunksRef s1) s1)
      else s
  | None => s
  end.

(** [startRecording] (lines 159-202) of the render [r]. *)
Definition startRecording (r : Render) (env : StartEnv) (s : Store)
  : Store :=
  if isRecording (view r) || isProcessing (view r) then s
  else
    let s1 := setError None s in
    let s2 := setResult None s1 in
    let s3 := set_chunks [] s2 in
    let s4 := setRecordingTime 0 s3 in
    let s5 := setIsRecording true s4 in
    let id := next_interval s5 in
    let s6 := set_timer (Some id)
                ({| interval_id := id; startTime := Date_now env;
                    tick_render := r |} :: intervals s5)
                (Pos.succ id) s5 in
    if negb (simulationMode r) && has_stream env then
      if recorder_fails env then
        let s7 := setError
                    (Some "Recording engine failed. Please try Simulation Mode.")
                    s6 in
        let s8 := setIsRecording false s7 in
        match timerRef s8 with
        | Some t => clearInterval t s8
        | None => s8
        end
      else
        set_recorder
          (Some {| rstate := recording; stop_pending := false;
                   mimeType := if vp8_supported env
                               then "video/webm;codecs=vp8"
                               else "video/webm";
                   onstop_render := r |}) s6
    else s6.

End Collaborators.

(** The render of the current state: the closures a click reaches. *)
Definition render (simulation : bool) (s : Store) : Render :=
  {| simulationMode := simulation; view := state s |}.

(** The store of a freshly mounted component. *)
Definition initial_store : Store :=
  {| state := {| isRecording := false; recordingTime := 0;
                 isProcessing := false; result := None; error := None;
                 useProxy := false; storageStatus := None |};
     chunksRef := []; timerRef := None; mediaRecorderRef := None;
     intervals := []; next_interval := 1%positive; calls := [] |}.

End VitalScan.

(** ** What the scan view shows (VitalScan.tsx 282-375) *)

Module Panel.
Import Session.

(** The body of the report card (lines 346-368). *)
Inductive panel :=
| ErrorPanel (message : string)
| ReportPanel (children : option (list (option ReportBlock)))
| ReadyPanel.

(** [error ? ... : result ? renderClinicalReport(..) : ...]; an empty
    error string is falsy. *)
Definition report_panel (st : State) : panel :=
  let without_error :=
    match result st with
    | Some r =>
        let ai := Scan.aiInterpretation r in
        ReportPanel (renderClinicalReport (if truthy ai then ai else ""))
    | None => ReadyPanel
    end in
  match error st with
  | Some e => if truthy e then ErrorPanel e else without_error
  | None => without_error
  end.

(** The heart-rate tile (line 337): [result?.heartRate || '--']. *)
Definition heart_rate_tile (Number_toString_other : Q -> string)
    (st : State) : string :=
  match result st with
  | Some r =>
      if ToBoolean (Num (Scan.heartRate r))
      then Number_toString Number_toString_other (Scan.heartRate r)
      else "--"
  | None => "--"
  end.

(** The pressure tile (line 341). *)
Definition pressure_tile (Number_toString_other : Q -> string)
    (st : State) : string :=
  match result st with
  | Some r =>
      Number_toString Number_toString_other
        (Scan.systolic (Scan.bloodPressure r))
      ++ "/"
      ++ Number_toString Number_toString_other
           (Scan.diastolic (Scan.bloodPressure r))
  | None => "--/--"
  end.

(** The start button is rendered (line 290). *)
Definition start_button_shown (st : State) : bool :=
  negb (isRecording st) && negb (isProcessing st).

(** The footer with Clear and Export is rendered (line 370). *)
Definition footer_shown (st : State) : bool :=
  match result st with Some _ => true | None => false end.

(** The Clear button (line 372). *)
Definition clear : Store -> Store := setResult None.

Definition camera_denied_message : string :=
  "Camera access denied. Please check browser permissions.".

(** [startCamera] (lines 55-68), as far as the state cells go: a denied
    request sets the error while the component is mounted. *)
Definition startCamera (granted mounted : bool) (s : Store) : Store :=
  if granted then s
  else if mounted then setError (Some camera_denied_message) s
  else s.

(** The Retry button (line 352). *)
Definition retry (granted mounted : bool) (s : Store) : Store :=
  startCamera granted mounted (setError None s).

End Panel.

(** ** The component over time: handlers interleaved with the browser *)

Module Controller.
Import Session VitalScan.

(** A call of [processRecording] that has passed its guard and waits for
    its collaborators: the render it closed over and the chunks it was
    given. *)
Record Pending := {
  of_render : Render;
  given : list Blob
}.

(** The store together with the calls of [processRecording] under way. *)
Record World := {
  store : Store;
  processing : list Pending
}.

Definition with_store (s : Store) (w : World) : World :=
  {| store := s; processing := processing w |}.

(** What can happen to the mounted component. *)
Inductive event :=
| ClickStart (simulation : bool) (env : StartEnv)
    (* the handler of line 291, of the current render *)
| Tick (id : BinNums.positive) (now : Z)
    (* the window runs the callback of an interval *)
| DataAvailable (data : Blob)
    (* the recorder hands over a chunk *)
| TracksEnded
    (* the browser ends the recording because the stream ended *)
| StopDelivered
    (* the recorder's [stop] event is delivered *)
| Settled (now_iso : string) (mounted_at_result mounted_at_catch
                              mounted_at_finally : bool)
    (* the collaborators of the oldest call under way have answered *)
| ClickClear
| ClickRetry (granted mounted : bool).

Section Collaborators.

Variable Number_toString_other : Q -> string.
Variable analyzeVideo :
  Blob -> bool -> option bool -> settled (option Rppg.Response).
Variable interpretation_service : Rppg.Response -> remote.
Variable saveScanResult : Scan.VitalScanResult -> bool -> settled bool.

(** [processRecording] up to its [try] (lines 77-79): the guard of the
    render called and the two writes. *)
Definition begin_processing (r : Render) (capturedChunks : list Blob)
    (w : World) : World :=
  if isProcessing (view r) then w
  else
    {| store := setError None (setIsProcessing true (store w));
       processing := processing w
                     ++ [{| of_render := r; given := capturedChunks |}] |}.

(** The [try] statement of [processRecording] (lines 81-140), once its
    promises have settled. *)
Definition finish_processing (now_iso : string)
    (mounted_at_result mounted_at_catch mounted_at_finally : bool)
    (p : Pending) : M unit :=
  try_finally
    (try_catch
       (process_body Number_toString_other analyzeVideo
          interpretation_service saveScanResult now_iso mounted_at_result
          (of_render p) (given p))
       (process_catch mounted_at_catch))
    (when mounted_at_finally (write (setIsProcessing false))).

(** [stopRecording] (lines 143-157) of the render [r]. *)
Definition stop_recording (r : Render) (w : World) : World :=
  if negb (isRecording (view r)) then w
  else
    let s1 := setIsRecording false (store w) in
    let s2 := match timerRef s1 with
              | Some id => set_timer None (intervals (clearInterval id s1))
                             (next_interval s1) s1
              | None => s1
              end in
    match mediaRecorderRef s2 with
    | Some rec =>
        match rstate rec with
        | recording =>
            with_store (set_recorder (Some (recorder_stop rec)) s2) w
        | inactive => begin_processing r (chunksRef s2) (with_store s2 w)
        end
    | None => begin_processing r (chunksRef s2) (with_store s2 w)
    end.

(** The callback of an interval (lines 169-175), if still set. *)
Definition tick (id : BinNums.positive) (now : Z) (w : World) : World :=
  match find (fun i => Pos.eqb (interval_id i) id) (intervals (store w)) with
  | Some i =>
      let elapsed := ((now - startTime i) / 1000)%Z in
      let w1 := with_store (setRecordingTime elapsed (store w)) w in
      if (15 <=? elapsed)%Z then stop_recording (tick_render i) w1 else w1
  | None => w
  end.

(** The browser stops the recorder the ref holds: it becomes inactive
    and owes its [stop] event. *)
Definition tracks_ended (s : Store) : Store :=
  match mediaRecorderRef s with
  | Some rec =>
      match rstate rec with
      | recording => set_recorder (Some (recorder_stop rec)) s
      | inactive => s
      end
  | None => s
  end.

(** [recorder.onstop] (lines 190-192) when the event is delivered. *)
Definition stop_event (w : World) : World :=
  match mediaRecorderRef (store w) with
  | Some rec =>
      if stop_pending rec then
        let s1 := set_recorder
                    (Some {| rstate := rstate rec; stop_pending := false;
                             mimeType := mimeType rec;
                             onstop_render := onstop_render rec |})
                    (store w) in
        begin_processing (onstop_render rec) (chunksRef s1)
          (with_store s1 w)
      else w
  | None => w
  end.

(** The oldest call under way runs its [try] statement. *)
Definition settle (now_iso : string)
    (m_result m_catch m_finally : bool) (w : World) : World :=
  match processing w with
  | p :: rest =>
      {| store := fst (finish_processing now_iso m_result m_catch
                         m_finally p (store w));
         processing := rest |}
  | [] => w
  end.

(** One event.  A click reaches the handler of the current render. *)
Definition step (e : event) (w : World) : World :=
  match e with
  | ClickStart simulation env =>
      with_store (startRecording (render simulation (store w)) env
                    (store w)) w
  | Tick id now => tick id now w
  | DataAvailable data => with_store (ondataavailable data (store w)) w
  | TracksEnded => with_store (tracks_ended (store w)) w
  | StopDelivered => stop_event w
  | Settled now_iso m_result m_catch m_finally =>
      settle now_iso m_result m_catch m_finally w
  | ClickClear => with_store (Panel.clear (store w)) w
  | ClickRetry granted mounted =>
      with_store (Panel.retry granted mounted (store w)) w
  end.

Definition run (events : list event) (w : World) : World :=
  fold_left (fun st e => step e st) events w.

End Collaborators.

(** The freshly mounted component. *)
Definition initial_world : World :=
  {| store := initial_store; processing := [] |}.

End Controller.

(** ** The other calls of [geminiService] (geminiService.ts) *)

Module Gemini.

Inductive role := user | model.

Record ChatMessage := { chat_role : role; chat_text : string }.

Record MedicalReport := {
  _id : string;
  extractedText : string;
  aiAnalysis : string;
  uploadedAt : string
}.

(** [s || fallback] on strings. *)
Definition or_text (s fallback : string) : string :=
  if truthy s then s else fallback.

(** What [fetch] and [json()] give [fetchMedicalReports]: a failure, or
    a body whose [reports] property may be missing. *)
Inductive reports_reply :=
| ReportsFailed (message : string)
| ReportsBody (reports : option (list MedicalReport)).

(** [fetchMedicalReports] (lines 17-26): it resolves in every case. *)
Definition fetchMedicalReports (reply : reports_reply)
  : list MedicalReport :=
  match reply with
  | ReportsBody (Some reports) => reports
  | ReportsBody None => []
  | ReportsFailed _ => []
  end.

(** The body shared by [chatWithContext], [generateDietPlan] and
    [getHealthInsights]: line 43 throws the server's error or the
    default, and the [catch] of line 47 throws again with the message it
    caught, or the default when that message is empty. *)
Definition backend_call (default : string) (reply : chat_reply)
  : settled string :=
  let attempt :=
    match reply with
    | FetchFailed m => Rejected m
    | Body success error response =>
        if success then Fulfilled response
        else Rejected (match error with
                       | Some e => or_text e default
                       | None => default
                       end)
    end in
  match attempt with
  | Fulfilled text => Fulfilled text
  | Rejected m => Rejected (or_text m default)
  end.

(** [chatWithContext] (lines 29-51). *)
Definition chatWithContext (reply : chat_reply) : settled string :=
  backend_call "Failed to get AI response" reply.

(** [generateDietPlan] (lines 54-76). *)
Definition generateDietPlan (reply : chat_reply) : settled string :=
  backend_call "Failed to generate diet plan" reply.

(** [getHealthInsights] (lines 79-98). *)
Definition getHealthInsights (reply : chat_reply) : settled string :=
  backend_call "Failed to generate insights" reply.

(** [analyzeSymptoms] (lines 101-104): the reports are fetched, then the
    chat endpoint is called with the messages and those reports. *)
Definition analyzeSymptoms (reports : reports_reply)
    (chat_endpoint : list ChatMessage -> list MedicalReport -> chat_reply)
    (messages : list ChatMessage) : settled string :=
  chatWithContext (chat_endpoint messages (fetchMedicalReports reports)).

Definition image_unavailable_message : string :=
  "Image analysis temporarily unavailable. Please try again later.".

(** [analyzeReport] (lines 144-165): the [catch] returns a message
    instead of throwing. *)
Definition analyzeReport (reply : chat_reply) : settled string :=
  let attempt :=
    match reply with
    | FetchFailed m => Rejected m
    | Body success error response =>
        if success then Fulfilled response
        else Rejected (match error with
                       | Some e => or_text e "Failed to analyze image"
                       | None => "Failed to analyze image"
                       end)
    end in
  match attempt with
  | Fulfilled text => Fulfilled text
  | Rejected _ => Fulfilled image_unavailable_message
  end.

End Gemini.

(** ** The chat view, [handleSend] (ChatAssistant.tsx 21-47) *)

Module Chat.
Import Gemini.

Record Message := { role : Gemini.role; text : string; timestamp : Z }.

Record ChatState := {
  messages : list Message;
  input : string;
  isLoading : bool
}.

Definition sorry_message : string :=
  "I'm sorry, I couldn't process that. Please try again.".

Definition failure_message : string :=
  "An error occurred. Please check your Gemini API key and connection.".

(** The entry of [chatHistory] made from a message (line 31). *)
Definition history_entry (m : Message) : ChatMessage :=
  {| chat_role := role m; chat_text := text m |}.

(** The [chatHistory] of lines 31-32, built from the messages and the
    input the handler closed over. *)
Definition chatHistory (snap : ChatState) : list ChatMessage :=
  map history_entry (messages snap)
  ++ [{| chat_role := user; chat_text := input snap |}].

(** [setMessages(prev => [...prev, m])]. *)
Definition push_message (m : Message) (st : ChatState) : ChatState :=
  {| messages := messages st ++ [m]; input := input st;
     isLoading := isLoading st |}.

Definition setInput (s : string) (st : ChatState) : ChatState :=
  {| messages := messages st; input := s; isLoading := isLoading st |}.

Definition setIsLoading (b : bool) (st : ChatState) : ChatState :=
  {| messages := messages st; input := input st; isLoading := b |}.

(** [handleSend] of the render [snap], run to completion: [service] is
    [geminiService.analyzeSymptoms], [sent_at] and [answered_at] are the
    two [new Date()]. *)
Definition handleSend (snap : ChatState)
    (service : list ChatMessage -> settled string)
    (sent_at answered_at : Z) (st : ChatState) : ChatState :=
  if negb (truthy (trim (input snap))) || isLoading snap then st
  else
    let userMessage :=
      {| role := user; text := input snap; timestamp := sent_at |} in
    let st1 := setIsLoading true (setInput "" (push_message userMessage st)) in
    let st2 :=
      match service (chatHistory snap) with
      | Fulfilled response =>
          push_message
            {| role := model; text := or_text response sorry_message;
               timestamp := answered_at |} st1
      | Rejected _ =>
          push_message
            {| role := model; text := failure_message;
               timestamp := answered_at |} st1
      end in
    setIsLoading false st2.

(** The paragraphs of a message bubble (line 78). *)
Definition paragraphs (m : Message) : list string :=
  split newline (text m).

End Chat.

(** ** The report view, [ReportAnalyzer] (src/unnamed/part_002) *)

Module Analyzer.
Import Gemini.

Record File := { type : string }.

Record AnalyzerState := {
  selectedFile : option File;
  previewUrl : option string;
  analysis : option string;
  isAnalyzing : bool
}.

Definition could_not_analyze : string := "Could not analyze the report.".

Definition error_analyzing : string :=
  "Error analyzing report. Please try a clearer image.".

Definition setAnalysis (a : option string) (st : AnalyzerState)
  : AnalyzerState :=
  {| selectedFile := selectedFile st; previewUrl := previewUrl st;
     analysis := a; isAnalyzing := isAnalyzing st |}.

Definition setIsAnalyzing (b : bool) (st : AnalyzerState) : AnalyzerState :=
  {| selectedFile := selectedFile st; previewUrl := previewUrl st;
     analysis := analysis st; isAnalyzing := b |}.

(** [previewUrl.split(',')[1]] (line 29): [None] is [undefined]. *)
Definition base64_of (url : string) : option string :=
  nth_error (split "," url) 1.

(** [analyzeFile] (lines 24-38) of the render [snap]; [service] is
    [geminiService.analyzeReport]. *)
Definition analyzeFile (snap : AnalyzerState)
    (service : option string -> string -> settled string)
    (st : AnalyzerState) : AnalyzerState :=
  match previewUrl snap, selectedFile snap with
  | Some url, Some file =>
      if truthy url then
        let st1 := setIsAnalyzing true st in
        let st2 :=
          match service (base64_of url) (type file) with
          | Fulfilled result =>
              setAnalysis (Some (or_text result could_not_analyze)) st1
          | Rejected _ => setAnalysis (Some error_analyzing) st1
          end in
        setIsAnalyzing false st2
      else st
  | _, _ => st
  end.

(** The elements of the analysis text (lines 139-143). *)
Inductive element :=
| H4 (content : string)
| Li (content : string)
| P (content : string).

Definition render_analysis_line (line : string) : element :=
  if startsWith line "#" then H4 (remove_all ["#"] line)
  else if startsWith line "*" then Li (trim (remove_all ["*"] line))
  else P line.

Definition render_analysis (text : string) : list element :=
  map render_analysis_line (split newline text).

End Analyzer.

(** ** The shell, [App] (App.tsx 14-20) *)

Module Shell.

(** The initial [simulationMode] (lines 14-16) from what
    [localStorage.getItem] returns; [None] is [null]. *)
Definition initial_simulationMode (stored : option string) : bool :=
  match stored with
  | Some s => String.eqb s "true"
  | None => false
  end.

(** [simulationMode.toString()], the value the effect of lines 18-20
    stores. *)
Definition stored_simulationMode (mode : bool) : string :=
  if mode then "true" else "false".

End Shell.

(** ** The live readings of the dashboard (Dashboard.tsx 100-105) *)

Module Readings.

Record HealthData := { bpm : Z; spo2 : Z; created_at : string }.

(** [a.slice(-n)]: the last [n] entries, all of them when there are
    fewer. *)
Definition slice_last {A : Type} (n : nat) (a : list A) : list A :=
  skipn (List.length a - n) a.

(** The update of [healthHistory] on an insert event (line 103). *)
Definition on_insert (reading : HealthData) (prev : list HealthData)
  : list HealthData :=
  slice_last 20 (prev ++ [reading]).

End Readings.

(** * Vocabulary of the statements and concrete inputs *)

Import Session VitalScan.

(** A response with the given heart rate, a fractional [hrv], a zero
    diastolic pressure and a stress index on the threshold. *)
Definition sample_response (hr : Q) : Rppg.Response :=
  {| Rppg.heart_rate := Num (Fin hr);
     Rppg.heartRate := undefined;
     Rppg.hrv := Num (Fin (523 # 10));
     Rppg.blood_pressure :=
       Some {| Rppg.systolic := lit 118; Rppg.diastolic := lit 0 |};
     Rppg.bloodPressure := None;
     Rppg.stress_index := lit 50 |}.

(** Every code unit of the string is white space. *)
Fixpoint all_white (s : string) : bool :=
  match s with
  | EmptyString => true
  | String c s' => is_white_space c && all_white s'
  end.

(** A word occurs in a text. *)
Definition occurs (word text : string) : Prop :=
  exists pre post, text = (pre ++ word ++ post)%string.

(** The word a token carries for each badge. *)
Definition label (k : metric_kind) : string :=
  match k with HR => "BPM" | BP => "BP" | HRV => "HRV" end.

(** The bracketed token [[LABEL:v]]. *)
Definition token (k : metric_kind) (v : string) : string :=
  ("[" ++ label k ++ ":" ++ v ++ "]")%string.

(** No opening bracket in the text. *)
Fixpoint no_open (s : string) : bool :=
  match s with
  | EmptyString => true
  | String c s' => negb (Ascii.eqb c "[") && no_open s'
  end.

(** No closing bracket and no line terminator in the text. *)
Fixpoint tag_body (s : string) : bool :=
  match s with
  | EmptyString => true
  | String c s' =>
      negb (Ascii.eqb c "]") && negb (is_line_terminator c) && tag_body s'
  end.

(** A zero read as an absent property. *)
Definition zero_as_missing (v : value) : value :=
  match v with
  | Num (Fin q) => if Qeq_bool q 0 then undefined else v
  | _ => v
  end.

(** The response with every zero among [hrv], the two pressures and the
    stress index taken away. *)
Definition forget_zeros (r : Rppg.Response) : Rppg.Response :=
  {| Rppg.heart_rate := Rppg.heart_rate r;
     Rppg.heartRate := Rppg.heartRate r;
     Rppg.hrv := zero_as_missing (Rppg.hrv r);
     Rppg.blood_pressure :=
       option_map
         (fun p => {| Rppg.systolic := zero_as_missing (Rppg.systolic p);
                      Rppg.diastolic := zero_as_missing (Rppg.diastolic p) |})
         (Rppg.blood_pressure r);
     Rppg.bloodPressure := Rppg.bloodPressure r;
     Rppg.stress_index := zero_as_missing (Rppg.stress_index r) |}.

(** A blood-pressure object whose two readings are 0. *)
Definition zero_pressure : option Rppg.Pressure :=
  Some {| Rppg.systolic := lit 0; Rppg.diastolic := lit 0 |}.

(** The stress index as the comparison of line 118 sees it: the number
    the response carries, and 0 when it is absent, [null], [NaN] or 0. *)
Definition stress_value (r : Rppg.Response) : Q :=
  match Rppg.stress_index r with
  | Num (Fin q) => q
  | _ => 0
  end.

(** [n > bound] as a proposition; nothing holds of [NaN]. *)
Definition exceeds (n : number) (bound : Q) : Prop :=
  match n with
  | Fin q => (bound < q)%Q
  | NaN => False
  end.

(** What [processRecording] of the render [r] hands to the extractor. *)
Definition payload_of (r : Render) (chunks : list Blob) : Blob :=
  if simulationMode r then new_Blob [] else new_Blob chunks.

(** The proxy argument of that call; the simulated call passes none. *)
Definition proxy_of (r : Render) : option bool :=
  if simulationMode r then None else Some (useProxy (view r)).

(** Unfold a run of the handler down to its case analyses. *)
Ltac run_handler :=
  unfold processRecording, process_body, process_catch, try_finally,
    try_catch, bind, write, await, ret, throw, when.

(** A response that carries the heart rate under the camelCase name
    only. *)
Definition camel_case_response : Rppg.Response :=
  {| Rppg.heart_rate := undefined;
     Rppg.heartRate := lit 72;
     Rppg.hrv := lit 50;
     Rppg.blood_pressure := None;
     Rppg.bloodPressure :=
       Some {| Rppg.systolic := lit 118; Rppg.diastolic := lit 76 |};
     Rppg.stress_index := lit 20 |}.

(** A response in the snake_case convention. *)
Definition snake_case_response : Rppg.Response :=
  {| Rppg.heart_rate := Num (Fin (723 # 10));
     Rppg.heartRate := undefined;
     Rppg.hrv := lit 50;
     Rppg.blood_pressure :=
       Some {| Rppg.systolic := lit 118; Rppg.diastolic := lit 76 |};
     Rppg.bloodPressure := None;
     Rppg.stress_index := lit 20 |}.

(** Collaborators for the runs below: an extractor that answers with a
    fixed response, an interpretation service that never settles, a
    store that saves, and a component that stays mounted. *)
Definition run_with (answer : option Rppg.Response) (r : Render)
    (chunks : list Blob) (s : Store) : Store :=
  fst (processRecording (fun _ => "?") (fun _ _ _ => Fulfilled answer)
         (fun _ => NeverSettles) (fun _ _ => Fulfilled true)
         "2025-01-01T00:00:00.000Z" true true true r chunks s).

(** A start at time 0 with no camera stream attached. *)
Definition sim_env : StartEnv :=
  {| Date_now := 0; has_stream := false; vp8_supported := true;
     recorder_fails := false |}.

(** The store one tick into a simulated recording. *)
Definition capturing_store : Store :=
  fire_interval (fun _ => "?") (fun _ _ _ => Fulfilled None)
    (fun _ => NeverSettles) (fun _ _ => Fulfilled true) "" true true true
    1%positive 1000
    (startRecording (render true initial_store) sim_env initial_store).

(** A start at time 0 with a camera stream and a working recorder. *)
Definition live_env : StartEnv :=
  {| Date_now := 0; has_stream := true; vp8_supported := true;
     recorder_fails := false |}.

(** The handlers with the collaborators of the concrete runs. *)
Definition ticks_of (times : list Z) (s : Store) : Store :=
  run_ticks (fun _ => "?") (fun _ _ _ => Fulfilled None)
    (fun _ => NeverSettles) (fun _ _ => Fulfilled true) ""
    true true true 1%positive times s.

(** [stopRecording] with the same collaborators. *)
Definition stop_of (r : Render) (s : Store) : Store :=
  stopRecording (fun _ => "?") (fun _ _ _ => Fulfilled None)
    (fun _ => NeverSettles) (fun _ _ => Fulfilled true) ""
    true true true r s.

(** [onstop] with an extractor that answers [snake_case_response], a
    service that replies after 1200 ms and a store that saves. *)
Definition onstop_of (s : Store) : Store :=
  onstop (fun _ => "?") (fun _ _ _ => Fulfilled (Some snake_case_response))
    (fun _ => Settles 1200 (Body true None "### REPORT_STATUS: OPTIMAL"))
    (fun _ _ => Fulfilled true) "2025-01-01T00:00:00.000Z"
    true true true s.

(** The clock of a session ticked once a second for sixteen seconds. *)
Definition every_second : list Z :=
  [1000; 2000; 3000; 4000; 5000; 6000; 7000; 8000; 9000;
   10000; 11000; 12000; 13000; 14000; 15000; 16000]%Z.

(** [lines.join(sep)]: the lines with the separator between them. *)
Fixpoint join (sep : ascii) (lines : list string) : string :=
  match lines with
  | [] => EmptyString
  | l :: rest =>
      match rest with
      | [] => l
      | _ => (l ++ String sep (join sep rest))%string
      end
  end.

(** The code unit does not occur in the text. *)
Fixpoint lacks (c : ascii) (s : string) : bool :=
  match s with
  | EmptyString => true
  | String d s' => negb (Ascii.eqb d c) && lacks c s'
  end.

(** How often the code unit occurs in the text. *)
Fixpoint occurrences (c : ascii) (s : string) : nat :=
  match s with
  | EmptyString => 0
  | String d s' => (if Ascii.eqb d c then 1 else 0) + occurrences c s'
  end.

(** Every plain-text part of a block is free of asterisks. *)
Definition plain_parts_lack_asterisk (b : ReportBlock) : Prop :=
  match b with
  | PlainLine t => lacks "*" t = true
  | FindingLine segments =>
      Forall (fun seg => match seg with
                         | PlainText t => lacks "*" t = true
                         | MetricTag _ _ => True
                         end) segments
  | _ => True
  end.

(** The text a block shows after trimming, if it has one. *)
Definition trimmed_text (b : ReportBlock) : option string :=
  match b with
  | StatusBanner status _ => Some status
  | VerdictBlock t => Some t
  | _ => None
  end.

(** The nine lines of the template of line 108. *)
Definition fallback_lines (status a b c : string) : list string :=
  [ "### REPORT_STATUS: " ++ status;
    "";
    "**Summary:** Signals processed via local engine fallback.";
    "";
    "**Clinical Findings:**";
    "* " ++ token HR (" " ++ a) ++ " - Normal rhythm detected.";
    "* " ++ token BP (" " ++ b ++ "/" ++ c) ++ " - Estimated values.";
    "";
    "**AI Verdict:** Data captured and stored in local history." ]%string.

(** The message the [catch] block shows for a failure. *)
Definition shown_message (message : string) : string :=
  if includes message "Failed to fetch" then network_message else message.

(** The data events of a recorder, delivered one after the other. *)
Definition deliver (chunks : list Blob) (s : Store) : Store :=
  fold_left (fun st d => ondataavailable d st) chunks s.

(** The interval is not the one with this id. *)
Definition other_interval (id : BinNums.positive) (i : Interval) : bool :=
  negb (Pos.eqb (interval_id i) id).

(** The store with a scan result set. *)
Definition with_result (scan : Scan.VitalScanResult) (s : Store) : State :=
  state (setResult (Some scan) s).

(** What an element of the analysis view must satisfy: a heading shows
    no hash sign, a list item no asterisk and no white space at either
    end. *)
Definition element_is_clean (e : Analyzer.element) : Prop :=
  match e with
  | Analyzer.H4 c => lacks "#" c = true
  | Analyzer.Li c => lacks "*" c = true /\ trim c = c
  | Analyzer.P _ => True
  end.

(** The answer the chat shows for a reply of the chat endpoint. *)
Definition shown_answer (reply : chat_reply) : string :=
  match reply with
  | Body true _ response => Gemini.or_text response Chat.sorry_message
  | _ => Chat.failure_message
  end.

(** The analysis the report view shows for a reply of the image
    endpoint. *)
Definition shown_analysis (reply : chat_reply) : string :=
  match reply with
  | Body true _ response =>
      Gemini.or_text response Analyzer.could_not_analyze
  | _ => Gemini.image_unavailable_message
  end.

(** A conversation with a question typed in. *)
Definition greeting : Chat.ChatState :=
  {| Chat.messages :=
       [{| Chat.role := Gemini.model; Chat.text := "Hello!";
           Chat.timestamp := 0 |}];
     Chat.input := " I have a headache ";
     Chat.isLoading := false |}.

(** A start in live mode whose recorder cannot be made. *)
Definition failing_env : StartEnv :=
  {| Date_now := 0; has_stream := true; vp8_supported := false;
     recorder_fails := true |}.

(** A live run on a one-byte clip with the given extractor and store,
    an interpretation service that answers in time, and a component that
    stays mounted. *)
Definition live_run
    (analyze : Blob -> bool -> option bool -> settled (option Rppg.Response))
    (save : Scan.VitalScanResult -> bool -> settled bool) : Store :=
  fst (processRecording (fun _ => "?") analyze
         (fun _ => Settles 1200 (Body true None "### REPORT_STATUS: OPTIMAL"))
         save "2025-01-01T00:00:00.000Z" true true true
         (render false initial_store) [[Byte.x61]] initial_store).

(** A report view with an image chosen and its preview loaded. *)
Definition chosen_image : Analyzer.AnalyzerState :=
  {| Analyzer.selectedFile := Some {| Analyzer.type := "image/png" |};
     Analyzer.previewUrl := Some "data:image/png;base64,QUJD";
     Analyzer.analysis := None;
     Analyzer.isAnalyzing := false |}.

(** A report view with nothing chosen. *)
Definition nothing_chosen : Analyzer.AnalyzerState :=
  {| Analyzer.selectedFile := None; Analyzer.previewUrl := None;
     Analyzer.analysis := None; Analyzer.isAnalyzing := false |}.

(** The value reads as the rational [q]: it is that number, or it is
    [null], which counts as 0. *)
Definition reads_as (v : value) (q : Q) : Prop :=
  v = Num (Fin q) \/ (v = null /\ q = 0%Q).

(** [z] is the integer nearest to [q], the upper one of two that are
    equally near. *)
Definition nearest_integer (q : Q) (z : Z) : Prop :=
  (inject_Z z - (1 # 2) <= q)%Q /\ (q < inject_Z z + (1 # 2))%Q.

(** The text begins with the given prefix. *)
Definition begins (pre text : string) : Prop :=
  exists rest, text = (pre ++ rest)%string.

(** The line names a metric: it contains ["[BPM:"], ["[BP:"] or
    ["[HRV:"]. *)
Definition names_a_metric (line : string) : Prop :=
  occurs "[BPM:" line \/ occurs "[BP:" line \/ occurs "[HRV:" line.

(** The kind a non-blank line has when the five checks are tried in the
    order status banner, finding line, verdict, heading, plain text and
    the first that matches decides. *)
Definition classified (line : string) (k : block_kind) : Prop :=
  (begins "###" line /\ k = KStatus)
  \/ (~ begins "###" line /\ names_a_metric line /\ k = KFinding)
  \/ (~ begins "###" line /\ ~ names_a_metric line
      /\ begins "**AI Verdict:**" line /\ k = KVerdict)
  \/ (~ begins "###" line /\ ~ names_a_metric line
      /\ ~ begins "**AI Verdict:**" line /\ begins "**" line
      /\ k = KHeading)
  \/ (~ begins "###" line /\ ~ names_a_metric line
      /\ ~ begins "**AI Verdict:**" line /\ ~ begins "**" line
      /\ k = KPlain).

(** A report with one line of each kind, a status line that names a
    metric, and three blank lines (empty, spaces, a tab). *)
Definition mixed_report : string :=
  join newline
    [ "### REPORT_STATUS: OPTIMAL [BPM: 1]";
      "";
      "   ";
      "* [BP: 1/2] fine";
      String (ascii_of_nat 9) EmptyString;
      "**AI Verdict:** ok";
      "**Findings**";
      "plain *text*" ].

(** A bracketed token: an opening bracket, a body without closing
    bracket or line terminator, and the closing bracket. *)
Definition bracketed (sp : string) : Prop :=
  exists body, sp = ("[" ++ body ++ "]")%string /\ tag_body body = true.

(** A bracketed token starts at the head of the text. *)
Definition span_at (s : string) : Prop :=
  exists sp rest, bracketed sp /\ s = (sp ++ rest)%string.

(** No bracketed token starts inside [pre] when [rest] follows it. *)
Definition no_span_in (pre rest : string) : Prop :=
  forall p1 p2, pre = (p1 ++ p2)%string -> p2 <> EmptyString ->
                ~ span_at (p2 ++ rest).

(** The text begins like a metric token. *)
Definition label_open (s : string) : Prop :=
  begins "[BPM:" s \/ begins "[BP:" s \/ begins "[HRV:" s.

(** The text with every occurrence of the code unit taken out. *)
Fixpoint without (c : ascii) (s : string) : string :=
  match s with
  | EmptyString => EmptyString
  | String d s' => if Ascii.eqb d c then without c s'
                   else String d (without c s')
  end.

(** The text with its first closing bracket, if it has one, taken
    out. *)
Definition drops_first_closing (v v' : string) : Prop :=
  (lacks "]" v = true /\ v' = v)
  \/ exists a b, v = (a ++ "]" ++ b)%string /\ lacks "]" a = true
                 /\ v' = (a ++ b)%string.

(** What a piece of text outside the bracketed tokens becomes: plain
    text without its asterisks; except that a piece which begins like a
    metric token, an opening that is never closed, becomes the badge of
    that label, the text after the colon being its value. *)
Inductive Text : string -> segment -> Prop :=
| Text_plain (p : string) :
    ~ label_open p -> Text p (PlainText (without "*" p))
| Text_open (k : metric_kind) (v v' : string) :
    drops_first_closing v v' ->
    Text ("[" ++ label k ++ ":" ++ v) (MetricTag k v').

(** The segments of a finding line: the line is cut at its bracketed
    tokens, leftmost first; a token [[BPM:v]], [[BP:v]] or [[HRV:v]] is
    the badge HR, BP or HRV with value [v] as written; any other
    bracketed token is plain text; the text before, between and after
    the tokens is rendered as [Text] says. *)
Inductive Segments : string -> list segment -> Prop :=
| Seg_last (line : string) (seg : segment) :
    no_span_in line EmptyString -> Text line seg ->
    Segments line [seg]
| Seg_tag (pre : string) (k : metric_kind) (v post : string)
          (seg : segment) (rest : list segment) :
    no_span_in pre (token k v ++ post) -> Text pre seg ->
    tag_body v = true ->
    Segments post rest ->
    Segments (pre ++ token k v ++ post) (seg :: MetricTag k v :: rest)
| Seg_other (pre sp post : string) (seg : segment)
            (rest : list segment) :
    no_span_in pre (sp ++ post) -> Text pre seg ->
    bracketed sp -> ~ label_open sp ->
    Segments post rest ->
    Segments (pre ++ sp ++ post)
             (seg :: PlainText (without "*" sp) :: rest).

(** The recorder the ref holds records, or still owes its [stop]
    event. *)
Definition recorder_live (s : Store) : bool :=
  match mediaRecorderRef s with
  | Some rec =>
      match rstate rec with
      | recording => true
      | inactive => stop_pending rec
      end
  | None => false
  end.

(** Something of a session is under way: a timer runs, a recorder is
    live, or a call of [processRecording] has not finished.  Otherwise
    the controller rests in [Idle], [Result] or [Error]. *)
Definition in_flight (w : Controller.World) : bool :=
  negb (List.length (intervals (Controller.store w)) =? 0)%nat
  || recorder_live (Controller.store w)
  || negb (List.length (Controller.processing w) =? 0)%nat.

(** The flags the guards read. *)
Definition busy (s : Store) : bool :=
  isRecording (state s) || isProcessing (state s).

(** What every reachable world satisfies: the flags cover whatever is
    under way, at most one timer and one processing call exist, the
    callbacks of the timers closed over renders that were not recording,
    and a recorder that records owes no [stop] event. *)
Definition consistent (w : Controller.World) : Prop :=
  (isRecording (state (Controller.store w)) = false ->
   intervals (Controller.store w) = []
   /\ recorder_live (Controller.store w) = false)
  /\ (isProcessing (state (Controller.store w)) = false ->
      Controller.processing w = [])
  /\ (List.length (intervals (Controller.store w)) <= 1)%nat
  /\ (List.length (Controller.processing w) <= 1)%nat
  /\ Forall (fun i => isRecording (view (tick_render i)) = false)
            (intervals (Controller.store w))
  /\ match mediaRecorderRef (Controller.store w) with
     | Some rec => rstate rec = recording -> stop_pending rec = false
     | None => True
     end
  /\ (recorder_live (Controller.store w) = true ->
      Controller.processing w = []).

(** A live session whose stream ended: started, one chunk handed over,
    a tick at 16 s, the recorder stopped by the browser and its [stop]
    event delivered. *)
Definition session_events : list Controller.event :=
  [Controller.ClickStart false live_env;
   Controller.DataAvailable [Byte.x61; Byte.x62];
   Controller.Tick 1%positive 16000;
   Controller.TracksEnded;
   Controller.StopDelivered].

(** * Properties *)

(** ** The model on concrete inputs *)

Example ex_status :
  render_line "### REPORT_STATUS: STABLE" = Some (StatusBanner "STABLE" positive).
Proof. reflexivity. Qed.

Example ex_finding :
  render_line "* [BPM: 72] - Normal rhythm"
  = Some (FindingLine [PlainText " "; MetricTag HR " 72";
                       PlainText " - Normal rhythm"]).
Proof. reflexivity. Qed.

Example ex_split :
  split_brackets "[a][b]x[c" = [""; "[a]"; ""; "[b]"; "x[c"].
Proof. reflexivity. Qed.

Example ex_round_half : Math_round (Fin (145 # 2)) = Fin (inject_Z 73).
Proof. reflexivity. Qed.

Example ex_round_neg : Math_round (Fin (- 5 # 2)) = Fin (inject_Z (-2)).
Proof. reflexivity. Qed.

Example ex_print : forall f, Number_toString f (Fin (144 # 2)) = "72".
Proof. reflexivity. Qed.

Example ex_print_neg : forall f, Number_toString f (Fin (- 3 # 1)) = "-3".
Proof. reflexivity. Qed.

Example ex_print_zero : forall f, ToString f (lit 0) = "0".
Proof. reflexivity. Qed.

Example ex_fallback_blocks : forall f,
  report_blocks (fallback_report f (sample_response (1003 # 10)))
  = [ StatusBanner "STABLE" positive;
      Heading "Summary: Signals processed via local engine fallback.";
      Heading "Clinical Findings:";
      FindingLine [PlainText " "; MetricTag HR " 100";
                   PlainText " - Normal rhythm detected."];
      FindingLine [PlainText " "; MetricTag BP " 118/80";
                   PlainText " - Estimated values."];
      VerdictBlock "Data captured and stored in local history." ].
Proof. reflexivity. Qed.

Example ex_assemble :
  assemble (sample_response (2011 # 20)) "t" "x"
  = {| Scan.heartRate := Fin (inject_Z 101);
       Scan.hrv := Fin (inject_Z 52);
       Scan.bloodPressure :=
         {| Scan.systolic := Fin (inject_Z 118);
            Scan.diastolic := Fin (inject_Z 80) |};
       Scan.stressLevel := Scan.Normal;
       Scan.timestamp := "t";
       Scan.aiInterpretation := "x" |}.
Proof. reflexivity. Qed.


(** ** Strings *)

Section StringFacts.

Lemma trimStart_empty (s : string) :
  trimStart s = EmptyString <-> all_white s = true.
Proof.
  induction s as [|c s IH]; simpl.
  - split; reflexivity.
  - destruct (is_white_space c); simpl.
    + exact IH.
    + split; discriminate.
Qed.

Lemma trimEnd_keeps_head (c : ascii) (s : string) :
  is_white_space c = false -> trimEnd (String c s) <> EmptyString.
Proof.
  intros Hc. simpl. destruct (trimEnd s); [rewrite Hc|]; discriminate.
Qed.

Lemma trimStart_head (s : string) :
  trimStart s = EmptyString \/
  exists c t, trimStart s = String c t /\ is_white_space c = false.
Proof.
  induction s as [|c s IH]; simpl.
  - now left.
  - destruct (is_white_space c) eqn:Hc.
    + exact IH.
    + right. now exists c, s.
Qed.

Lemma trim_empty (s : string) :
  trim s = EmptyString <-> all_white s = true.
Proof.
  unfold trim. rewrite <- trimStart_empty.
  destruct (trimStart_head s) as [H | (c & t & H & Hc)]; rewrite H.
  - split; reflexivity.
  - split; [|discriminate].
    intros E. now apply trimEnd_keeps_head in E.
Qed.

Lemma is_blank_all_white (s : string) : is_blank s = all_white s.
Proof.
  unfold is_blank.
  destruct (all_white s) eqn:E.
  - apply trim_empty in E. now rewrite E.
  - destruct (trim s) eqn:T; [|reflexivity].
    apply trim_empty in T. congruence.
Qed.

Lemma startsWith_cons (c d : ascii) (p s : string) :
  startsWith (String d s) (String c p) = Ascii.eqb c d && startsWith s p.
Proof.
  unfold startsWith. simpl.
  destruct (ascii_dec c d) as [->|N].
  - now rewrite Ascii.eqb_refl.
  - apply Ascii.eqb_neq in N. now rewrite N.
Qed.

Lemma startsWith_nil (c : ascii) (p : string) :
  startsWith EmptyString (String c p) = false.
Proof. reflexivity. Qed.

Lemma all_white_startsWith (s : string) (c : ascii) (p : string) :
  all_white s = true -> is_white_space c = false ->
  startsWith s (String c p) = false.
Proof.
  intros Hs Hc. destruct s as [|d s]; [reflexivity|].
  rewrite startsWith_cons. simpl in Hs.
  apply andb_true_iff in Hs as [Hd _].
  destruct (Ascii.eqb_spec c d) as [->|]; [congruence | reflexivity].
Qed.

Lemma all_white_includes (s : string) (c : ascii) (p : string) :
  all_white s = true -> is_white_space c = false ->
  includes s (String c p) = false.
Proof.
  intros Hs Hc. induction s as [|d s IH].
  - reflexivity.
  - cbn [includes]. rewrite (all_white_startsWith _ _ _ Hs Hc).
    simpl in Hs. apply andb_true_iff in Hs as [_ Hs]. now apply IH.
Qed.

Lemma append_assoc (a b c : string) :
  ((a ++ b) ++ c = a ++ (b ++ c))%string.
Proof.
  induction a as [|x a IH]; cbn [append]; [reflexivity | now rewrite IH].
Qed.

(** [includes] finds exactly the strings that occur in [s]. *)
Lemma startsWith_app (pat rest : string) :
  startsWith (pat ++ rest) pat = true.
Proof.
  induction pat as [|c pat IH]; cbn [append].
  - destruct rest; reflexivity.
  - rewrite startsWith_cons, Ascii.eqb_refl. exact IH.
Qed.

Lemma startsWith_split (s pat : string) :
  startsWith s pat = true -> exists rest, s = (pat ++ rest)%string.
Proof.
  revert s. induction pat as [|c pat IH]; intros s H.
  - now exists s.
  - destruct s as [|d s]; [discriminate|].
    rewrite startsWith_cons in H. apply andb_true_iff in H as [E H].
    apply Ascii.eqb_eq in E. subst d.
    destruct (IH _ H) as [rest ->]. now exists rest.
Qed.

Lemma includes_spec (s pat : string) :
  includes s pat = true <->
  exists pre post, s = (pre ++ pat ++ post)%string.
Proof.
  split.
  - induction s as [|c s IH]; cbn [includes]; intros H.
    + rewrite orb_false_r in H. apply startsWith_split in H as [post ->].
      now exists EmptyString, post.
    + apply orb_true_iff in H as [H|H].
      * apply startsWith_split in H as [post ->].
        now exists EmptyString, post.
      * destruct (IH H) as (pre & post & ->).
        now exists (String c pre), post.
  - intros (pre & post & ->).
    induction pre as [|c pre IH]; simpl append.
    + destruct (pat ++ post)%string eqn:E; cbn [includes];
        rewrite <- E, startsWith_app; reflexivity.
    + cbn [includes]. rewrite IH. apply orb_true_r.
Qed.

End StringFacts.

(** ** The report renderer *)

Section ReportFacts.

Lemma blank_renders_nothing (line : string) :
  is_blank line = true -> render_line line = None.
Proof.
  intros B. pose proof B as W. rewrite is_blank_all_white in W.
  unfold render_line, has_metric_token.
  rewrite !(all_white_startsWith line) by (exact W || reflexivity).
  rewrite !(all_white_includes line) by (exact W || reflexivity).
  cbn [orb]. unfold is_blank in B.
  destruct (truthy (trim line)); [discriminate | reflexivity].
Qed.

Lemma kind_of_render_line (line : string) :
  option_map kind_of (render_line line) =
    if startsWith line "###" then Some KStatus
    else if has_metric_token line then Some KFinding
    else if startsWith line "**AI Verdict:**" then Some KVerdict
    else if startsWith line "**" then Some KHeading
    else if is_blank line then None
    else Some KPlain.
Proof.
  unfold render_line, is_blank.
  destruct (startsWith line "###"); [reflexivity|].
  destruct (has_metric_token line); [reflexivity|].
  destruct (startsWith line "**AI Verdict:**"); [reflexivity|].
  destruct (startsWith line "**"); [reflexivity|].
  destruct (truthy (trim line)); reflexivity.
Qed.

Lemma blank_iff_nothing (line : string) :
  is_blank line = true <-> render_line line = None.
Proof.
  split; [apply blank_renders_nothing|].
  intros H. pose proof (kind_of_render_line line) as K.
  rewrite H in K. cbn [option_map] in K.
  destruct (startsWith line "###"); [discriminate|].
  destruct (has_metric_token line); [discriminate|].
  destruct (startsWith line "**AI Verdict:**"); [discriminate|].
  destruct (startsWith line "**"); [discriminate|].
  destruct (is_blank line); [reflexivity | discriminate].
Qed.

(** The non-null children of a list of lines are the renderings of its
    non-blank lines, one for one and in the same order. *)
Lemma rendered_lines (lines : list string) :
  Forall2 (fun line b => render_line line = Some b)
          (filter (fun l => negb (is_blank l)) lines)
          (rendered (map render_line lines)).
Proof.
  induction lines as [|l lines IH]; cbn [map filter rendered].
  - constructor.
  - destruct (render_line l) as [b|] eqn:R.
    + destruct (is_blank l) eqn:B.
      * apply blank_renders_nothing in B. congruence.
      * cbn [negb]. constructor; assumption.
    + apply blank_iff_nothing in R. rewrite R. exact IH.
Qed.

Lemma split_empty (sep : ascii) : split sep EmptyString = [EmptyString].
Proof. reflexivity. Qed.

End ReportFacts.

(** C7. The line "### REPORT_STATUS: STABLE" renders as the status banner
    with status "STABLE" and the positive severity; and every line that
    begins with the heading marker renders as a status banner whose
    status is the rest of the line (the markers removed, trimmed) and
    whose severity is positive when that text contains OPTIMAL or STABLE
    and negative for anything else, ATTENTION and ELEVATED included. *)
Theorem status_banner_severity (line : string) :
  startsWith line "###" = true ->
  let status := trim (remove_all ["###"; "REPORT_STATUS:"] line) in
  (occurs "OPTIMAL" status \/ occurs "STABLE" status ->
   render_line line = Some (StatusBanner status positive))
  /\ (~ (occurs "OPTIMAL" status \/ occurs "STABLE" status) ->
      render_line line = Some (StatusBanner status negative))
  /\ render_line "### REPORT_STATUS: STABLE"
     = Some (StatusBanner "STABLE" positive)
  /\ render_line "### REPORT_STATUS: OPTIMAL"
     = Some (StatusBanner "OPTIMAL" positive)
  /\ render_line "### REPORT_STATUS: ATTENTION"
     = Some (StatusBanner "ATTENTION" negative)
  /\ render_line "### REPORT_STATUS: ELEVATED"
     = Some (StatusBanner "ELEVATED" negative).
Proof.
  intros H status. unfold render_line. rewrite H.
  fold (status_of line). change (status_of line) with status.
  unfold severity_of.
  split; [|split; [|repeat split]].
  - intros O.
    assert (E : includes status "OPTIMAL" || includes status "STABLE" = true).
    { apply orb_true_iff.
      destruct O as [O|O]; [left|right]; now apply includes_spec. }
    now rewrite E.
  - intros N.
    destruct (includes status "OPTIMAL" || includes status "STABLE") eqn:E;
      [|reflexivity].
    exfalso. apply N. apply orb_true_iff in E.
    destruct E as [E|E]; [left|right]; now apply includes_spec.
Qed.

Lemma status_banner_severity_witness :
  startsWith "###   STABLE ###" "###" = true
  /\ render_line "###   STABLE ###" = Some (StatusBanner "STABLE" positive).
Proof.
  split; [reflexivity|].
  refine (proj1 (status_banner_severity "###   STABLE ###" eq_refl) _).
  right. exists EmptyString, EmptyString. reflexivity.
Defined.

(** ** Finding lines *)

Section FindingFacts.

Lemma scan_close_body (v post : string) :
  tag_body v = true ->
  scan_close (v ++ String "]" post) = Some (v ++ "]")%string.
Proof.
  induction v as [|c v IH]; cbn [append scan_close tag_body]; intros H.
  - reflexivity.
  - apply andb_true_iff in H as [H Hv].
    apply andb_true_iff in H as [Hc Hl].
    apply negb_true_iff in Hc, Hl. rewrite Hc, Hl, (IH Hv). reflexivity.
Qed.

Lemma split_skip (x post : string) :
  split_brackets_from (String.length x) (x ++ post)
  = split_brackets_from 0 post.
Proof.
  induction x as [|c x IH]; [reflexivity|]. exact IH.
Qed.

Lemma split_token (pre body post : string) :
  no_open pre = true -> tag_body body = true ->
  split_brackets (pre ++ String "[" (body ++ String "]" post))
  = pre :: String "[" (body ++ "]") :: split_brackets post.
Proof.
  intros Hp Hb. unfold split_brackets.
  induction pre as [|c pre IH].
  - cbn [append split_brackets_from]. rewrite Ascii.eqb_refl.
    rewrite (scan_close_body _ _ Hb).
    replace (body ++ String "]" post)%string
      with ((body ++ "]") ++ post)%string
      by (now rewrite append_assoc).
    now rewrite split_skip.
  - cbn [no_open] in Hp. apply andb_true_iff in Hp as [Hc Hp].
    apply negb_true_iff in Hc.
    cbn [append split_brackets_from]. rewrite Hc, (IH Hp). reflexivity.
Qed.

Lemma render_part_plain (pre : string) :
  no_open pre = true ->
  render_part pre = PlainText (remove_all ["*"] pre).
Proof.
  intros H. unfold render_part. destruct pre as [|c pre].
  - reflexivity.
  - cbn [no_open] in H. apply andb_true_iff in H as [Hc _].
    apply negb_true_iff in Hc.
    rewrite !startsWith_cons, (Ascii.eqb_sym "[" c), Hc. reflexivity.
Qed.

Lemma remove_first_close (v : string) :
  tag_body v = true -> remove_first "]" (v ++ "]") = v.
Proof.
  induction v as [|c v IH]; intros H; [reflexivity|].
  cbn [tag_body] in H. apply andb_true_iff in H as [H Hv].
  apply andb_true_iff in H as [Hc _]. apply negb_true_iff in Hc.
  cbn [append remove_first].
  rewrite startsWith_cons, (Ascii.eqb_sym "]" c), Hc. cbn [andb].
  now rewrite (IH Hv).
Qed.

Lemma startsWith_empty (s : string) : startsWith s EmptyString = true.
Proof. destruct s; reflexivity. Qed.

Lemma drop_app (p r : string) : drop (String.length p) (p ++ r) = r.
Proof. induction p as [|c p IH]; [reflexivity | exact IH]. Qed.

Lemma remove_first_prefix (p r : string) : remove_first p (p ++ r) = r.
Proof.
  transitivity (if startsWith (p ++ r) p
                then drop (String.length p) (p ++ r) else EmptyString).
  - destruct (p ++ r)%string eqn:E; cbn [remove_first]; rewrite <- ?E;
      rewrite startsWith_app; reflexivity.
  - now rewrite startsWith_app, drop_app.
Qed.

Lemma render_part_token (k : metric_kind) (v : string) :
  tag_body v = true -> render_part (token k v) = MetricTag k v.
Proof.
  intros H. destruct k; unfold render_part, token, label;
    cbn -[remove_first];
    change (prefix EmptyString (v ++ "]"))
      with (startsWith (v ++ "]") EmptyString);
    rewrite startsWith_empty; f_equal;
    match goal with
    | |- context [remove_first ?p (String ?c ?s)] =>
        change (String c s) with (p ++ (v ++ "]"))%string
    end;
    rewrite remove_first_prefix; exact (remove_first_close v H).
Qed.

Lemma tag_body_label (k : metric_kind) (v : string) :
  tag_body v = true -> tag_body (label k ++ ":" ++ v) = true.
Proof. intros H. destruct k; cbn; exact H. Qed.

Lemma token_found (k : metric_kind) (pre v post : string) :
  has_metric_token (pre ++ token k v ++ post) = true.
Proof.
  unfold has_metric_token.
  assert (E : includes (pre ++ token k v ++ post)
                       ("[" ++ label k ++ ":") = true).
  { apply includes_spec. exists pre, (v ++ "]" ++ post)%string.
    unfold token. rewrite !append_assoc; reflexivity. }
  destruct k; cbn [label append] in E; rewrite E;
    rewrite ?orb_true_r; reflexivity.
Qed.

Lemma token_app (k : metric_kind) (v post : string) :
  (token k v ++ post)%string
  = String "[" ((label k ++ ":" ++ v) ++ String "]" post).
Proof.
  destruct k; cbn [token label append]; rewrite append_assoc;
    reflexivity.
Qed.

Lemma token_closed (k : metric_kind) (v : string) :
  String "[" ((label k ++ ":" ++ v) ++ "]") = token k v.
Proof. destruct k; reflexivity. Qed.

End FindingFacts.

(** C6, the claim as stated fails: the badge of the line
    "* [BPM: 72] - Normal rhythm" carries the value " 72", the blank after
    the colon included, so no segment is the HR badge with value "72". *)
Lemma finding_value_not_trimmed :
  ~ (exists segments,
       render_line "* [BPM: 72] - Normal rhythm"
       = Some (FindingLine segments)
       /\ In (MetricTag HR "72") segments).
Proof.
  intros (segments & R & I). cbv in R. injection R as <-.
  cbn in I. destruct I as [I | [I | [I | []]]]; discriminate I.
Qed.

(** ** Defaults and thresholds of the scan result *)

Section DefaultFacts.

Lemma or_else_zero (v d : value) :
  or_else (zero_as_missing v) d = or_else v d.
Proof.
  destruct v as [| |[|q]]; try reflexivity.
  unfold zero_as_missing, or_else. cbn [ToBoolean].
  destruct (Qeq_bool q 0) eqn:E; cbn [negb ToBoolean]; [reflexivity|].
  now rewrite E.
Qed.

Lemma systolic_forget (r : Rppg.Response) (d : value) :
  or_else (Rppg.opt_systolic (Rppg.blood_pressure (forget_zeros r))) d
  = or_else (Rppg.opt_systolic (Rppg.blood_pressure r)) d.
Proof.
  cbn [forget_zeros Rppg.blood_pressure].
  destruct (Rppg.blood_pressure r) as [p|]; [|reflexivity].
  apply or_else_zero.
Qed.

Lemma diastolic_forget (r : Rppg.Response) (d : value) :
  or_else (Rppg.opt_diastolic (Rppg.blood_pressure (forget_zeros r))) d
  = or_else (Rppg.opt_diastolic (Rppg.blood_pressure r)) d.
Proof.
  cbn [forget_zeros Rppg.blood_pressure].
  destruct (Rppg.blood_pressure r) as [p|]; [|reflexivity].
  apply or_else_zero.
Qed.

End DefaultFacts.

(** C9. The scan result and the local report cannot tell a zero from a
    missing field: a response and the same response with its zero [hrv],
    pressures and stress index removed give the same scan result and the
    same local report; an [hrv] of 0 gives 45, pressures of 0 give 120
    over 80 in the scan result and "120/80" in the local report, and a
    stress index of 0 gives what a missing one gives. *)
Theorem zero_is_treated_as_missing (f : Q -> string) (r : Rppg.Response)
    (now aiText : string) :
  assemble (forget_zeros r) now aiText = assemble r now aiText
  /\ fallback_report f (forget_zeros r) = fallback_report f r
  /\ Scan.hrv (assemble (Rppg.with_hrv (lit 0) r) now aiText)
     = Fin (inject_Z 45)
  /\ Scan.hrv (assemble (Rppg.with_hrv undefined r) now aiText)
     = Fin (inject_Z 45)
  /\ Scan.bloodPressure
       (assemble (Rppg.with_blood_pressure zero_pressure r) now aiText)
     = {| Scan.systolic := Fin (inject_Z 120);
          Scan.diastolic := Fin (inject_Z 80) |}
  /\ Scan.bloodPressure
       (assemble (Rppg.with_blood_pressure None r) now aiText)
     = {| Scan.systolic := Fin (inject_Z 120);
          Scan.diastolic := Fin (inject_Z 80) |}
  /\ fallback_tail f (Rppg.with_blood_pressure zero_pressure r)
     = (" - Normal rhythm detected." ++ nl
        ++ "* [BP: 120/80] - Estimated values." ++ nl ++ nl
        ++ "**AI Verdict:** Data captured and stored in local history.")%string
  /\ fallback_tail f (Rppg.with_blood_pressure None r)
     = fallback_tail f (Rppg.with_blood_pressure zero_pressure r)
  /\ Scan.stressLevel
       (assemble (Rppg.with_stress_index (lit 0) r) now aiText)
     = Scan.stressLevel
         (assemble (Rppg.with_stress_index undefined r) now aiText).
Proof.
  split.
  { unfold assemble. rewrite !systolic_forget, !diastolic_forget.
    cbn [forget_zeros Rppg.heart_rate Rppg.hrv Rppg.stress_index].
    now rewrite !or_else_zero. }
  split.
  { unfold fallback_report, fallback_tail, rounded_heart_rate.
    now rewrite !systolic_forget, !diastolic_forget. }
  repeat split.
Qed.

(** C10. The stress level of the scan result is High exactly when the
    stress index, taken as 0 when absent or falsy, is strictly greater
    than 50, and Normal otherwise; an index of exactly 50 and a missing
    index both give Normal. *)
Theorem stress_level_threshold (r : Rppg.Response) (now aiText : string) :
  (Scan.stressLevel (assemble r now aiText) = Scan.High
   <-> (50 < stress_value r)%Q)
  /\ (Scan.stressLevel (assemble r now aiText) = Scan.Normal
      <-> (stress_value r <= 50)%Q)
  /\ Scan.stressLevel
       (assemble (Rppg.with_stress_index (lit 50) r) now aiText)
     = Scan.Normal
  /\ Scan.stressLevel
       (assemble (Rppg.with_stress_index undefined r) now aiText)
     = Scan.Normal
  /\ Scan.stressLevel
       (assemble (Rppg.with_stress_index (Num (Fin (501 # 10))) r)
                 now aiText)
     = Scan.High.
Proof.
  assert (E : Scan.stressLevel (assemble r now aiText)
              = if Qle_bool (stress_value r) 50
                then Scan.Normal else Scan.High).
  { unfold assemble, stress_value. cbn [Scan.stressLevel].
    destruct (Rppg.stress_index r) as [| |[|q]]; try reflexivity.
    unfold or_else. cbn [ToBoolean].
    destruct (Qeq_bool q 0) eqn:Z; cbn [negb ToNumber gt lit].
    - apply Qeq_bool_iff in Z.
      assert (L : Qle_bool q 50 = true)
        by (apply Qle_bool_iff; rewrite Z; discriminate).
      now rewrite L.
    - change (inject_Z 50) with 50%Q. now destruct (Qle_bool q 50). }
  rewrite E. repeat split; try reflexivity.
  - destruct (Qle_bool (stress_value r) 50) eqn:L; [discriminate|].
    intros _. apply Qnot_le_lt. intros C.
    apply Qle_bool_iff in C. congruence.
  - intros L. destruct (Qle_bool (stress_value r) 50) eqn:C;
      [|reflexivity].
    apply Qle_bool_iff in C. exfalso. exact (Qlt_not_le _ _ L C).
  - destruct (Qle_bool (stress_value r) 50) eqn:L; [|discriminate].
    intros _. now apply Qle_bool_iff.
  - intros L. apply Qle_bool_iff in L. now rewrite L.
Qed.

(** ** The interpretation step *)

Section InterpretationFacts.

Lemma gt_exceeds (n : number) (bound : Q) :
  gt n (Fin bound) = true <-> exceeds n bound.
Proof.
  destruct n as [|q]; cbn [gt exceeds].
  - split; [discriminate | intros []].
  - rewrite negb_true_iff. split.
    + intros H. apply Qnot_le_lt. intros C.
      apply Qle_bool_iff in C. congruence.
    + intros H. destruct (Qle_bool q bound) eqn:C; [|reflexivity].
      apply Qle_bool_iff in C. exfalso. exact (Qlt_not_le _ _ H C).
Qed.

(** The monadic step of the handler computes [interpretation_step] and
    never throws. *)
Lemma interpretation_run (f : Q -> string) (svc : Rppg.Response -> remote)
    (data : Rppg.Response) (s : Session.Store) :
  VitalScan.interpretation f svc data s
  = (Session.log (Session.InterpretVitals data) s,
     Fulfilled (interpretation_step f data (svc data))).
Proof.
  unfold VitalScan.interpretation, interpretation_step, Session.try_catch,
    Session.bind, Session.write, Session.await, Session.ret.
  destruct (race_with_deadline (svc data)); reflexivity.
Qed.

End InterpretationFacts.

(** ** The processing handler *)

Section ProcessingFacts.

Variable f : Q -> string.
Variable analyze :
  Blob -> bool -> option bool -> settled (option Rppg.Response).
Variable svc : Rppg.Response -> remote.
Variable save : Scan.VitalScanResult -> bool -> settled bool.
Variable now : string.
Variable m_result m_catch m_finally : bool.

Let process := processRecording f analyze svc save now
                 m_result m_catch m_finally.

(** In live mode every extraction call of a run carries a payload. *)
Lemma live_payload_not_empty (r : Render) (chunks : list Blob)
    (s : Store) (b : Blob) (sim : bool) (px : option bool) :
  simulationMode r = false ->
  In (AnalyzeVideo b sim px) (calls (fst (process r chunks s))) ->
  In (AnalyzeVideo b sim px) (calls s) \/ (0 < size b)%nat.
Proof.
  intros L. unfold process. run_handler. rewrite L.
  destruct (isProcessing (view r)); [now left|].
  cbn beta iota.
  destruct (size (new_Blob chunks) =? 0)%nat eqn:Z.
  - destruct m_catch, m_finally; cbn; now left.
  - apply Nat.eqb_neq in Z. cbn beta iota.
    assert (P : forall l,
               In (AnalyzeVideo b sim px)
                  (l ++ AnalyzeVideo (new_Blob chunks) false
                          (Some (useProxy (view r))) :: calls s) ->
               (forall c, In c l -> forall b' sim' px',
                    c <> AnalyzeVideo b' sim' px') ->
               In (AnalyzeVideo b sim px) (calls s) \/ (0 < size b)%nat).
    { intros l H N. apply in_app_or in H as [H|[H|H]].
      - exfalso. exact (N _ H _ _ _ eq_refl).
      - injection H as <- _ _. right. lia.
      - now left. }
    destruct (analyze (new_Blob chunks) false (Some (useProxy (view r))))
      as [[data|]|e]; cbn beta iota.
    + destruct (is_undefined (Rppg.heart_rate data)); cbn beta iota.
      * destruct m_catch, m_finally; cbn; intros H;
          apply (P [] H); intros c [].
      * rewrite interpretation_run. cbn beta iota.
        destruct m_result; cbn beta iota;
          [destruct (save _ false) as [saved|e]|];
          destruct m_catch, m_finally; cbn; intros H;
          first [ apply (P [InterpretVitals data] H)
                | apply (P [SaveScanResult
                              (assemble data now
                                 (interpretation_step f data (svc data)))
                              false; InterpretVitals data] H) ];
          intros c Hc; cbn in Hc;
          repeat (destruct Hc as [<-|Hc]; [discriminate|]);
          destruct Hc.
    + destruct m_catch, m_finally; cbn; intros H;
        apply (P [] H); intros c [].
    + destruct m_catch, m_finally; cbn; intros H;
        apply (P [] H); intros c [].
Qed.

(** C5. In live mode a run whose assembled clip has no bytes fails with
    the no-data message before any call to the extractor: the log of
    calls, and the result, are left as they were, the error is set, and
    processing ends.  And no run in live mode ever calls the extractor
    with an empty payload. *)
Theorem empty_clip_fails_before_extraction (r : Render)
    (chunks : list Blob) (s : Store) :
  simulationMode r = false ->
  let s' := fst (process r chunks s) in
  (forall b sim px,
      In (AnalyzeVideo b sim px) (calls s') ->
      In (AnalyzeVideo b sim px) (calls s) \/ (0 < size b)%nat)
  /\ (isProcessing (view r) = false ->
      size (new_Blob chunks) = 0%nat ->
      calls s' = calls s
      /\ result (state s') = result (state s)
      /\ (m_catch = true -> error (state s') = Some no_data_message)
      /\ (m_finally = true -> isProcessing (state s') = false)).
Proof.
  intros L s'. split.
  - intros b sim px. now apply live_payload_not_empty.
  - intros P Z. unfold s', process. run_handler. rewrite L, P, Z.
    destruct m_catch, m_finally; cbn; repeat split;
      (reflexivity || discriminate).
Qed.

(** C1 as amended.  A run proceeds to interpretation exactly when the
    extractor's response is an object whose snake_case [heart_rate]
    property is not [undefined]: then the interpretation call is made and
    the scan result is set (and no error is, when the result is saved).
    Otherwise (a [null] response, or no [heart_rate], whatever the
    camelCase [heartRate] holds) the run fails with the no-pulse message:
    the error is set, the result is left as it was and no interpretation
    call is made. *)
Theorem pulse_guard_reads_heart_rate (r : Render) (chunks : list Blob)
    (s : Store) (data : option Rppg.Response) :
  isProcessing (view r) = false ->
  (simulationMode r = false -> size (new_Blob chunks) <> 0%nat) ->
  analyze (payload_of r chunks) (simulationMode r) (proxy_of r)
    = Fulfilled data ->
  m_catch = true ->
  let s' := fst (process r chunks s) in
  let extraction :=
    AnalyzeVideo (payload_of r chunks) (simulationMode r) (proxy_of r) in
  let no_pulse :=
    error (state s') = Some no_pulse_message
    /\ result (state s') = result (state s)
    /\ calls s' = extraction :: calls s in
  match data with
  | None => no_pulse
  | Some d =>
      if is_undefined (Rppg.heart_rate d) then no_pulse
      else
        let scan := assemble d now (interpretation_step f d (svc d)) in
        In (InterpretVitals d) (calls s')
        /\ (m_result = true -> result (state s') = Some scan)
        /\ (forall saved, save scan (simulationMode r) = Fulfilled saved ->
            error (state s') = None)
  end.
Proof.
  intros P B A C s' extraction no_pulse.
  unfold no_pulse, extraction, s', process, payload_of, proxy_of in *.
  clear s' extraction no_pulse.
  run_handler. rewrite P, C.
  destruct (simulationMode r) eqn:L; cbn beta iota.
  - rewrite A. cbn beta iota.
    destruct data as [d|]; cbn beta iota.
    + destruct (is_undefined (Rppg.heart_rate d)); cbn beta iota.
      * destruct m_finally; cbn; repeat split.
      * rewrite interpretation_run. cbn beta iota.
        destruct m_result; cbn beta iota.
        -- destruct (save _ true) as [saved|e] eqn:S;
             destruct m_finally; cbn; repeat split; auto;
             intros ? [=].
        -- destruct m_finally; cbn; repeat split; auto; intros [=].
    + destruct m_finally; cbn; repeat split.
  - specialize (B eq_refl). apply Nat.eqb_neq in B. rewrite B.
    cbn beta iota. rewrite A. cbn beta iota.
    destruct data as [d|]; cbn beta iota.
    + destruct (is_undefined (Rppg.heart_rate d)); cbn beta iota.
      * destruct m_finally; cbn; repeat split.
      * rewrite interpretation_run. cbn beta iota.
        destruct m_result; cbn beta iota.
        -- destruct (save _ false) as [saved|e] eqn:S;
             destruct m_finally; cbn; repeat split; auto;
             intros ? [=].
        -- destruct m_finally; cbn; repeat split; auto; intros [=].
    + destruct m_finally; cbn; repeat split.
Qed.

End ProcessingFacts.

(** *** Concrete runs *)

Example ex_prompt_camel_case : forall f,
  prompt_readings f camel_case_response = ["72"; "50"; "118"; "76"].
Proof. reflexivity. Qed.

Example ex_prompt_snake_case : forall f,
  prompt_readings f snake_case_response = [f (723 # 10); "50"; "118"; "76"].
Proof. reflexivity. Qed.

(** C1, the claim as stated fails: a response whose heart rate is present
    as camelCase [heartRate] (72) but not as [heart_rate] does not reach
    interpretation; the run ends with the no-pulse error, no result and
    no interpretation call. *)
Lemma camel_case_heart_rate_rejected :
  let s' := run_with (Some camel_case_response)
              (render true initial_store) [] initial_store in
  Rppg.heartRate camel_case_response = lit 72
  /\ error (state s') = Some no_pulse_message
  /\ result (state s') = None
  /\ calls s' = [AnalyzeVideo [] true None].
Proof. cbv zeta. repeat split. Qed.

Lemma pulse_guard_reads_heart_rate_witness :
  let s' := run_with (Some snake_case_response)
              (render false initial_store) [[Byte.x61]] initial_store in
  In (InterpretVitals snake_case_response) (calls s')
  /\ result (state s')
     = Some (assemble snake_case_response "2025-01-01T00:00:00.000Z"
               (fallback_report (fun _ => "?") snake_case_response))
  /\ error (state s') = None.
Proof.
  assert (size (new_Blob [[Byte.x61]]) <> 0%nat) as N by discriminate.
  pose proof (pulse_guard_reads_heart_rate (fun _ => "?")
           (fun _ _ _ => Fulfilled (Some snake_case_response))
           (fun _ => NeverSettles) (fun _ _ => Fulfilled true)
           "2025-01-01T00:00:00.000Z" true true true
           (render false initial_store) [[Byte.x61]] initial_store
           (Some snake_case_response) eq_refl (fun _ => N)
           eq_refl eq_refl) as (H1 & H2 & H3).
  exact (conj H1 (conj (H2 eq_refl) (H3 true eq_refl))).
Defined.

Lemma empty_clip_witness :
  let s' := run_with (Some snake_case_response)
              (render false initial_store) [[]; []] initial_store in
  calls s' = []
  /\ result (state s') = None
  /\ error (state s') = Some no_data_message
  /\ isProcessing (state s') = false.
Proof.
  pose proof (proj2 (empty_clip_fails_before_extraction (fun _ => "?")
           (fun _ _ _ => Fulfilled (Some snake_case_response))
           (fun _ => NeverSettles) (fun _ _ => Fulfilled true)
           "2025-01-01T00:00:00.000Z" true true true
           (render false initial_store) [[]; []] initial_store eq_refl)
           eq_refl eq_refl) as (H1 & H2 & H3 & H4).
  exact (conj H1 (conj H2 (conj (H3 eq_refl) (H4 eq_refl)))).
Defined.

(** ** The recording controller *)

Section ControllerFacts.

Variable f : Q -> string.
Variable analyze :
  Blob -> bool -> option bool -> settled (option Rppg.Response).
Variable svc : Rppg.Response -> remote.
Variable save : Scan.VitalScanResult -> bool -> settled bool.
Variable now : string.
Variable m_result m_catch m_finally : bool.

Let stop := stopRecording f analyze svc save now m_result m_catch m_finally.
Let fire := fire_interval f analyze svc save now m_result m_catch m_finally.
Let ticks := run_ticks f analyze svc save now m_result m_catch m_finally.

(** [stopRecording] of a render that was not recording returns at its
    first line. *)
Lemma stop_of_idle_render (r : Render) (s : Store) :
  isRecording (view r) = false -> stop r s = s.
Proof.
  intros H. unfold stop, stopRecording. now rewrite H.
Qed.

(** [startRecording] can only run from a render that is neither recording
    nor processing, and that render is the one its interval keeps. *)
Lemma start_installs_interval (r : Render) (env : StartEnv) (s : Store) :
  isRecording (view r) = false -> isProcessing (view r) = false ->
  negb (simulationMode r) && has_stream env && recorder_fails env = false ->
  let s1 := startRecording r env s in
  intervals s1
  = {| interval_id := next_interval s; startTime := Date_now env;
       tick_render := r |} :: intervals s
  /\ isRecording (state s1) = true
  /\ isProcessing (state s1) = isProcessing (state s)
  /\ timerRef s1 = Some (next_interval s)
  /\ calls s1 = calls s.
Proof.
  intros R P E. unfold startRecording. rewrite R, P. cbn [orb].
  destruct (negb (simulationMode r) && has_stream env) eqn:L.
  - cbn [andb] in E. rewrite E. cbn. repeat split.
  - cbn. repeat split.
Qed.

(** A tick of the interval of an idle render only updates the clock. *)
Lemma tick_of_idle_render (id : BinNums.positive) (start_at t : Z)
    (r : Render) (rest : list Interval) (s : Store) :
  isRecording (view r) = false ->
  intervals s = {| interval_id := id; startTime := start_at;
                   tick_render := r |} :: rest ->
  fire id t s = setRecordingTime ((t - start_at) / 1000) s.
Proof.
  intros R I. unfold fire, fire_interval. rewrite I. cbn [find interval_id].
  rewrite Pos.eqb_refl. unfold interval_callback. cbn [startTime tick_render].
  fold stop. rewrite (stop_of_idle_render _ _ R).
  now destruct (15 <=? (t - start_at) / 1000)%Z.
Qed.

Lemma last_shift (l : list Z) (a d : Z) : last (a :: l) d = last l a.
Proof.
  revert a d. induction l as [|b l IH]; intros a d; [reflexivity|].
  change (last (a :: b :: l) d) with (last (b :: l) d).
  now rewrite (IH b d), (IH b a).
Qed.

(** Ticks of the interval of an idle render change the clock and nothing
    else. *)
Lemma ticks_of_idle_render (id : BinNums.positive) (start_at : Z)
    (r : Render) (rest : list Interval) (times : list Z) (s : Store) :
  isRecording (view r) = false ->
  intervals s = {| interval_id := id; startTime := start_at;
                   tick_render := r |} :: rest ->
  let s2 := ticks id times s in
  intervals s2 = intervals s
  /\ isRecording (state s2) = isRecording (state s)
  /\ isProcessing (state s2) = isProcessing (state s)
  /\ timerRef s2 = timerRef s
  /\ calls s2 = calls s
  /\ recordingTime (state s2)
     = last (map (fun t => (t - start_at) / 1000)%Z times)
            (recordingTime (state s)).
Proof.
  intros R. revert s.
  induction times as [|t times IH]; intros s I.
  - cbn. repeat split.
  - unfold ticks, run_ticks. cbn [fold_left map]. fold fire.
    rewrite (tick_of_idle_render _ _ t _ _ _ R I).
    change (fold_left (fun st t1 => fire id t1 st) times)
      with (ticks id times).
    destruct (IH (setRecordingTime ((t - start_at) / 1000) s) I)
      as (A & B & C & D & E & T).
    repeat split; try assumption.
    rewrite T, last_shift. reflexivity.
Qed.

(** However many ticks run and whatever the clock shows, a recording
    that started keeps recording: the interval stays set and processing
    never begins. *)
Lemma ticks_never_stop (r : Render) (env : StartEnv) (s : Store)
    (times : list Z) :
  isRecording (view r) = false -> isProcessing (view r) = false ->
  negb (simulationMode r) && has_stream env && recorder_fails env = false ->
  let s2 := ticks (next_interval s) times (startRecording r env s) in
  isRecording (state s2) = true
  /\ isProcessing (state s2) = isProcessing (state s)
  /\ timerRef s2 = Some (next_interval s)
  /\ calls s2 = calls s
  /\ intervals s2 = intervals (startRecording r env s).
Proof.
  intros R P E.
  destruct (start_installs_interval r env s R P E) as (I & A & B & C & D).
  destruct (ticks_of_idle_render _ _ _ _ times _ R I)
    as (I' & A' & B' & C' & D' & _).
  cbv zeta. repeat split; congruence.
Qed.

End ControllerFacts.

(** [stopRecording] of a render that is recording does stop: the flag is
    cleared, the interval is removed and [processRecording] runs. *)
Example ex_stop_of_recording_render :
  let s := stop_of (render true capturing_store) capturing_store in
  isRecording (state s) = false
  /\ timerRef s = None
  /\ intervals s = []
  /\ calls s = [AnalyzeVideo [] true None]
  /\ error (state s) = Some no_pulse_message.
Proof. cbv zeta. repeat split. Qed.

(** A live session ended by the [stopRecording] of a render that is
    recording: the recorder is stopped, its [stop] event runs
    [processRecording] on the chunks gathered, and the result is set. *)
Example ex_live_session_reaches_result :
  let s1 := startRecording (render false initial_store) live_env
              initial_store in
  let s2 := ondataavailable [] (ondataavailable [Byte.x61; Byte.x62] s1) in
  let s3 := stop_of (render false s2) s2 in
  let s4 := onstop_of s3 in
  chunksRef s2 = [[Byte.x61; Byte.x62]]
  /\ option_map rstate (mediaRecorderRef s3) = Some inactive
  /\ isRecording (state s3) = false
  /\ calls s3 = []
  /\ result (state s4)
     = Some (assemble snake_case_response "2025-01-01T00:00:00.000Z"
               "### REPORT_STATUS: OPTIMAL")
  /\ error (state s4) = None
  /\ storageStatus (state s4) = Some cloud
  /\ isProcessing (state s4) = false
  /\ List.length (calls s4) = 3%nat.
Proof. cbv zeta. repeat split. Qed.

(** C3, the code at a session started at time 0 and ticked every second
    up to 16 s, in simulation and with a live recorder: the callback of
    the interval calls the [stopRecording] of the render that started the
    session, in which [isRecording] was false, so that call returns at
    once; after the ticks at 15 s and 16 s the component is still
    recording, the clock shows 16, the interval is still set, the
    recorder still records and processing has not begun. *)
Theorem auto_stop_does_not_fire :
  let s1 := startRecording (render true initial_store) sim_env
              initial_store in
  let s2 := ticks_of every_second s1 in
  let s3 := ticks_of every_second
              (startRecording (render false initial_store) live_env
                 initial_store) in
  isRecording (state s1) = true
  /\ isRecording (state s2) = true
  /\ recordingTime (state s2) = 16%Z
  /\ isProcessing (state s2) = false
  /\ timerRef s2 = Some 1%positive
  /\ List.length (intervals s2) = 1%nat
  /\ calls s2 = []
  /\ isRecording (state s3) = true
  /\ recordingTime (state s3) = 16%Z
  /\ option_map rstate (mediaRecorderRef s3) = Some recording
  /\ calls s3 = [].
Proof. cbv zeta. repeat split. Qed.

(** * Further properties of the code *)

(** ** Splitting, joining and stripping *)

Section SplitFacts.

Lemma split_not_nil (sep : ascii) (s : string) : split sep s <> [].
Proof.
  induction s as [|c s IH]; cbn [split]; [discriminate|].
  destruct (Ascii.eqb c sep); [discriminate|].
  destruct (split sep s); [contradiction | discriminate].
Qed.

Lemma join_cons (sep : ascii) (l : string) (rest : list string) :
  rest <> [] ->
  join sep (l :: rest) = (l ++ String sep (join sep rest))%string.
Proof. destruct rest; [contradiction | reflexivity]. Qed.

Lemma join_head (sep c : ascii) (h : string) (t : list string) :
  join sep (String c h :: t) = String c (join sep (h :: t)).
Proof. destruct t; reflexivity. Qed.

Lemma split_lacking (sep : ascii) (l : string) :
  lacks sep l = true -> split sep l = [l].
Proof.
  induction l as [|c l IH]; cbn [lacks split]; intros H; [reflexivity|].
  apply andb_true_iff in H as [Hc Hl]. apply negb_true_iff in Hc.
  now rewrite Hc, (IH Hl).
Qed.

Lemma split_app_lacking (sep : ascii) (l rest : string) :
  lacks sep l = true ->
  split sep (l ++ String sep rest) = l :: split sep rest.
Proof.
  induction l as [|c l IH]; cbn [lacks append split]; intros H.
  - now rewrite Ascii.eqb_refl.
  - apply andb_true_iff in H as [Hc Hl]. apply negb_true_iff in Hc.
    now rewrite Hc, (IH Hl).
Qed.

Lemma remove_all_char_lacks (c : ascii) (s : string) :
  lacks c (remove_all [String c EmptyString] s) = true.
Proof.
  unfold remove_all. induction s as [|d s IH]; [reflexivity|].
  cbn [remove_all_from first_match]. rewrite startsWith_cons.
  destruct (Ascii.eqb_spec c d) as [->|N].
  - rewrite startsWith_empty. cbn. exact IH.
  - cbn [andb lacks]. rewrite IH.
    destruct (Ascii.eqb_spec d c) as [->|]; [contradiction | reflexivity].
Qed.

Lemma trimEnd_cons (c d : ascii) (x u : string) :
  trimEnd x = String d u -> trimEnd (String c x) = String c (String d u).
Proof. intros H. cbn [trimEnd]. now rewrite H. Qed.

Lemma trimEnd_idempotent (s : string) : trimEnd (trimEnd s) = trimEnd s.
Proof.
  induction s as [|c s IH]; [reflexivity|].
  cbn [trimEnd]. destruct (trimEnd s) as [|d t] eqn:E.
  - destruct (is_white_space c) eqn:W; [reflexivity|].
    cbn [trimEnd]. now rewrite W.
  - now apply trimEnd_cons.
Qed.

Lemma trimStart_of_trimEnd (c : ascii) (t : string) :
  is_white_space c = false ->
  trimStart (trimEnd (String c t)) = trimEnd (String c t).
Proof.
  intros W. cbn [trimEnd].
  destruct (trimEnd t); [rewrite W|]; cbn [trimStart]; now rewrite W.
Qed.

Lemma trim_idempotent (s : string) : trim (trim s) = trim s.
Proof.
  unfold trim.
  destruct (trimStart_head s) as [H | (c & t & H & W)]; rewrite H.
  - reflexivity.
  - rewrite (trimStart_of_trimEnd c t W). apply trimEnd_idempotent.
Qed.

Lemma split_join_lacking (sep : ascii) (lines : list string) :
  lines <> [] ->
  Forall (fun l => lacks sep l = true) lines ->
  split sep (join sep lines) = lines.
Proof.
  intros NE F. induction F as [|l rest Hl F IH]; [contradiction|].
  destruct rest as [|l' rest'].
  - cbn [join]. now apply split_lacking.
  - rewrite join_cons by discriminate.
    rewrite (split_app_lacking _ _ _ Hl). f_equal.
    apply IH. discriminate.
Qed.

End SplitFacts.

(** X1. Splitting a text at a separator loses nothing: the pieces joined
    by the separator are the text again, and there is one piece more than
    the separator occurs. *)
Theorem join_of_split (sep : ascii) (s : string) :
  join sep (split sep s) = s
  /\ List.length (split sep s) = S (occurrences sep s).
Proof.
  induction s as [|c s [IH IL]]; [split; reflexivity|].
  cbn [split occurrences].
  destruct (Ascii.eqb_spec c sep) as [->|N].
  - rewrite (join_cons _ _ _ (split_not_nil sep s)), IH.
    cbn [List.length]. rewrite IL. split; reflexivity.
  - pose proof (split_not_nil sep s) as NE.
    destruct (split sep s) as [|h t]; [contradiction|].
    rewrite join_head, IH. split; [reflexivity | exact IL].
Qed.

(** X2. Lines that do not contain the separator come back from a split
    of their join, as long as there is at least one line. *)
Theorem split_of_join (sep : ascii) (lines : list string) :
  lines <> [] ->
  Forall (fun l => lacks sep l = true) lines ->
  split sep (join sep lines) = lines.
Proof. apply split_join_lacking. Qed.

Lemma split_of_join_witness :
  split newline (join newline ["### A"; ""; "* b"]) = ["### A"; ""; "* b"].
Proof.
  apply split_of_join; [discriminate|].
  repeat constructor.
Defined.

(** X3. No asterisk reaches plain text: the text of a plain line and
    every plain segment of a finding line are free of asterisks,
    whatever the line. *)
Theorem plain_text_lacks_asterisk (line : string) :
  match render_line line with
  | Some b => plain_parts_lack_asterisk b
  | None => True
  end.
Proof.
  unfold render_line.
  destruct (startsWith line "###"); [exact I|].
  destruct (has_metric_token line).
  - cbn [plain_parts_lack_asterisk]. apply Forall_forall.
    intros seg H. apply in_map_iff in H as (part & <- & _).
    unfold render_part.
    destruct (startsWith part "[BPM:"); [exact I|].
    destruct (startsWith part "[BP:"); [exact I|].
    destruct (startsWith part "[HRV:"); [exact I|].
    apply (remove_all_char_lacks "*").
  - destruct (startsWith line "**AI Verdict:**"); [exact I|].
    destruct (startsWith line "**"); [exact I|].
    destruct (truthy (trim line)); [|exact I].
    apply (remove_all_char_lacks "*").
Qed.

(** X4. The status of a banner and the text of a verdict carry no white
    space at either end: trimming them again changes nothing. *)
Theorem shown_text_is_trimmed (line : string) :
  match render_line line with
  | Some b =>
      match trimmed_text b with
      | Some t => trim t = t
      | None => True
      end
  | None => True
  end.
Proof.
  unfold render_line.
  destruct (startsWith line "###").
  - apply trim_idempotent.
  - destruct (has_metric_token line); [exact I|].
    destruct (startsWith line "**AI Verdict:**").
    + apply trim_idempotent.
    + destruct (startsWith line "**"); [exact I|].
      destruct (truthy (trim line)); exact I.
Qed.

(** ** The local report through the renderer *)

Section FallbackFacts.

Lemma lacks_app (c : ascii) (x y : string) :
  lacks c (x ++ y) = lacks c x && lacks c y.
Proof.
  induction x as [|d x IH]; cbn [append lacks]; [reflexivity|].
  now rewrite IH, andb_assoc.
Qed.

Lemma tag_body_lacks_newline (v : string) :
  tag_body v = true -> lacks newline v = true.
Proof.
  induction v as [|c v IH]; cbn [tag_body lacks]; intros H; [reflexivity|].
  apply andb_true_iff in H as [H Hv].
  apply andb_true_iff in H as [_ Hl]. apply negb_true_iff in Hl.
  rewrite (IH Hv), andb_true_r. apply negb_true_iff.
  destruct (Ascii.eqb_spec c newline) as [->|]; [discriminate Hl|reflexivity].
Qed.

Lemma tag_body_app (x y : string) :
  tag_body (x ++ y) = tag_body x && tag_body y.
Proof.
  induction x as [|d x IH]; cbn [append tag_body]; [reflexivity|].
  now rewrite IH, andb_assoc.
Qed.

(** A line whose first bracket opens a token is a finding line. *)
Lemma render_finding_line (k : metric_kind) (pre v post : string) :
  startsWith (pre ++ token k v ++ post) "###" = false ->
  no_open pre = true ->
  tag_body v = true ->
  render_line (pre ++ token k v ++ post)
  = Some (FindingLine
            (PlainText (remove_all ["*"] pre)
             :: MetricTag k v
             :: map render_part (split_brackets post))).
Proof.
  intros Hs Hp Hv. unfold render_line. rewrite Hs, token_found.
  do 2 f_equal.
  rewrite token_app, (split_token _ _ _ Hp (tag_body_label k v Hv)).
  cbn [map]. rewrite (render_part_plain _ Hp), token_closed.
  now rewrite (render_part_token k v Hv).
Qed.

Lemma fallback_report_lines (f : Q -> string) (r : Rppg.Response) :
  fallback_report f r
  = join newline
      (fallback_lines (fallback_status (rounded_heart_rate r))
         (Number_toString f (rounded_heart_rate r))
         (ToString f (or_else (Rppg.opt_systolic (Rppg.blood_pressure r))
                              (lit 120)))
         (ToString f (or_else (Rppg.opt_diastolic (Rppg.blood_pressure r))
                              (lit 80)))).
Proof.
  unfold fallback_report, fallback_head, fallback_tail, bpm_token,
    fallback_lines, token, label, nl.
  cbn [join ToString]. rewrite !append_assoc. cbn [append].
  rewrite ?append_assoc. reflexivity.
Qed.

End FallbackFacts.

(** X5. The local report always renders in full: provided the printed
    heart rate and pressures contain no closing bracket and no line break
    (as numerals do), it gives exactly six blocks: the status banner,
    negative when the status is ELEVATED and positive when it is STABLE,
    the two headings, a finding line with the HR badge, a finding line
    with the BP badge, and the verdict. *)
Theorem fallback_renders_fully (f : Q -> string) (r : Rppg.Response) :
  let hr := rounded_heart_rate r in
  let a := Number_toString f hr in
  let b := ToString f (or_else (Rppg.opt_systolic (Rppg.blood_pressure r))
                               (lit 120)) in
  let c := ToString f (or_else (Rppg.opt_diastolic (Rppg.blood_pressure r))
                               (lit 80)) in
  tag_body a = true -> tag_body b = true -> tag_body c = true ->
  report_blocks (fallback_report f r)
  = [ StatusBanner (fallback_status hr)
        (if gt hr (Fin 100) then negative else positive);
      Heading "Summary: Signals processed via local engine fallback.";
      Heading "Clinical Findings:";
      FindingLine [PlainText " "; MetricTag HR (" " ++ a);
                   PlainText " - Normal rhythm detected."];
      FindingLine [PlainText " "; MetricTag BP (" " ++ b ++ "/" ++ c);
                   PlainText " - Estimated values."];
      VerdictBlock "Data captured and stored in local history." ].
Proof.
  intros hr a b c Ha Hb Hc.
  assert (Hv : tag_body (" " ++ b ++ "/" ++ c) = true).
  { cbn [append tag_body]. rewrite tag_body_app. cbn [tag_body].
    now rewrite Hb, Hc. }
  assert (Hw : tag_body (" " ++ a) = true) by exact Ha.
  unfold report_blocks, renderClinicalReport.
  rewrite fallback_report_lines. fold hr a b c. clearbody a b c hr.
  assert (T : truthy (join newline
                        (fallback_lines (fallback_status hr) a b c)) = true)
    by reflexivity.
  rewrite T. rewrite split_join_lacking.
  - unfold fallback_lines. cbn [map].
    rewrite (render_finding_line HR "* " (" " ++ a)
               " - Normal rhythm detected." eq_refl eq_refl Hw).
    rewrite (render_finding_line BP "* " (" " ++ b ++ "/" ++ c)
               " - Estimated values." eq_refl eq_refl Hv).
    unfold fallback_status. destruct (gt hr (Fin 100)); reflexivity.
  - discriminate.
  - unfold fallback_lines.
    repeat (constructor; [|]); try reflexivity; try constructor.
    + unfold fallback_status. destruct (gt hr (Fin 100)); reflexivity.
    + cbn [append lacks token label]. rewrite !lacks_app.
      rewrite (tag_body_lacks_newline a Ha). reflexivity.
    + cbn [append lacks token label]. rewrite !lacks_app.
      cbn [append lacks].
      rewrite (tag_body_lacks_newline b Hb), (tag_body_lacks_newline c Hc).
      reflexivity.
Qed.

Lemma fallback_renders_fully_witness :
  report_blocks (fallback_report (fun _ => "?") snake_case_response)
  = [ StatusBanner "STABLE" positive;
      Heading "Summary: Signals processed via local engine fallback.";
      Heading "Clinical Findings:";
      FindingLine [PlainText " "; MetricTag HR " 72";
                   PlainText " - Normal rhythm detected."];
      FindingLine [PlainText " "; MetricTag BP " 118/76";
                   PlainText " - Estimated values."];
      VerdictBlock "Data captured and stored in local history." ].
Proof.
  exact (fallback_renders_fully (fun _ => "?") snake_case_response
           eq_refl eq_refl eq_refl).
Defined.

(** ** More on the processing handler *)

Section RunFacts.

Variable f : Q -> string.
Variable analyze :
  Blob -> bool -> option bool -> settled (option Rppg.Response).
Variable svc : Rppg.Response -> remote.
Variable save : Scan.VitalScanResult -> bool -> settled bool.
Variable now : string.
Variable m_result m_catch m_finally : bool.

Let process := processRecording f analyze svc save now
                 m_result m_catch m_finally.

(** Follow a run through every branch it can take. *)
Ltac explore :=
  repeat (cbn beta iota;
          first
            [ rewrite interpretation_run
            | match goal with
              | |- context [analyze ?a ?b ?c] =>
                  destruct (analyze a b c) as [[?data|]|?e] eqn:?A
              | |- context [save ?a ?b] =>
                  destruct (save a b) as [?saved|?e] eqn:?S
              | |- context [is_undefined ?v] =>
                  destruct (is_undefined v) eqn:?U
              | |- context [(size ?b =? 0)%nat] =>
                  destruct (size b =? 0)%nat eqn:?Z
              | |- context [if m_result then _ else _] =>
                  destruct m_result eqn:?MR
              | |- context [if m_catch then _ else _] =>
                  destruct m_catch eqn:?MC
              | |- context [if m_finally then _ else _] =>
                  destruct m_finally eqn:?MF
              end ]).

(** A run leaves the recorder's side of the store alone. *)
Lemma process_frame (r : Render) (chunks : list Blob) (s : Store) :
  let s' := fst (process r chunks s) in
  isRecording (state s') = isRecording (state s)
  /\ recordingTime (state s') = recordingTime (state s)
  /\ useProxy (state s') = useProxy (state s)
  /\ chunksRef s' = chunksRef s
  /\ timerRef s' = timerRef s
  /\ mediaRecorderRef s' = mediaRecorderRef s
  /\ intervals s' = intervals s
  /\ next_interval s' = next_interval s.
Proof.
  unfold process. run_handler.
  destruct (isProcessing (view r)); [cbn; repeat split|].
  destruct (simulationMode r); explore; cbn; repeat split.
Qed.

(** X6. A run of [processRecording] writes only [isProcessing], [error],
    [result] and [storageStatus]: the recording flag, the clock, the
    proxy switch, the chunk buffer, the timer and recorder refs and the
    window's intervals are left as they were. *)
Theorem processing_keeps_the_recorder (r : Render) (chunks : list Blob)
    (s : Store) :
  let s' := fst (process r chunks s) in
  isRecording (state s') = isRecording (state s)
  /\ recordingTime (state s') = recordingTime (state s)
  /\ useProxy (state s') = useProxy (state s)
  /\ chunksRef s' = chunksRef s
  /\ timerRef s' = timerRef s
  /\ mediaRecorderRef s' = mediaRecorderRef s
  /\ intervals s' = intervals s
  /\ next_interval s' = next_interval s.
Proof. exact (process_frame r chunks s). Qed.

(** X7. The collaborators are called in the order of the pipeline and
    with the pipeline's own data: a run makes no call, or the extraction
    call alone, or the extraction call and then the interpretation call
    on the response the extractor resolved to (whose [heart_rate] is not
    [undefined]), or those two and then the save of the scan result
    assembled from that response. *)
Theorem calls_follow_the_pipeline (r : Render) (chunks : list Blob)
    (s : Store) :
  let s' := fst (process r chunks s) in
  let extraction :=
    AnalyzeVideo (payload_of r chunks) (simulationMode r) (proxy_of r) in
  calls s' = calls s
  \/ calls s' = extraction :: calls s
  \/ exists data,
       analyze (payload_of r chunks) (simulationMode r) (proxy_of r)
         = Fulfilled (Some data)
       /\ is_undefined (Rppg.heart_rate data) = false
       /\ (calls s' = InterpretVitals data :: extraction :: calls s
           \/ calls s'
              = SaveScanResult
                  (assemble data now (interpretation_step f data (svc data)))
                  (simulationMode r)
                :: InterpretVitals data :: extraction :: calls s).
Proof.
  unfold process, payload_of, proxy_of. run_handler.
  destruct (isProcessing (view r)); [now left|].
  destruct (simulationMode r); explore; cbn;
    try (now left); try (right; now left);
    right; right; exists data; repeat split; auto.
Qed.

(** X8. The promise of [processRecording] never rejects, and a run that
    passed the guard ends with [isProcessing] false while the component
    is mounted (and true only when it was unmounted meanwhile). *)
Theorem processing_always_settles (r : Render) (chunks : list Blob)
    (s : Store) :
  isProcessing (view r) = false ->
  snd (process r chunks s) = Fulfilled tt
  /\ isProcessing (state (fst (process r chunks s))) = negb m_finally.
Proof.
  intros P. unfold process. run_handler. rewrite P.
  destruct (simulationMode r); explore; cbn; split; reflexivity.
Qed.

(** X9. A rejected extraction ends the run with its message as the
    error, replaced by the network hint when it mentions "Failed to
    fetch"; the result and the storage badge are left as they were, only
    the extraction call was made, and the report card shows that error
    (unless the message is empty). *)
Theorem extraction_failure_is_reported (r : Render) (chunks : list Blob)
    (s : Store) (message : string) :
  isProcessing (view r) = false ->
  (simulationMode r = false -> size (new_Blob chunks) <> 0%nat) ->
  analyze (payload_of r chunks) (simulationMode r) (proxy_of r)
    = Rejected message ->
  m_catch = true ->
  let s' := fst (process r chunks s) in
  error (state s') = Some (shown_message message)
  /\ result (state s') = result (state s)
  /\ storageStatus (state s') = storageStatus (state s)
  /\ calls s'
     = AnalyzeVideo (payload_of r chunks) (simulationMode r) (proxy_of r)
       :: calls s
  /\ (truthy message = true ->
      Panel.report_panel (state s') = Panel.ErrorPanel (shown_message message)).
Proof.
  intros P B A C. unfold process, payload_of, proxy_of in *.
  assert (T : truthy message = true -> truthy (shown_message message) = true).
  { unfold shown_message. now destruct (includes message "Failed to fetch"). }
  run_handler. rewrite P, C.
  destruct (simulationMode r).
  - cbn beta iota. rewrite A. fold (shown_message message).
    destruct m_finally; cbn; repeat split;
      intros H; unfold Panel.report_panel; cbn; now rewrite (T H).
  - specialize (B eq_refl). apply Nat.eqb_neq in B.
    cbn beta iota. rewrite B. cbn beta iota. rewrite A.
    fold (shown_message message).
    destruct m_finally; cbn; repeat split;
      intros H; unfold Panel.report_panel; cbn; now rewrite (T H).
Qed.

(** X10. When the response has a pulse and the save succeeds, the run
    ends with the scan result set, no error, and the storage badge
    "cloud" exactly when the mode is live and the save returned true
    ("local" otherwise); the report card shows the rendered
    interpretation. *)
Theorem successful_run_sets_result (r : Render) (chunks : list Blob)
    (s : Store) (data : Rppg.Response) (saved : bool) :
  isProcessing (view r) = false ->
  (simulationMode r = false -> size (new_Blob chunks) <> 0%nat) ->
  analyze (payload_of r chunks) (simulationMode r) (proxy_of r)
    = Fulfilled (Some data) ->
  is_undefined (Rppg.heart_rate data) = false ->
  m_result = true ->
  let scan := assemble data now (interpretation_step f data (svc data)) in
  save scan (simulationMode r) = Fulfilled saved ->
  let s' := fst (process r chunks s) in
  result (state s') = Some scan
  /\ error (state s') = None
  /\ storageStatus (state s')
     = Some (if saved && negb (simulationMode r) then cloud else local)
  /\ Panel.report_panel (state s')
     = Panel.ReportPanel
         (renderClinicalReport (interpretation_step f data (svc data))).
Proof.
  intros P B A U R scan S. unfold process, payload_of, proxy_of in *.
  assert (E : forall t, (if truthy t then t else "") = t)
    by (intros []; reflexivity).
  run_handler. rewrite P, R.
  destruct (simulationMode r).
  - cbn beta iota. rewrite A. cbn beta iota. rewrite U.
    rewrite interpretation_run. cbn beta iota. fold scan. rewrite S.
    destruct m_finally, saved; cbn; unfold Panel.report_panel; cbn;
      rewrite E; repeat split.
  - specialize (B eq_refl). apply Nat.eqb_neq in B.
    cbn beta iota. rewrite B. cbn beta iota. rewrite A. cbn beta iota.
    rewrite U. rewrite interpretation_run. cbn beta iota. fold scan.
    rewrite S.
    destruct m_finally, saved; cbn; unfold Panel.report_panel; cbn;
      rewrite E; repeat split.
Qed.

(** X11. When the save rejects, the scan result stays set but the error
    is set as well, and the storage badge is not updated: the report
    card shows the error instead of the report (unless the message is
    empty). *)
Theorem save_failure_hides_the_report (r : Render) (chunks : list Blob)
    (s : Store) (data : Rppg.Response) (message : string) :
  isProcessing (view r) = false ->
  (simulationMode r = false -> size (new_Blob chunks) <> 0%nat) ->
  analyze (payload_of r chunks) (simulationMode r) (proxy_of r)
    = Fulfilled (Some data) ->
  is_undefined (Rppg.heart_rate data) = false ->
  m_result = true ->
  m_catch = true ->
  let scan := assemble data now (interpretation_step f data (svc data)) in
  save scan (simulationMode r) = Rejected message ->
  let s' := fst (process r chunks s) in
  result (state s') = Some scan
  /\ error (state s') = Some (shown_message message)
  /\ storageStatus (state s') = storageStatus (state s)
  /\ (truthy message = true ->
      Panel.report_panel (state s')
      = Panel.ErrorPanel (shown_message message)).
Proof.
  intros P B A U R C scan S. unfold process, payload_of, proxy_of in *.
  assert (T : truthy message = true -> truthy (shown_message message) = true).
  { unfold shown_message. now destruct (includes message "Failed to fetch"). }
  run_handler. rewrite P, R, C.
  destruct (simulationMode r).
  - cbn beta iota. rewrite A. cbn beta iota. rewrite U.
    rewrite interpretation_run. cbn beta iota. fold scan. rewrite S.
    fold (shown_message message).
    destruct m_finally; cbn; repeat split;
      intros H; unfold Panel.report_panel; cbn; now rewrite (T H).
  - specialize (B eq_refl). apply Nat.eqb_neq in B.
    cbn beta iota. rewrite B. cbn beta iota. rewrite A. cbn beta iota.
    rewrite U. rewrite interpretation_run. cbn beta iota. fold scan.
    rewrite S. fold (shown_message message).
    destruct m_finally; cbn; repeat split;
      intros H; unfold Panel.report_panel; cbn; now rewrite (T H).
Qed.

End RunFacts.

(** ** More on the recording controller *)

Section RecorderFacts.

Variable f : Q -> string.
Variable analyze :
  Blob -> bool -> option bool -> settled (option Rppg.Response).
Variable svc : Rppg.Response -> remote.
Variable save : Scan.VitalScanResult -> bool -> settled bool.
Variable now : string.
Variable m_result m_catch m_finally : bool.

Let stop := stopRecording f analyze svc save now m_result m_catch m_finally.
Let fire := fire_interval f analyze svc save now m_result m_catch m_finally.
Let process := processRecording f analyze svc save now
                 m_result m_catch m_finally.

Lemma find_other_interval (id : BinNums.positive) (l : list Interval) :
  find (fun i => Pos.eqb (interval_id i) id) (filter (other_interval id) l)
  = None.
Proof.
  induction l as [|i l IH]; [reflexivity|].
  cbn [filter]. unfold other_interval at 1.
  destruct (Pos.eqb (interval_id i) id) eqn:E; cbn [negb]; [exact IH|].
  cbn [find]. now rewrite E.
Qed.

Lemma fire_cleared (id : BinNums.positive) (t : Z) (s : Store)
    (l : list Interval) :
  intervals s = filter (other_interval id) l -> fire id t s = s.
Proof.
  intros H. unfold fire, fire_interval. now rewrite H, find_other_interval.
Qed.

(** X12. [stopRecording] of a render that is recording ends the
    capture: the flag is cleared, the interval the ref held is removed
    and the ref emptied, so a tick of that interval that still arrives
    changes nothing.  With a recorder still recording the recorder is
    stopped and nothing is processed yet; otherwise [processRecording]
    runs on the chunks at once. *)
Theorem stop_ends_the_capture (r : Render) (s : Store)
    (id : BinNums.positive) (t : Z) :
  isRecording (view r) = true ->
  timerRef s = Some id ->
  let s' := stop r s in
  isRecording (state s') = false
  /\ timerRef s' = None
  /\ intervals s' = filter (other_interval id) (intervals s)
  /\ fire id t s' = s'
  /\ match mediaRecorderRef s with
     | Some rec =>
         match rstate rec with
         | recording =>
             mediaRecorderRef s' = Some (recorder_stop rec)
             /\ calls s' = calls s
             /\ isProcessing (state s') = isProcessing (state s)
         | inactive => True
         end
     | None => True
     end.
Proof.
  intros R T. unfold stop, stopRecording. rewrite R. cbn [negb].
  cbn [timerRef setIsRecording with_state]. rewrite T.
  set (s2 := set_timer None _ _ _).
  assert (F : isRecording (state s2) = false
              /\ timerRef s2 = None
              /\ intervals s2 = filter (other_interval id) (intervals s)
              /\ mediaRecorderRef s2 = mediaRecorderRef s)
    by (repeat split).
  destruct F as (F1 & F2 & F3 & F4). rewrite F4.
  pose proof (process_frame f analyze svc save now m_result m_catch
                m_finally r (chunksRef s2) s2) as P.
  cbv zeta in P. destruct P as (P1 & _ & _ & _ & P5 & _ & P7 & _).
  destruct (mediaRecorderRef s) as [rec|].
  - destruct (rstate rec).
    + repeat split; try congruence.
      apply (fire_cleared id t _ (intervals s)). congruence.
    + repeat split; try assumption.
      apply (fire_cleared id t _ (intervals s)). exact F3.
  - repeat split; try congruence.
    apply (fire_cleared id t _ (intervals s)). congruence.
Qed.

(** X13. A start whose recorder cannot be made leaves no session
    behind: the recording flag is off again, the error asks for
    simulation mode, the interval just set is removed (a tick of it
    changes nothing), although the timer ref still holds its id; no
    recorder is stored. *)
Theorem failed_start_leaves_no_session (r : Render) (env : StartEnv)
    (s : Store) (t : Z) :
  isRecording (view r) = false -> isProcessing (view r) = false ->
  simulationMode r = false -> has_stream env = true ->
  recorder_fails env = true ->
  let s1 := startRecording r env s in
  isRecording (state s1) = false
  /\ error (state s1)
     = Some "Recording engine failed. Please try Simulation Mode."
  /\ result (state s1) = None
  /\ chunksRef s1 = []
  /\ intervals s1 = filter (other_interval (next_interval s)) (intervals s)
  /\ timerRef s1 = Some (next_interval s)
  /\ mediaRecorderRef s1 = mediaRecorderRef s
  /\ fire (next_interval s) t s1 = s1.
Proof.
  intros R P L H F. unfold startRecording. rewrite R, P, L, H, F.
  cbn [orb negb andb].
  cbn. rewrite Pos.eqb_refl. cbn [negb]. repeat split.
  apply (fire_cleared _ t _ (intervals s)). cbn.
  now rewrite Pos.eqb_refl.
Qed.

(** X14. A start that goes through begins a fresh session: error and
    result are cleared, the chunk buffer is emptied, the clock is at 0,
    the recording flag is on, and one interval with the start time and a
    new id is added and held by the timer ref; in live mode with a
    stream a recorder in state recording is stored, with the vp8 type
    when it is supported. *)
Theorem start_begins_a_fresh_session (r : Render) (env : StartEnv)
    (s : Store) :
  isRecording (view r) = false -> isProcessing (view r) = false ->
  negb (simulationMode r) && has_stream env && recorder_fails env = false ->
  let s1 := startRecording r env s in
  error (state s1) = None
  /\ result (state s1) = None
  /\ chunksRef s1 = []
  /\ recordingTime (state s1) = 0%Z
  /\ isRecording (state s1) = true
  /\ intervals s1
     = {| interval_id := next_interval s; startTime := Date_now env;
          tick_render := r |} :: intervals s
  /\ timerRef s1 = Some (next_interval s)
  /\ next_interval s1 = Pos.succ (next_interval s)
  /\ mediaRecorderRef s1
     = (if negb (simulationMode r) && has_stream env
        then Some {| rstate := recording; stop_pending := false;
                     mimeType := if vp8_supported env
                                 then "video/webm;codecs=vp8"
                                 else "video/webm";
                     onstop_render := r |}
        else mediaRecorderRef s).
Proof.
  intros R P E. unfold startRecording. rewrite R, P. cbn [orb].
  destruct (negb (simulationMode r) && has_stream env).
  - cbn [andb] in E. rewrite E. cbn. repeat split.
  - cbn. repeat split.
Qed.

End RecorderFacts.

Section ChunkFacts.

Lemma deliver_chunks (chunks : list Blob) (s : Store) :
  chunksRef (deliver chunks s)
  = chunksRef s ++ filter (fun d => (0 <? size d)%nat) chunks.
Proof.
  revert s. induction chunks as [|d chunks IH]; intros s.
  - cbn. now rewrite app_nil_r.
  - cbn [deliver fold_left filter]. fold (deliver chunks).
    rewrite IH. unfold ondataavailable.
    destruct (0 <? size d)%nat; [|reflexivity].
    cbn [chunksRef set_chunks]. now rewrite <- app_assoc.
Qed.

Lemma size_filter_nonempty (chunks : list Blob) :
  size (new_Blob (filter (fun d => (0 <? size d)%nat) chunks))
  = size (new_Blob chunks).
Proof.
  unfold size, new_Blob.
  induction chunks as [|d chunks IH]; [reflexivity|].
  cbn [filter]. destruct (0 <? List.length d)%nat eqn:E.
  - cbn [concat]. rewrite !length_app. now rewrite IH.
  - apply Nat.ltb_ge in E. destruct d; [|cbn in E; lia].
    cbn [concat app]. exact IH.
Qed.

End ChunkFacts.

(** X15. The chunk buffer keeps every byte the recorder delivers: after
    any sequence of data events the buffer holds the earlier chunks
    followed by the non-empty new ones in order of arrival, no chunk in
    it is empty if none was before, and the assembled clip is as long as
    the earlier clip plus all the data delivered. *)
Theorem chunks_keep_every_byte (chunks : list Blob) (s : Store) :
  let s' := deliver chunks s in
  chunksRef s'
  = chunksRef s ++ filter (fun d => (0 <? size d)%nat) chunks
  /\ size (new_Blob (chunksRef s'))
     = (size (new_Blob (chunksRef s)) + size (new_Blob chunks))%nat
  /\ (Forall (fun d => (0 < size d)%nat) (chunksRef s) ->
      Forall (fun d => (0 < size d)%nat) (chunksRef s')).
Proof.
  cbv zeta. rewrite deliver_chunks. split; [reflexivity|]. split.
  - unfold size at 1 2, new_Blob at 1 2.
    rewrite concat_app, length_app.
    change (List.length (concat ?l)) with (size (new_Blob l)).
    now rewrite size_filter_nonempty.
  - intros F. apply Forall_app. split; [exact F|].
    apply Forall_forall. intros d H. apply filter_In in H as [_ H].
    now apply Nat.ltb_lt.
Qed.

(** ** The tiles *)

Section TileFacts.

Lemma Qfloor_unit (x : Q) : (0 <= x)%Q -> (x < 1)%Q -> Qfloor x = 0%Z.
Proof.
  intros L U.
  assert (A : (Qfloor x < 1)%Z).
  { rewrite Zlt_Qlt. eapply Qle_lt_trans; [apply Qfloor_le | exact U]. }
  assert (B : (0 < Qfloor x + 1)%Z).
  { rewrite Zlt_Qlt. eapply Qle_lt_trans; [exact L | apply Qlt_floor]. }
  lia.
Qed.

Lemma round_near_zero (q : Q) :
  (- (1 # 2) <= q)%Q -> (q < 1 # 2)%Q ->
  Math_round (Fin q) = Fin (inject_Z 0).
Proof.
  intros L U. unfold Math_round. do 2 f_equal. apply Qfloor_unit.
  - setoid_replace 0%Q with (- (1 # 2) + (1 # 2))%Q by reflexivity.
    now apply Qplus_le_l.
  - setoid_replace 1%Q with ((1 # 2) + (1 # 2))%Q by reflexivity.
    now apply Qplus_lt_l.
Qed.

End TileFacts.

(** X16. A heart rate that rounds to zero passes the pulse guard but is
    shown as no reading: for a response whose [heart_rate] is [null], or
    a number from -0.5 up to but not including 0.5, the guard lets it
    through, the scan result carries heart rate 0, and the heart-rate
    tile shows "--" as it does without a result. *)
Theorem zero_heart_rate_shows_dashes (f : Q -> string) (r : Rppg.Response)
    (now aiText : string) (s : Store) :
  Rppg.heart_rate r = null
  \/ (exists q, Rppg.heart_rate r = Num (Fin q)
                /\ (- (1 # 2) <= q)%Q /\ (q < 1 # 2)%Q) ->
  is_undefined (Rppg.heart_rate r) = false
  /\ Scan.heartRate (assemble r now aiText) = Fin (inject_Z 0)
  /\ Panel.heart_rate_tile f (with_result (assemble r now aiText) s) = "--"
  /\ Panel.heart_rate_tile f (state (Panel.clear s)) = "--".
Proof.
  intros H.
  assert (E : is_undefined (Rppg.heart_rate r) = false
              /\ Scan.heartRate (assemble r now aiText) = Fin (inject_Z 0)).
  { cbn [assemble Scan.heartRate].
    destruct H as [-> | (q & -> & L & U)]; [split; reflexivity|].
    split; [reflexivity|]. now apply round_near_zero. }
  destruct E as [E1 E2]. repeat split; try assumption.
  unfold Panel.heart_rate_tile, with_result.
  cbn [state setResult with_state result]. now rewrite E2.
Qed.

Lemma zero_heart_rate_shows_dashes_witness :
  Panel.heart_rate_tile (fun _ => "?")
    (with_result
       (assemble (sample_response (2 # 5)) "t" "x") initial_store) = "--".
Proof.
  refine (proj1 (proj2 (proj2
            (zero_heart_rate_shows_dashes (fun _ => "?")
               (sample_response (2 # 5)) "t" "x" initial_store _)))).
  right. exists (2 # 5). repeat split; discriminate.
Defined.

(** ** The other calls of the service *)

(** X17. [chatWithContext], [generateDietPlan] and [getHealthInsights]
    resolve with the response of a successful reply, and otherwise
    reject with the message they were given (the server's error text or
    the transport error) when it is not empty; [interpretVitals]
    replaces every such message by its fixed one, and [analyzeReport]
    resolves with its fixed message instead of rejecting. *)
Theorem backend_failures_keep_their_message (message response : string)
    (error : option string) :
  truthy message = true ->
  Gemini.chatWithContext (Body true error response) = Fulfilled response
  /\ Gemini.generateDietPlan (Body true error response) = Fulfilled response
  /\ Gemini.getHealthInsights (Body true error response)
     = Fulfilled response
  /\ Gemini.chatWithContext (Body false (Some message) response)
     = Rejected message
  /\ Gemini.generateDietPlan (Body false (Some message) response)
     = Rejected message
  /\ Gemini.getHealthInsights (Body false (Some message) response)
     = Rejected message
  /\ Gemini.chatWithContext (FetchFailed message) = Rejected message
  /\ Gemini.generateDietPlan (FetchFailed message) = Rejected message
  /\ Gemini.getHealthInsights (FetchFailed message) = Rejected message
  /\ interpretVitals (Body false (Some message) response)
     = Rejected "Failed to interpret vitals"
  /\ interpretVitals (FetchFailed message)
     = Rejected "Failed to interpret vitals"
  /\ Gemini.analyzeReport (Body false (Some message) response)
     = Fulfilled Gemini.image_unavailable_message
  /\ Gemini.analyzeReport (FetchFailed message)
     = Fulfilled Gemini.image_unavailable_message.
Proof.
  intros T.
  unfold Gemini.chatWithContext, Gemini.generateDietPlan,
    Gemini.getHealthInsights, Gemini.backend_call, Gemini.analyzeReport,
    interpretVitals, Gemini.or_text.
  cbn beta iota. rewrite !T. repeat split.
Qed.

Lemma backend_failures_keep_their_message_witness :
  Gemini.chatWithContext (Body false (Some "quota exceeded") "")
  = Rejected "quota exceeded".
Proof.
  exact (proj1 (proj2 (proj2 (proj2
           (backend_failures_keep_their_message "quota exceeded" ""
              None eq_refl))))).
Defined.

(** X18. The three calls never reject with an empty message: when the
    reply carries no error text, or an empty one, the message is the
    default of the call. *)
Theorem backend_rejections_are_never_empty (reply : chat_reply) :
  match Gemini.chatWithContext reply with
  | Rejected m => truthy m = true
  | Fulfilled _ => exists e t, reply = Body true e t
  end
  /\ match Gemini.generateDietPlan reply with
     | Rejected m => truthy m = true
     | Fulfilled _ => exists e t, reply = Body true e t
     end
  /\ match Gemini.getHealthInsights reply with
     | Rejected m => truthy m = true
     | Fulfilled _ => exists e t, reply = Body true e t
     end
  /\ Gemini.chatWithContext (FetchFailed "")
     = Rejected "Failed to get AI response"
  /\ Gemini.generateDietPlan (Body false None "")
     = Rejected "Failed to generate diet plan"
  /\ Gemini.getHealthInsights (Body false (Some "") "")
     = Rejected "Failed to generate insights".
Proof.
  assert (O : forall m d, truthy d = true -> truthy (Gemini.or_text m d) = true).
  { intros m d D. unfold Gemini.or_text. now destruct (truthy m) eqn:M. }
  unfold Gemini.chatWithContext, Gemini.generateDietPlan,
    Gemini.getHealthInsights, Gemini.backend_call.
  repeat split; try reflexivity;
    destruct reply as [m|[|] [e|] t]; cbn beta iota;
    try (now apply O); try (now eexists _, _);
    repeat (apply O); reflexivity.
Qed.

(** ** The chat view *)

(** X19. A send with a non-blank input, while no answer is pending,
    appends exactly two messages to the conversation: the user's input
    as typed and one answer of the model, which is never empty; the
    input box is cleared and the loading flag is off again.  The
    endpoint is asked with the whole earlier conversation followed by
    the input, and with no reports when the reports could not be
    fetched; its successful response is the answer, and every failure
    gives the fixed failure message. *)
Theorem send_appends_question_and_answer (st : Chat.ChatState)
    (reports : Gemini.reports_reply)
    (endpoint : list Gemini.ChatMessage -> list Gemini.MedicalReport
                -> chat_reply)
    (sent_at answered_at : Z) :
  truthy (trim (Chat.input st)) = true ->
  Chat.isLoading st = false ->
  let st' := Chat.handleSend st (Gemini.analyzeSymptoms reports endpoint)
               sent_at answered_at st in
  let answer :=
    shown_answer
      (endpoint
         (map Chat.history_entry (Chat.messages st)
          ++ [{| Gemini.chat_role := Gemini.user;
                 Gemini.chat_text := Chat.input st |}])
         (match reports with
          | Gemini.ReportsBody (Some l) => l
          | _ => []
          end)) in
  Chat.messages st'
  = Chat.messages st
    ++ [ {| Chat.role := Gemini.user; Chat.text := Chat.input st;
            Chat.timestamp := sent_at |};
         {| Chat.role := Gemini.model; Chat.text := answer;
            Chat.timestamp := answered_at |} ]
  /\ truthy answer = true
  /\ Chat.input st' = ""
  /\ Chat.isLoading st' = false.
Proof.
  intros T L. cbv zeta.
  unfold Chat.handleSend. rewrite T, L. cbn [negb orb].
  unfold Gemini.analyzeSymptoms, Chat.chatHistory,
    Gemini.fetchMedicalReports, Gemini.chatWithContext, Gemini.backend_call.
  set (reply := endpoint _ _). clearbody reply.
  assert (O : forall m, truthy (Gemini.or_text m Chat.sorry_message) = true).
  { intros m. unfold Gemini.or_text. now destruct (truthy m) eqn:M. }
  destruct reply as [m|[|] [e|] t]; cbn;
    rewrite <- ?app_assoc; repeat split; try reflexivity; apply O.
Qed.

Lemma send_appends_question_and_answer_witness :
  Chat.messages
    (Chat.handleSend greeting
       (Gemini.analyzeSymptoms (Gemini.ReportsFailed "offline")
          (fun _ _ => Body true None "Rest."))
       10 20 greeting)
  = [ {| Chat.role := Gemini.model; Chat.text := "Hello!";
         Chat.timestamp := 0 |};
      {| Chat.role := Gemini.user; Chat.text := " I have a headache ";
         Chat.timestamp := 10 |};
      {| Chat.role := Gemini.model; Chat.text := "Rest.";
         Chat.timestamp := 20 |} ].
Proof.
  exact (proj1 (send_appends_question_and_answer greeting
                  (Gemini.ReportsFailed "offline")
                  (fun _ _ => Body true None "Rest.") 10 20
                  eq_refl eq_refl)).
Defined.

(** X20. A send is ignored, whatever the service would answer, when the
    input is blank (empty or white space only) or an answer is still
    pending: conversation, input and loading flag stay as they are. *)
Theorem send_ignores_blank_input (st : Chat.ChatState)
    (service : list Gemini.ChatMessage -> settled string)
    (sent_at answered_at : Z) :
  all_white (Chat.input st) = true \/ Chat.isLoading st = true ->
  Chat.handleSend st service sent_at answered_at st = st.
Proof.
  intros H. unfold Chat.handleSend.
  assert (G : negb (truthy (trim (Chat.input st))) || Chat.isLoading st
              = true).
  { destruct H as [H|H].
    - apply trim_empty in H. now rewrite H.
    - rewrite H. apply orb_true_r. }
  now rewrite G.
Qed.

Lemma send_ignores_blank_input_witness :
  Chat.handleSend
    {| Chat.messages := []; Chat.input := "   "; Chat.isLoading := false |}
    (fun _ => Fulfilled "never asked") 1 2
    {| Chat.messages := []; Chat.input := "   "; Chat.isLoading := false |}
  = {| Chat.messages := []; Chat.input := "   "; Chat.isLoading := false |}.
Proof.
  apply send_ignores_blank_input. left. reflexivity.
Defined.

(** ** The report view *)

Section AnalyzerFacts.

Lemma lacks_trimStart (c : ascii) (s : string) :
  lacks c s = true -> lacks c (trimStart s) = true.
Proof.
  induction s as [|d s IH]; [reflexivity|]. intros H.
  cbn [trimStart]. destruct (is_white_space d); [|exact H].
  cbn [lacks] in H. apply andb_true_iff in H as [_ H]. now apply IH.
Qed.

Lemma lacks_trimEnd (c : ascii) (s : string) :
  lacks c s = true -> lacks c (trimEnd s) = true.
Proof.
  induction s as [|d s IH]; [reflexivity|]. intros H.
  cbn [lacks] in H. apply andb_true_iff in H as [Hd Hs].
  specialize (IH Hs). cbn [trimEnd].
  destruct (trimEnd s) as [|e u].
  - destruct (is_white_space d); [reflexivity|].
    cbn [lacks]. now rewrite Hd.
  - change (lacks c (String d (String e u)))
      with (negb (Ascii.eqb d c) && lacks c (String e u)).
    now rewrite Hd, IH.
Qed.

Lemma split_length (sep : ascii) (s : string) :
  List.length (split sep s) = S (occurrences sep s).
Proof.
  induction s as [|c s IH]; [reflexivity|].
  cbn [split occurrences].
  destruct (Ascii.eqb c sep).
  - cbn [List.length]. now rewrite IH.
  - pose proof (split_not_nil sep s) as NE.
    destruct (split sep s) as [|h t]; [contradiction|]. exact IH.
Qed.

Lemma render_analysis_line_clean (line : string) :
  element_is_clean (Analyzer.render_analysis_line line).
Proof.
  unfold Analyzer.render_analysis_line.
  destruct (startsWith line "#").
  - apply (remove_all_char_lacks "#").
  - destruct (startsWith line "*"); [|exact I].
    split; [|apply trim_idempotent].
    unfold trim. apply lacks_trimEnd, lacks_trimStart.
    apply (remove_all_char_lacks "*").
Qed.

End AnalyzerFacts.

(** X21. The analysis view shows one element for every line of the
    text, blank lines included, and strips the markers: a heading shows
    no hash sign, a list item shows no asterisk and no white space at
    either end. *)
Theorem analysis_elements_are_clean (text : string) :
  List.length (Analyzer.render_analysis text)
  = S (occurrences newline text)
  /\ Forall element_is_clean (Analyzer.render_analysis text).
Proof.
  unfold Analyzer.render_analysis. split.
  - now rewrite length_map, split_length.
  - apply Forall_forall. intros e H.
    apply in_map_iff in H as (line & <- & _).
    apply render_analysis_line_clean.
Qed.

(** X22. With a file selected and a preview loaded, [analyzeFile] always
    ends with an analysis to show and the analysing flag off: the
    response of a successful reply (or "Could not analyze the report."
    when that response is empty), and the service's own "temporarily
    unavailable" message for every failure; it is never empty, and file
    and preview are kept. *)
Theorem analyze_file_always_answers (st : Analyzer.AnalyzerState)
    (endpoint : option string -> string -> chat_reply)
    (url : string) (file : Analyzer.File) :
  Analyzer.previewUrl st = Some url ->
  truthy url = true ->
  Analyzer.selectedFile st = Some file ->
  let st' := Analyzer.analyzeFile st
               (fun b t => Gemini.analyzeReport (endpoint b t)) st in
  let shown :=
    shown_analysis (endpoint (Analyzer.base64_of url) (Analyzer.type file)) in
  Analyzer.analysis st' = Some shown
  /\ truthy shown = true
  /\ Analyzer.isAnalyzing st' = false
  /\ Analyzer.previewUrl st' = Some url
  /\ Analyzer.selectedFile st' = Some file.
Proof.
  intros U T F. cbv zeta. unfold Analyzer.analyzeFile.
  rewrite U, F, T. unfold Gemini.analyzeReport, shown_analysis.
  assert (O : forall m,
             truthy (Gemini.or_text m Analyzer.could_not_analyze) = true).
  { intros m. unfold Gemini.or_text. now destruct (truthy m) eqn:M. }
  destruct (endpoint (Analyzer.base64_of url) (Analyzer.type file))
    as [m|[|] [e|] t]; cbn; rewrite ?U, ?F; repeat split;
    try reflexivity; apply O.
Qed.

(** X23. Without a file or without a preview (none, or an empty one)
    [analyzeFile] does nothing and the service is not asked. *)
Theorem analyze_file_needs_a_file (st : Analyzer.AnalyzerState)
    (service : option string -> string -> settled string) :
  Analyzer.selectedFile st = None
  \/ Analyzer.previewUrl st = None
  \/ Analyzer.previewUrl st = Some "" ->
  Analyzer.analyzeFile st service st = st.
Proof.
  intros H. unfold Analyzer.analyzeFile.
  destruct (Analyzer.previewUrl st) as [u|];
    destruct (Analyzer.selectedFile st); try reflexivity.
  destruct H as [H|[H|H]]; try discriminate H.
  injection H as ->. reflexivity.
Qed.

(** X24. The payload sent for a data URL is what follows its comma: for
    a preview made of a header without comma, a comma and a payload
    without comma, [analyzeFile] passes exactly the payload. *)
Theorem data_url_payload (header payload : string) :
  lacks "," header = true ->
  lacks "," payload = true ->
  Analyzer.base64_of (header ++ String "," payload) = Some payload.
Proof.
  intros H P. unfold Analyzer.base64_of.
  now rewrite (split_app_lacking _ _ _ H), (split_lacking _ _ P).
Qed.

(** ** The shell and the dashboard *)

(** X25. The simulation switch survives a reload: the value the shell
    stores reads back as the same mode, and the shell starts in live
    mode when nothing, or anything but "true", is stored. *)
Theorem simulation_mode_round_trip (mode : bool) (stored : string) :
  Shell.initial_simulationMode (Some (Shell.stored_simulationMode mode))
  = mode
  /\ Shell.initial_simulationMode None = false
  /\ (Shell.initial_simulationMode (Some stored) = true
      <-> stored = "true").
Proof.
  split; [now destruct mode|]. split; [reflexivity|].
  cbn [Shell.initial_simulationMode]. apply String.eqb_eq.
Qed.

Section ReadingFacts.

Lemma slice_last_length {A : Type} (n : nat) (a : list A) :
  List.length (Readings.slice_last n a) = Nat.min n (List.length a).
Proof. unfold Readings.slice_last. rewrite length_skipn. lia. Qed.

End ReadingFacts.

(** X26. The live history of the dashboard never holds more than twenty
    readings: after an insert event it is the earlier history with the
    new reading at the end, cut from the front to the last twenty, and
    nothing is cut while fewer than twenty were held. *)
Theorem readings_window (reading : Readings.HealthData)
    (prev : list Readings.HealthData) :
  (List.length (Readings.on_insert reading prev) <= 20)%nat
  /\ (exists dropped kept,
        prev = dropped ++ kept
        /\ Readings.on_insert reading prev = kept ++ [reading])
  /\ ((List.length prev < 20)%nat ->
      Readings.on_insert reading prev = prev ++ [reading]).
Proof.
  unfold Readings.on_insert. split; [|split].
  - rewrite slice_last_length. lia.
  - unfold Readings.slice_last. rewrite length_app. cbn [List.length].
    exists (firstn (List.length prev + 1 - 20) prev),
           (skipn (List.length prev + 1 - 20) prev).
    split; [now rewrite firstn_skipn|].
    rewrite skipn_app.
    replace (List.length prev + 1 - 20 - List.length prev)%nat with 0%nat
      by lia.
    reflexivity.
  - intros L. unfold Readings.slice_last. rewrite length_app.
    cbn [List.length].
    now replace (List.length prev + 1 - 20)%nat with 0%nat by lia.
Qed.

(** ** The properties above on concrete runs *)

Lemma processing_always_settles_witness :
  snd (processRecording (fun _ => "?") (fun _ _ _ => Fulfilled None)
         (fun _ => NeverSettles) (fun _ _ => Fulfilled true) ""
         true true true (render true initial_store) [] initial_store)
  = Fulfilled tt
  /\ isProcessing (state (run_with None (render true initial_store) []
                            initial_store)) = false.
Proof.
  split.
  - exact (proj1 (processing_always_settles (fun _ => "?")
                    (fun _ _ _ => Fulfilled None) (fun _ => NeverSettles)
                    (fun _ _ => Fulfilled true) "" true true true
                    (render true initial_store) [] initial_store eq_refl)).
  - reflexivity.
Defined.

Lemma extraction_failure_is_reported_witness :
  let s' := live_run (fun _ _ _ => Rejected "TypeError: Failed to fetch")
              (fun _ _ => Fulfilled true) in
  error (state s') = Some network_message
  /\ result (state s') = None
  /\ Panel.report_panel (state s') = Panel.ErrorPanel network_message.
Proof.
  assert (size (new_Blob [[Byte.x61]]) <> 0%nat) as N by discriminate.
  pose proof (extraction_failure_is_reported (fun _ => "?")
                (fun _ _ _ => Rejected "TypeError: Failed to fetch")
                (fun _ => Settles 1200
                            (Body true None "### REPORT_STATUS: OPTIMAL"))
                (fun _ _ => Fulfilled true) "2025-01-01T00:00:00.000Z"
                true true true (render false initial_store) [[Byte.x61]]
                initial_store "TypeError: Failed to fetch"
                eq_refl (fun _ => N) eq_refl eq_refl)
    as (H1 & H2 & _ & _ & H5).
  exact (conj H1 (conj H2 (H5 eq_refl))).
Defined.

Lemma successful_run_sets_result_witness :
  let s' := live_run (fun _ _ _ => Fulfilled (Some snake_case_response))
              (fun _ _ => Fulfilled true) in
  result (state s')
  = Some (assemble snake_case_response "2025-01-01T00:00:00.000Z"
            "### REPORT_STATUS: OPTIMAL")
  /\ error (state s') = None
  /\ storageStatus (state s') = Some cloud
  /\ Panel.report_panel (state s')
     = Panel.ReportPanel (Some [Some (StatusBanner "OPTIMAL" positive)]).
Proof.
  assert (size (new_Blob [[Byte.x61]]) <> 0%nat) as N by discriminate.
  exact (successful_run_sets_result (fun _ => "?")
           (fun _ _ _ => Fulfilled (Some snake_case_response))
           (fun _ => Settles 1200
                       (Body true None "### REPORT_STATUS: OPTIMAL"))
           (fun _ _ => Fulfilled true) "2025-01-01T00:00:00.000Z"
           true true true (render false initial_store) [[Byte.x61]]
           initial_store snake_case_response true
           eq_refl (fun _ => N) eq_refl eq_refl eq_refl eq_refl).
Defined.

Lemma save_failure_hides_the_report_witness :
  let s' := live_run (fun _ _ _ => Fulfilled (Some snake_case_response))
              (fun _ _ => Rejected "disk full") in
  result (state s')
  = Some (assemble snake_case_response "2025-01-01T00:00:00.000Z"
            "### REPORT_STATUS: OPTIMAL")
  /\ error (state s') = Some "disk full"
  /\ storageStatus (state s') = None
  /\ Panel.report_panel (state s') = Panel.ErrorPanel "disk full".
Proof.
  assert (size (new_Blob [[Byte.x61]]) <> 0%nat) as N by discriminate.
  pose proof (save_failure_hides_the_report (fun _ => "?")
                (fun _ _ _ => Fulfilled (Some snake_case_response))
                (fun _ => Settles 1200
                            (Body true None "### REPORT_STATUS: OPTIMAL"))
                (fun _ _ => Rejected "disk full")
                "2025-01-01T00:00:00.000Z"
                true true true (render false initial_store) [[Byte.x61]]
                initial_store snake_case_response "disk full"
                eq_refl (fun _ => N) eq_refl eq_refl eq_refl eq_refl
                eq_refl)
    as (H1 & H2 & H3 & H4).
  exact (conj H1 (conj H2 (conj H3 (H4 eq_refl)))).
Defined.

Lemma stop_ends_the_capture_witness :
  let s' := stop_of (render true capturing_store) capturing_store in
  isRecording (state s') = false
  /\ timerRef s' = None
  /\ intervals s' = []
  /\ ticks_of [2000%Z] s' = s'.
Proof.
  pose proof (stop_ends_the_capture (fun _ => "?")
                (fun _ _ _ => Fulfilled None) (fun _ => NeverSettles)
                (fun _ _ => Fulfilled true) "" true true true
                (render true capturing_store) capturing_store 1%positive
                2000%Z eq_refl eq_refl)
    as (H1 & H2 & H3 & H4 & _).
  exact (conj H1 (conj H2 (conj H3 H4))).
Defined.

Lemma failed_start_leaves_no_session_witness :
  let s1 := startRecording (render false initial_store) failing_env
              initial_store in
  isRecording (state s1) = false
  /\ error (state s1)
     = Some "Recording engine failed. Please try Simulation Mode."
  /\ intervals s1 = []
  /\ timerRef s1 = Some 1%positive
  /\ ticks_of [15000%Z] s1 = s1.
Proof.
  pose proof (failed_start_leaves_no_session (fun _ => "?")
                (fun _ _ _ => Fulfilled None) (fun _ => NeverSettles)
                (fun _ _ => Fulfilled true) "" true true true
                (render false initial_store) failing_env initial_store
                15000%Z eq_refl eq_refl eq_refl eq_refl eq_refl)
    as (H1 & H2 & _ & _ & H5 & H6 & _ & H8).
  exact (conj H1 (conj H2 (conj H5 (conj H6 H8)))).
Defined.

Lemma start_begins_a_fresh_session_witness :
  let s1 := startRecording (render false initial_store) live_env
              initial_store in
  isRecording (state s1) = true
  /\ chunksRef s1 = []
  /\ timerRef s1 = Some 1%positive
  /\ option_map mimeType (mediaRecorderRef s1)
     = Some "video/webm;codecs=vp8".
Proof.
  pose proof (start_begins_a_fresh_session (render false initial_store)
                live_env initial_store eq_refl eq_refl eq_refl)
    as (_ & _ & H3 & _ & H5 & _ & H7 & _ & H9).
  refine (conj H5 (conj H3 (conj H7 _))).
  cbv zeta in H9. rewrite H9. reflexivity.
Defined.

Lemma analyze_file_always_answers_witness :
  Analyzer.analysis
    (Analyzer.analyzeFile chosen_image
       (fun b t => Gemini.analyzeReport (Body true None "")) chosen_image)
  = Some Analyzer.could_not_analyze.
Proof.
  exact (proj1 (analyze_file_always_answers chosen_image
                  (fun _ _ => Body true None "")
                  "data:image/png;base64,QUJD"
                  {| Analyzer.type := "image/png" |}
                  eq_refl eq_refl eq_refl)).
Defined.

Lemma analyze_file_needs_a_file_witness :
  Analyzer.analyzeFile nothing_chosen
    (fun _ _ => Fulfilled "never asked") nothing_chosen
  = nothing_chosen.
Proof.
  apply analyze_file_needs_a_file. left. reflexivity.
Defined.

Lemma data_url_payload_witness :
  Analyzer.base64_of "data:image/png;base64,QUJD" = Some "QUJD".
Proof.
  exact (data_url_payload "data:image/png;base64" "QUJD" eq_refl eq_refl).
Defined.

(** * The interpretation step, line classification, finding lines and
      the session guard *)

(** ** The interpretation step against the rounded heart rate *)

Section RoundingFacts.

Lemma Qfloor_between (z : Z) (x : Q) :
  (inject_Z z <= x)%Q -> (x < inject_Z (z + 1))%Q -> Qfloor x = z.
Proof.
  intros L U.
  assert (A : (Qfloor x < z + 1)%Z).
  { rewrite Zlt_Qlt. eapply Qle_lt_trans; [apply Qfloor_le | exact U]. }
  assert (B : (z < Qfloor x + 1)%Z).
  { rewrite Zlt_Qlt. eapply Qle_lt_trans; [exact L | apply Qlt_floor]. }
  lia.
Qed.

Lemma round_to_nearest (q : Q) (z : Z) :
  nearest_integer q z -> Math_round (Fin q) = Fin (inject_Z z).
Proof.
  intros [L U]. unfold Math_round. do 2 f_equal. apply Qfloor_between.
  - lra.
  - rewrite inject_Z_plus. change (inject_Z 1) with 1%Q. lra.
Qed.

Lemma print_safe_integer (f : Q -> string) (z : Z) :
  (Z.abs z < 2 ^ 53)%Z -> Number_toString f (Fin (inject_Z z)) = Z_to_string z.
Proof.
  intros B. unfold Number_toString, plain_integer.
  rewrite Qfloor_Z.
  assert (E : Qeq_bool (inject_Z z) (inject_Z z) = true)
    by (apply Qeq_bool_iff; reflexivity).
  apply Z.ltb_lt in B. now rewrite E, B.
Qed.

Lemma gt_hundred (z : Z) :
  gt (Fin (inject_Z z)) (Fin 100) = (100 <? z)%Z.
Proof.
  cbn [gt]. destruct (100 <? z)%Z eqn:E.
  - apply Z.ltb_lt in E. apply negb_true_iff.
    destruct (Qle_bool (inject_Z z) 100) eqn:C; [|reflexivity].
    apply Qle_bool_iff in C. change 100%Q with (inject_Z 100) in C.
    rewrite <- Zle_Qle in C. lia.
  - apply Z.ltb_ge in E. apply negb_false_iff. apply Qle_bool_iff.
    change 100%Q with (inject_Z 100). now rewrite <- Zle_Qle.
Qed.

End RoundingFacts.

(** C2. For every vitals record whose heart rate is defined, the
    interpretation step returns a text and never fails: the text of the
    service when its call settles with a successful reply before the
    8000 ms timer fires, and in every other case (no settlement by then,
    a failed fetch or an unsuccessful reply) the local report.  With [z]
    the integer nearest to the heart rate (halves rounded up), the local
    report has the status ELEVATED when [z] is greater than 100 and
    STABLE otherwise, and carries the token "[BPM: z]" in its first
    finding line.  So a heart rate of 100.5 gives ELEVATED and
    "[BPM: 101]", 100.4 gives STABLE and "[BPM: 100]", and 150 gives
    ELEVATED and "[BPM: 150]". *)
Theorem interpretation_always_answers (f : Q -> string)
    (svc : Rppg.Response -> remote) (data : Rppg.Response)
    (s : Session.Store) (q : Q) (z : Z) :
  reads_as (Rppg.heart_rate data) q ->
  nearest_integer q z ->
  (Z.abs z < 2 ^ 53)%Z ->
  let status := if (100 <? z)%Z then "ELEVATED" else "STABLE" in
  let tag := ("[BPM: " ++ Z_to_string z ++ "]")%string in
  let local := fallback_report f data in
  snd (VitalScan.interpretation f svc data s)
    = Fulfilled (interpretation_step f data (svc data))
  /\ interpretation_step f data (svc data)
     = match svc data with
       | Settles at_ms (Body true _ text) =>
           if (at_ms <? 8000)%N then text else local
       | _ => local
       end
  /\ (exists sys dia,
        local = join newline (fallback_lines status (Z_to_string z) sys dia))
  /\ occurs tag local
  /\ fallback_report f (sample_response (201 # 2))
     = join newline (fallback_lines "ELEVATED" "101" "118" "80")
  /\ fallback_report f (sample_response (502 # 5))
     = join newline (fallback_lines "STABLE" "100" "118" "80")
  /\ fallback_report f (sample_response 150)
     = join newline (fallback_lines "ELEVATED" "150" "118" "80").
Proof.
  intros R N B status tag local.
  assert (H : rounded_heart_rate data = Fin (inject_Z z)).
  { unfold rounded_heart_rate.
    destruct R as [-> | [-> ->]]; cbn [ToNumber];
      now apply round_to_nearest. }
  split; [now rewrite interpretation_run|].
  split.
  { unfold interpretation_step, race_with_deadline, deadline_ms.
    destruct (svc data) as [at_ms [m|[|] e text]|]; cbn [interpretVitals];
      try reflexivity; destruct (at_ms <? 8000)%N; reflexivity. }
  assert (L : exists sys dia,
             local = join newline
                       (fallback_lines status (Z_to_string z) sys dia)).
  { unfold local. rewrite fallback_report_lines, H.
    rewrite (print_safe_integer f z B).
    unfold fallback_status. rewrite gt_hundred. fold status.
    now eexists _, _. }
  split; [exact L|].
  split.
  { unfold local, fallback_report. rewrite H.
    exists (fallback_head (Fin (inject_Z z))), (fallback_tail f data).
    unfold bpm_token. cbn [ToString].
    now rewrite (print_safe_integer f z B). }
  repeat split.
Qed.

Lemma interpretation_always_answers_witness :
  interpretation_step (fun _ => "?") (sample_response (201 # 2))
    (Settles 8000 (Body true None "late"))
  = join newline (fallback_lines "ELEVATED" "101" "118" "80").
Proof.
  assert (N : nearest_integer (201 # 2) 101)
    by (split; [unfold Qle | unfold Qlt]; cbn; lia).
  pose proof (interpretation_always_answers (fun _ => "?")
                (fun _ => Settles 8000 (Body true None "late"))
                (sample_response (201 # 2)) initial_store (201 # 2) 101
                (or_introl eq_refl) N eq_refl)
    as (_ & H & _ & _ & E & _).
  cbv zeta in H. rewrite H. exact E.
Defined.

(** ** Lines and their classification *)

Section LineFacts.

Lemma join_split_back (sep : ascii) (s : string) :
  join sep (split sep s) = s.
Proof.
  induction s as [|c s IH]; [reflexivity|].
  cbn [split]. destruct (Ascii.eqb_spec c sep) as [->|N].
  - now rewrite (join_cons _ _ _ (split_not_nil sep s)), IH.
  - pose proof (split_not_nil sep s) as NE.
    destruct (split sep s) as [|h t]; [contradiction|].
    now rewrite join_head, IH.
Qed.

Lemma split_pieces_lack (sep : ascii) (s : string) :
  Forall (fun l => lacks sep l = true) (split sep s).
Proof.
  induction s as [|c s IH]; cbn [split].
  - repeat constructor.
  - destruct (Ascii.eqb c sep) eqn:E.
    + constructor; [reflexivity | exact IH].
    + destruct (split sep s) as [|h t]; [repeat constructor; cbn; now rewrite E|].
      inversion IH as [|? ? Hh Ht]; subst.
      constructor; [|exact Ht]. cbn [lacks]. now rewrite E, Hh.
Qed.

Lemma begins_startsWith (pre line : string) :
  startsWith line pre = true <-> begins pre line.
Proof.
  split.
  - apply startsWith_split.
  - intros [rest ->]. apply startsWith_app.
Qed.

Lemma names_has_token (line : string) :
  has_metric_token line = true <-> names_a_metric line.
Proof.
  unfold has_metric_token, names_a_metric, occurs.
  rewrite !orb_true_iff, !includes_spec. tauto.
Qed.

Lemma render_line_classified (line : string) (b : ReportBlock) :
  render_line line = Some b -> classified line (kind_of b).
Proof.
  unfold render_line, classified.
  destruct (startsWith line "###") eqn:S.
  { intros [= <-]. left. split; [now apply begins_startsWith | reflexivity]. }
  assert (NS : ~ begins "###" line)
    by (intros H; apply begins_startsWith in H; congruence).
  destruct (has_metric_token line) eqn:T.
  { intros [= <-]. right; left.
    repeat split; [exact NS | now apply names_has_token]. }
  assert (NT : ~ names_a_metric line)
    by (intros H; apply names_has_token in H; congruence).
  destruct (startsWith line "**AI Verdict:**") eqn:V.
  { intros [= <-]. right; right; left.
    repeat split; [exact NS | exact NT | now apply begins_startsWith]. }
  assert (NV : ~ begins "**AI Verdict:**" line)
    by (intros H; apply begins_startsWith in H; congruence).
  destruct (startsWith line "**") eqn:H.
  { intros [= <-]. right; right; right; left.
    repeat split; [exact NS | exact NT | exact NV
                   | now apply begins_startsWith]. }
  assert (NH : ~ begins "**" line)
    by (intros G; apply begins_startsWith in G; congruence).
  destruct (truthy (trim line)); [|discriminate].
  intros [= <-]. right; right; right; right. repeat split; assumption.
Qed.

Lemma rendered_classified (lines : list string) :
  Forall2 (fun line b => render_line line = Some b
                         /\ classified line (kind_of b))
          (filter (fun l => negb (all_white l)) lines)
          (rendered (map render_line lines)).
Proof.
  induction lines as [|l lines IH]; cbn [map filter rendered].
  - constructor.
  - rewrite <- is_blank_all_white.
    destruct (render_line l) as [b|] eqn:R.
    + destruct (is_blank l) eqn:B.
      * apply blank_renders_nothing in B. congruence.
      * cbn [negb]. constructor; [|exact IH].
        split; [exact R | now apply render_line_classified].
    + apply blank_iff_nothing in R. rewrite R. exact IH.
Qed.

End LineFacts.

(** C4. Every report text is the join, by line breaks, of lines without
    line break; the renderer produces exactly one block for each of
    these lines that is not blank (not made of white space only) and
    none for a blank one, in the order of the lines; and each block has
    the kind of the first check its line matches in the order status
    banner, finding line, verdict, heading, plain text.  In particular a
    line that begins with the status marker is a status banner whatever
    bracketed tokens it contains. *)
Theorem report_blocks_follow_lines (text : string) :
  (exists lines,
      lines <> []
      /\ text = join newline lines
      /\ Forall (fun l => lacks newline l = true) lines
      /\ Forall2 (fun line b => render_line line = Some b
                                /\ classified line (kind_of b))
                 (filter (fun l => negb (all_white l)) lines)
                 (report_blocks text)
      /\ List.length (report_blocks text)
         = List.length (filter (fun l => negb (all_white l)) lines))
  /\ (forall rest b,
        render_line ("###" ++ rest) = Some b -> kind_of b = KStatus)
  /\ map kind_of (report_blocks mixed_report)
     = [KStatus; KFinding; KVerdict; KHeading; KPlain].
Proof.
  split; [|split; [|reflexivity]].
  - exists (split newline text).
    assert (F : Forall2 (fun line b => render_line line = Some b
                                       /\ classified line (kind_of b))
                  (filter (fun l => negb (all_white l)) (split newline text))
                  (report_blocks text)).
    { unfold report_blocks, renderClinicalReport.
      destruct text as [|c text].
      - cbn. constructor.
      - cbn [truthy]. apply rendered_classified. }
    split; [apply split_not_nil|].
    split; [symmetry; apply join_split_back|].
    split; [apply split_pieces_lack|].
    split; [exact F | symmetry; exact (Forall2_length F)].
  - intros rest b H. unfold render_line in H.
    rewrite (startsWith_app "###" rest) in H. injection H as <-.
    reflexivity.
Qed.

(** ** Finding lines cut at every bracketed token *)

Section SegmentFacts.

Lemma append_nil_r (s : string) : (s ++ "")%string = s.
Proof. induction s as [|c s IH]; cbn [append]; [reflexivity | now rewrite IH]. Qed.

Lemma scan_close_span (s tok : string) :
  scan_close s = Some tok ->
  exists body rest,
    tok = (body ++ "]")%string /\ s = (body ++ String "]" rest)%string
    /\ tag_body body = true.
Proof.
  revert tok. induction s as [|c s IH]; intros tok; cbn [scan_close].
  - discriminate.
  - destruct (Ascii.eqb_spec c "]") as [->|N].
    + intros [= <-]. now exists EmptyString, s.
    + destruct (is_line_terminator c) eqn:L; [discriminate|].
      destruct (scan_close s) as [tok'|]; [|discriminate].
      intros [= <-]. destruct (IH tok' eq_refl) as (body & rest & -> & -> & B).
      exists (String c body), rest. repeat split.
      cbn [tag_body]. rewrite L, B.
      destruct (Ascii.eqb_spec c "]"); [contradiction | reflexivity].
Qed.

Lemma no_span_head (pre rest : string) :
  no_span_in (String "[" pre) rest -> scan_close (pre ++ rest) = None.
Proof.
  intros H. destruct (scan_close (pre ++ rest)) as [tok|] eqn:E;
    [|reflexivity].
  exfalso. apply scan_close_span in E as (body & r & _ & E & B).
  apply (H EmptyString (String "[" pre) eq_refl); [discriminate|].
  exists ("[" ++ body ++ "]")%string, r. split; [now exists body|].
  cbn [append]. rewrite E, append_assoc. reflexivity.
Qed.

Lemma no_span_tail (c : ascii) (pre rest : string) :
  no_span_in (String c pre) rest -> no_span_in pre rest.
Proof.
  intros H p1 p2 E N. apply (H (String c p1) p2); [|exact N].
  cbn [append]. now rewrite E.
Qed.

Lemma split_brackets_text (pre rest h : string) (t : list string) :
  no_span_in pre rest ->
  split_brackets_from 0 rest = h :: t ->
  split_brackets_from 0 (pre ++ rest) = (pre ++ h)%string :: t.
Proof.
  intros H R. induction pre as [|c pre IH]; [exact R|].
  cbn [append split_brackets_from].
  rewrite (IH (no_span_tail _ _ _ H)).
  destruct (Ascii.eqb_spec c "[") as [->|N]; [|reflexivity].
  now rewrite (no_span_head _ _ H).
Qed.

Lemma split_brackets_span (sp post : string) :
  bracketed sp ->
  split_brackets_from 0 (sp ++ post)
  = EmptyString :: sp :: split_brackets_from 0 post.
Proof.
  intros (body & -> & B).
  pose proof (split_token EmptyString body post eq_refl B) as H.
  unfold split_brackets in H. cbn [append] in H |- *.
  rewrite append_assoc. exact H.
Qed.

Lemma split_brackets_cut (pre sp post : string) :
  no_span_in pre (sp ++ post) -> bracketed sp ->
  split_brackets (pre ++ sp ++ post) = pre :: sp :: split_brackets post.
Proof.
  intros H B. unfold split_brackets.
  rewrite (split_brackets_text pre (sp ++ post) EmptyString
             (sp :: split_brackets_from 0 post) H
             (split_brackets_span sp post B)).
  now rewrite append_nil_r.
Qed.

Lemma split_brackets_none (line : string) :
  no_span_in line EmptyString -> split_brackets line = [line].
Proof.
  intros H. unfold split_brackets.
  rewrite <- (append_nil_r line) at 1.
  rewrite (split_brackets_text line EmptyString EmptyString [] H eq_refl).
  now rewrite append_nil_r.
Qed.

Lemma remove_all_without (c : ascii) (s : string) :
  remove_all [String c EmptyString] s = without c s.
Proof.
  unfold remove_all. induction s as [|d s IH]; [reflexivity|].
  cbn [remove_all_from first_match without]. rewrite startsWith_cons.
  rewrite (Ascii.eqb_sym c d).
  destruct (Ascii.eqb d c).
  - rewrite startsWith_empty. cbn. exact IH.
  - cbn [andb]. now rewrite IH.
Qed.

Lemma render_part_text (p : string) :
  ~ label_open p -> render_part p = PlainText (without "*" p).
Proof.
  intros H. unfold render_part.
  destruct (startsWith p "[BPM:") eqn:A.
  { exfalso. apply H. left. now apply begins_startsWith. }
  destruct (startsWith p "[BP:") eqn:B.
  { exfalso. apply H. right; left. now apply begins_startsWith. }
  destruct (startsWith p "[HRV:") eqn:C.
  { exfalso. apply H. right; right. now apply begins_startsWith. }
  now rewrite (remove_all_without "*").
Qed.

Lemma remove_first_lacking (v : string) :
  lacks "]" v = true -> remove_first "]" v = v.
Proof.
  induction v as [|c v IH]; intros H; [reflexivity|].
  cbn [lacks] in H. apply andb_true_iff in H as [Hc Hv].
  apply negb_true_iff in Hc. cbn [remove_first].
  rewrite startsWith_cons, (Ascii.eqb_sym "]" c), Hc. cbn [andb].
  now rewrite (IH Hv).
Qed.

Lemma remove_first_at (a b : string) :
  lacks "]" a = true -> remove_first "]" (a ++ "]" ++ b) = (a ++ b)%string.
Proof.
  induction a as [|c a IH]; intros H.
  - exact (remove_first_prefix "]" b).
  - cbn [lacks] in H. apply andb_true_iff in H as [Hc Ha].
    apply negb_true_iff in Hc. cbn [append remove_first].
    rewrite startsWith_cons, (Ascii.eqb_sym "]" c), Hc. cbn [andb].
    f_equal. exact (IH Ha).
Qed.

Lemma remove_first_drops (v v' : string) :
  drops_first_closing v v' -> remove_first "]" v = v'.
Proof.
  intros [[L ->] | (a & b & -> & L & ->)].
  - now apply remove_first_lacking.
  - now apply remove_first_at.
Qed.

Lemma render_part_open (k : metric_kind) (v : string) :
  render_part ("[" ++ label k ++ ":" ++ v)
  = MetricTag k (remove_first "]" v).
Proof.
  destruct k; unfold render_part, label; cbn -[remove_first];
    change (prefix EmptyString v) with (startsWith v EmptyString);
    rewrite startsWith_empty; do 2 f_equal;
    match goal with
    | |- remove_first ?p (String ?c ?s) = _ =>
        change (String c s) with (p ++ v)%string
    end;
    apply remove_first_prefix.
Qed.

Lemma text_rendered (p : string) (seg : segment) :
  Text p seg -> render_part p = seg.
Proof.
  intros [q H | k v v' H].
  - now apply render_part_text.
  - now rewrite render_part_open, (remove_first_drops v v' H).
Qed.

Lemma token_bracketed (k : metric_kind) (v : string) :
  tag_body v = true -> bracketed (token k v).
Proof.
  intros H. exists (label k ++ ":" ++ v)%string. split.
  - symmetry. exact (token_closed k v).
  - now apply tag_body_label.
Qed.

Lemma segments_rendered (line : string) (segments : list segment) :
  Segments line segments ->
  map render_part (split_brackets line) = segments.
Proof.
  induction 1 as [line seg H T
                 | pre k v post seg rest H T B S IH
                 | pre sp post seg rest H T B N S IH].
  - rewrite (split_brackets_none _ H). cbn [map].
    now rewrite (text_rendered _ _ T).
  - rewrite (split_brackets_cut _ _ _ H (token_bracketed k v B)).
    cbn [map].
    now rewrite (text_rendered _ _ T), (render_part_token k v B), IH.
  - rewrite (split_brackets_cut _ _ _ H B). cbn [map].
    now rewrite (text_rendered _ _ T), (render_part_text _ N), IH.
Qed.

Lemma no_open_app (x y : string) :
  no_open (x ++ y) = no_open x && no_open y.
Proof.
  induction x as [|c x IH]; cbn [append no_open]; [reflexivity|].
  now rewrite IH, andb_assoc.
Qed.

(** Text without opening bracket contains no bracketed token and does
    not begin like one. *)
Lemma no_open_no_span (pre rest : string) :
  no_open pre = true -> no_span_in pre rest /\ ~ label_open pre.
Proof.
  intros H. split.
  - intros p1 p2 -> N (sp & r & (body & -> & _) & E).
    rewrite no_open_app in H. apply andb_true_iff in H as [_ H].
    destruct p2 as [|c p2]; [contradiction|].
    cbn [append] in E. injection E as -> _. discriminate H.
  - intros [[r ->] | [[r ->] | [r ->]]]; discriminate H.
Qed.

(** Every line has its segments. *)

Lemma drops_total (v : string) : exists v', drops_first_closing v v'.
Proof.
  induction v as [|c v [v' IH]].
  - exists EmptyString. now left.
  - destruct (Ascii.eqb_spec c "]") as [->|N].
    + exists v. right. now exists EmptyString, v.
    + apply Ascii.eqb_neq in N. destruct IH as [[L ->] | (a & b & -> & L & ->)].
      * exists (String c v). left. cbn [lacks]. now rewrite N, L.
      * exists (String c a ++ b)%string. right. exists (String c a), b.
        cbn [lacks]. now rewrite N, L.
Qed.

Lemma label_open_dec (p : string) : label_open p \/ ~ label_open p.
Proof.
  unfold label_open.
  destruct (startsWith p "[BPM:") eqn:A;
    [left; left; now apply begins_startsWith|].
  destruct (startsWith p "[BP:") eqn:B;
    [left; right; left; now apply begins_startsWith|].
  destruct (startsWith p "[HRV:") eqn:C;
    [left; right; right; now apply begins_startsWith|].
  right. intros [H | [H | H]]; apply begins_startsWith in H; congruence.
Qed.

Lemma label_open_inv (p : string) :
  label_open p ->
  exists k v, p = ("[" ++ label k ++ ":" ++ v)%string.
Proof.
  intros [[r ->] | [[r ->] | [r ->]]];
    [exists HR, r | exists BP, r | exists HRV, r]; reflexivity.
Qed.

Lemma text_total (p : string) : exists seg, Text p seg.
Proof.
  destruct (label_open_dec p) as [L | N].
  - destruct (label_open_inv p L) as (k & v & ->).
    destruct (drops_total v) as [v' D].
    exists (MetricTag k v'). now constructor.
  - exists (PlainText (without "*" p)). now constructor.
Qed.

Lemma span_head_scan (c : ascii) (l : string) :
  span_at (String c l) ->
  c = "["%char /\ exists tok, scan_close l = Some tok.
Proof.
  intros (sp & rest & (body & -> & B) & E).
  cbn [append] in E. injection E as -> ->. split; [reflexivity|].
  exists (body ++ "]")%string. rewrite append_assoc.
  exact (scan_close_body body rest B).
Qed.

Lemma no_span_nil (rest : string) : no_span_in EmptyString rest.
Proof.
  intros p1 p2 E N. destruct p1; [|discriminate E].
  cbn [append] in E. now subst p2.
Qed.

Lemma no_span_cons (c : ascii) (pre rest : string) :
  ~ span_at (String c (pre ++ rest)) ->
  no_span_in pre rest -> no_span_in (String c pre) rest.
Proof.
  intros H NS p1 p2 E N. destruct p1 as [|a p1].
  - cbn [append] in E. subst p2. exact H.
  - cbn [append] in E. injection E as _ E. exact (NS p1 p2 E N).
Qed.

(** A line has no bracketed token, or a leftmost one. *)
Lemma leftmost_span (line : string) :
  no_span_in line EmptyString
  \/ exists pre sp post,
       line = (pre ++ sp ++ post)%string
       /\ no_span_in pre (sp ++ post) /\ bracketed sp.
Proof.
  induction line as [|c l IH]; [left; apply no_span_nil|].
  assert (D : span_at (String c l) \/ ~ span_at (String c l)).
  { destruct (Ascii.eqb_spec c "[") as [->|N].
    - destruct (scan_close l) as [tok|] eqn:S.
      + left. apply scan_close_span in S as (body & r & _ & -> & B).
        exists ("[" ++ body ++ "]")%string, r. split; [now exists body|].
        cbn [append]. now rewrite append_assoc.
      + right. intros H. apply span_head_scan in H as (_ & tok & T).
        congruence.
    - right. intros H. apply span_head_scan in H as (E & _).
      contradiction. }
  destruct D as [(sp & r & B & E) | N].
  - right. exists EmptyString, sp, r. repeat split; auto using no_span_nil.
  - destruct IH as [NS | (pre & sp & post & -> & NS & B)].
    + left. apply no_span_cons; [now rewrite append_nil_r | exact NS].
    + right. exists (String c pre), sp, post.
      repeat split; auto using no_span_cons.
Qed.

Lemma length_app (a b : string) :
  String.length (a ++ b) = (String.length a + String.length b)%nat.
Proof.
  induction a as [|c a IH]; cbn [append String.length Nat.add];
    [reflexivity | now rewrite IH].
Qed.

(** A bracketed token that begins with a label is that metric's
    token. *)
Lemma bracketed_label (sp : string) :
  bracketed sp -> label_open sp ->
  exists k v, sp = token k v /\ tag_body v = true.
Proof.
  intros (body & -> & B) [[r E] | [[r E] | [r E]]];
    cbn [append] in E; injection E as E;
    repeat (destruct body as [|? body];
            cbn [append] in E; [discriminate E|];
            injection E as -> E);
    [exists HR, body | exists BP, body | exists HRV, body];
    (split; [reflexivity | exact B]).
Qed.

Lemma segments_total (line : string) : exists segments, Segments line segments.
Proof.
  remember (String.length line) as n eqn:L.
  assert (L' : (String.length line <= n)%nat) by lia. clear L.
  revert line L'. induction n as [|n IH]; intros line L;
    (destruct (leftmost_span line)
       as [NS | (pre & sp & post & -> & NS & B)];
     [destruct (text_total line) as [seg T];
      exists [seg]; now constructor|]);
    rewrite !length_app in L;
    assert (P : (1 <= String.length sp)%nat)
      by (destruct B as (body & -> & _); cbn; lia);
    [lia|].
  destruct (IH post ltac:(lia)) as [rest R].
  destruct (text_total pre) as [seg T].
  destruct (label_open_dec sp) as [O | N].
  - destruct (bracketed_label sp B O) as (k & v & -> & V).
    exists (seg :: MetricTag k v :: rest). now constructor.
  - exists (seg :: PlainText (without "*" sp) :: rest). now constructor.
Qed.

End SegmentFacts.

(** C6 as amended.  The line "* [BPM: 72] - Normal rhythm" renders as a
    finding line whose segments are the plain text " ", the HR badge
    with value " 72" (the blank after the colon is kept) and the plain
    text " - Normal rhythm".  In general, every line that names a metric
    and does not begin with the status marker is a finding line, cut at
    every bracketed token, leftmost first: each token [[BPM:v]],
    [[BP:v]] or [[HRV:v]] becomes the badge HR, BP or HRV respectively
    with the text [v] between the colon and the closing bracket as its
    value, untrimmed; any other bracketed token and the text around the
    tokens become plain text with the asterisks removed, except that
    text beginning with an unclosed [[BPM:], [[BP:] or [[HRV:] becomes
    that badge too.  Every such line has segments of this kind, and
    they are the ones rendered. *)
Theorem finding_line_segments (line : string) :
  ~ begins "###" line ->
  names_a_metric line ->
  (exists segments, Segments line segments)
  /\ (forall segments,
        Segments line segments ->
        render_line line = Some (FindingLine segments))
  /\ render_line "* [BPM: 72] - Normal rhythm"
     = Some (FindingLine [PlainText " "; MetricTag HR " 72";
                          PlainText " - Normal rhythm"]).
Proof.
  intros S T. split; [apply segments_total|]. split; [|reflexivity].
  intros segments G. unfold render_line.
  assert (S' : startsWith line "###" = false).
  { destruct (startsWith line "###") eqn:E; [|reflexivity].
    exfalso. apply S. now apply begins_startsWith. }
  apply names_has_token in T. rewrite S', T.
  now rewrite (segments_rendered _ _ G).
Qed.

Lemma finding_line_segments_witness :
  render_line "[x] [BPM: 72] and *about* [BP: 1/2][HRV: 40"
  = Some (FindingLine
            [PlainText ""; PlainText "[x]"; PlainText " ";
             MetricTag HR " 72"; PlainText " and about ";
             MetricTag BP " 1/2"; MetricTag HRV " 40"]).
Proof.
  refine (proj1 (proj2 (finding_line_segments
                   "[x] [BPM: 72] and *about* [BP: 1/2][HRV: 40" _ _)) _ _).
  - intros H. apply begins_startsWith in H. discriminate H.
  - left. now exists "[x] ", " 72] and *about* [BP: 1/2][HRV: 40".
  - assert (B : bracketed "[x]") by (now exists "x").
    assert (N : ~ label_open "[x]").
    { intros [H | [H | H]]; apply begins_startsWith in H; discriminate H. }
    assert (P : forall p, no_open p = true ->
                          Text p (PlainText (without "*" p))).
    { intros p H. constructor. exact (proj2 (no_open_no_span p "" H)). }
    assert (Q : no_span_in "[HRV: 40" "").
    { destruct (leftmost_span "[HRV: 40")
        as [Q | (pre & sp & post & E & _ & (body & -> & _))];
        [exact Q | exfalso].
      assert (L : lacks "]" (pre ++ ("[" ++ body ++ "]") ++ post) = true)
        by (now rewrite <- E).
      clear E. induction pre as [|c pre IH].
      - cbn in L. induction body as [|d body IHb]; cbn in L.
        + discriminate L.
        + apply andb_true_iff in L as [_ L]. exact (IHb L).
      - cbn in L. apply andb_true_iff in L as [_ L]. exact (IH L). }
    exact (Seg_other "" "[x]" " [BPM: 72] and *about* [BP: 1/2][HRV: 40"
             _ _
             (proj1 (no_open_no_span "" _ eq_refl)) (P "" eq_refl) B N
             (Seg_tag " " HR " 72" " and *about* [BP: 1/2][HRV: 40" _ _
                (proj1 (no_open_no_span " " _ eq_refl)) (P " " eq_refl)
                eq_refl
                (Seg_tag " and *about* " BP " 1/2" "[HRV: 40" _ _
                   (proj1 (no_open_no_span " and *about* " _ eq_refl))
                   (P " and *about* " eq_refl) eq_refl
                   (Seg_last "[HRV: 40" _ Q
                      (Text_open HRV " 40" " 40"
                         (or_introl (conj eq_refl eq_refl))))))).
Defined.

(** ** Sessions over time *)

Section SessionFacts.

Import Controller.

Variable f : Q -> string.
Variable analyze :
  Blob -> bool -> option bool -> settled (option Rppg.Response).
Variable svc : Rppg.Response -> remote.
Variable save : Scan.VitalScanResult -> bool -> settled bool.

Let step := Controller.step f analyze svc save.
Let run := Controller.run f analyze svc save.

(** The guard of [startRecording] (line 160). *)
Lemma start_guard (simulation : bool) (env : StartEnv) (s : Store) :
  busy s = true -> startRecording (render simulation s) env s = s.
Proof.
  unfold busy, startRecording, render. cbn [view]. now intros ->.
Qed.

(** Beginning a call and letting it finish at once is
    [processRecording] run to completion. *)
Lemma processing_in_two_steps (now : string)
    (m_result m_catch m_finally : bool) (r : Render) (chunks : list Blob)
    (s : Store) :
  fst (processRecording f analyze svc save now m_result m_catch m_finally
         r chunks s)
  = store (settle f analyze svc save now m_result m_catch m_finally
             (begin_processing r chunks
                {| store := s; processing := [] |})).
Proof.
  unfold processRecording, begin_processing, settle.
  destruct (isProcessing (view r)); reflexivity.
Qed.

(** So are the handlers that call it: each is its counterpart of the
    component with the call it begins settled at once. *)
Lemma stop_in_two_steps (now : string)
    (m_result m_catch m_finally : bool) (r : Render) (s : Store) :
  stopRecording f analyze svc save now m_result m_catch m_finally r s
  = store (settle f analyze svc save now m_result m_catch m_finally
             (stop_recording r {| store := s; processing := [] |})).
Proof.
  unfold stopRecording, stop_recording.
  destruct (negb (isRecording (view r))); [reflexivity|].
  cbv zeta. cbn [store].
  set (s2 := match timerRef (setIsRecording false s) with
             | Some id => _
             | None => _
             end).
  destruct (mediaRecorderRef s2) as [rec|];
    [destruct (rstate rec); [|reflexivity]|];
    apply processing_in_two_steps.
Qed.

Lemma tick_in_two_steps (now : string)
    (m_result m_catch m_finally : bool) (id : BinNums.positive) (t : Z)
    (s : Store) :
  fire_interval f analyze svc save now m_result m_catch m_finally id t s
  = store (settle f analyze svc save now m_result m_catch m_finally
             (tick id t {| store := s; processing := [] |})).
Proof.
  unfold fire_interval, tick, interval_callback. cbn [store].
  destruct (find (fun i => Pos.eqb (interval_id i) id) (intervals s))
    as [i|]; [|reflexivity].
  cbv zeta. destruct (15 <=? (t - startTime i) / 1000)%Z; [|reflexivity].
  apply stop_in_two_steps.
Qed.

Lemma stop_event_in_two_steps (now : string)
    (m_result m_catch m_finally : bool) (s : Store) :
  onstop f analyze svc save now m_result m_catch m_finally s
  = store (settle f analyze svc save now m_result m_catch m_finally
             (stop_event {| store := s; processing := [] |})).
Proof.
  unfold onstop, stop_event. cbn [store].
  destruct (mediaRecorderRef s) as [rec|]; [|reflexivity].
  destruct (stop_pending rec); [|reflexivity].
  apply processing_in_two_steps.
Qed.

(** The [try] statement writes neither the recording flag nor the timers
    nor the recorder, and leaves [isProcessing] set or clears it. *)
Lemma finish_frame (now : string) (m_result m_catch m_finally : bool)
    (p : Pending) (s : Store) :
  let s' := fst (finish_processing f analyze svc save now m_result m_catch
                   m_finally p s) in
  isRecording (state s') = isRecording (state s)
  /\ intervals s' = intervals s
  /\ mediaRecorderRef s' = mediaRecorderRef s
  /\ (isProcessing (state s') = isProcessing (state s)
      \/ isProcessing (state s') = false).
Proof.
  unfold finish_processing, process_body, process_catch, try_finally,
    try_catch, bind, write, await, ret, throw, when.
  destruct (simulationMode (of_render p));
    repeat (cbn beta iota;
            first
              [ rewrite interpretation_run
              | match goal with
                | |- context [analyze ?a ?b ?c] =>
                    destruct (analyze a b c) as [[?data|]|?e] eqn:?A
                | |- context [save ?a ?b] =>
                    destruct (save a b) as [?saved|?e] eqn:?S
                | |- context [is_undefined ?v] =>
                    destruct (is_undefined v) eqn:?U
                | |- context [(size ?b =? 0)%nat] =>
                    destruct (size b =? 0)%nat eqn:?Z
                | |- context [if m_result then _ else _] =>
                    destruct m_result eqn:?MR
                | |- context [if m_catch then _ else _] =>
                    destruct m_catch eqn:?MC
                | |- context [if m_finally then _ else _] =>
                    destruct m_finally eqn:?MF
                end ]);
    cbn; repeat split; auto.
Qed.

Lemma find_in_Forall {A} (P : A -> Prop) (p : A -> bool) (l : list A)
    (a : A) :
  Forall P l -> find p l = Some a -> P a.
Proof.
  intros H E. apply find_some in E as [I _].
  rewrite Forall_forall in H. now apply H.
Qed.

Lemma length_le_1_tail {A} (a : A) (l : list A) :
  (List.length (a :: l) <= 1)%nat -> l = [].
Proof. destruct l; cbn; [reflexivity | lia]. Qed.

(** The mounted component is consistent. *)
Lemma initial_consistent : consistent initial_world.
Proof.
  unfold consistent. cbn. repeat split; auto.
Qed.

(** Every event keeps the world consistent. *)
Lemma step_consistent (e : event) (w : World) :
  consistent w -> consistent (step e w).
Proof.
  destruct w as [s ps]. intros Inv.
  pose proof Inv as (A & B & C & D & E & G & H).
  cbn [store processing] in A, B, C, D, E, G, H.
  destruct e as [sim env | id now | data | | | now mr mc mf | | granted mounted];
    unfold step, Controller.step.
  - (* ClickStart *)
    unfold with_store, startRecording, render. cbn [view store processing].
    destruct (isRecording (state s)) eqn:R; [exact Inv|].
    destruct (isProcessing (state s)) eqn:P; [exact Inv|].
    destruct (A eq_refl) as [I L]. specialize (B eq_refl). subst ps.
    cbn [orb].
    unfold consistent, recorder_live in *.
    destruct sim, (has_stream env), (recorder_fails env);
      cbn; rewrite ?I; cbn; rewrite ?Pos.eqb_refl; cbn;
      repeat split; auto; try discriminate; try lia.
  - (* Tick *)
    unfold tick. cbn [store].
    destruct (find (fun i => Pos.eqb (interval_id i) id) (intervals s))
      as [i|] eqn:F; [|exact Inv].
    pose proof (find_in_Forall _ _ _ _ E F) as T. cbn in T.
    unfold stop_recording. rewrite T. cbn [negb].
    destruct (15 <=? (now - startTime i) / 1000)%Z; exact Inv.
  - (* DataAvailable *)
    unfold ondataavailable. cbn [store].
    destruct (0 <? size data)%nat; exact Inv.
  - (* TracksEnded *)
    unfold tracks_ended. cbn [store].
    destruct (mediaRecorderRef s) as [rec|] eqn:M; [|exact Inv].
    destruct (rstate rec) eqn:RS; [exact Inv|].
    assert (L : recorder_live s = true)
      by (unfold recorder_live; now rewrite M, RS).
    unfold consistent, recorder_live. cbn.
    split; [intros X; destruct (A X) as [_ Y]; congruence|].
    split; [exact B|]. split; [exact C|]. split; [exact D|].
    split; [exact E|]. split; [discriminate|].
    intros _. exact (H L).
  - (* StopDelivered *)
    unfold stop_event. cbn [store].
    destruct (mediaRecorderRef s) as [rec|] eqn:M; [|exact Inv].
    destruct (stop_pending rec) eqn:SP; [|exact Inv].
    destruct (rstate rec) eqn:RS; [|specialize (G eq_refl); discriminate G].
    assert (L : recorder_live s = true)
      by (unfold recorder_live; now rewrite M, RS).
    specialize (H L). subst ps.
    destruct (isRecording (state s)) eqn:R;
      [|destruct (A eq_refl) as [_ Y]; congruence].
    unfold begin_processing.
    destruct (isProcessing (view (onstop_render rec)));
      unfold consistent, recorder_live; cbn; rewrite ?R, ?RS;
      repeat split; auto; try discriminate.
  - (* Settled *)
    unfold settle. cbn [store processing].
    destruct ps as [|p rest]; [exact Inv|].
    pose proof (length_le_1_tail _ _ D) as ->.
    destruct (finish_frame now mr mc mf p s) as (F1 & F2 & F3 & _).
    unfold consistent, recorder_live in *. cbn [store processing].
    rewrite F1, F2, F3.
    split; [exact A|]. split; [reflexivity|]. split; [exact C|].
    split; [cbn; lia|]. split; [exact E|]. split; [exact G|].
    reflexivity.
  - (* ClickClear *)
    exact Inv.
  - (* ClickRetry *)
    unfold Panel.retry, Panel.startCamera.
    destruct granted, mounted; exact Inv.
Qed.

Lemma run_consistent (events : list event) (w : World) :
  consistent w -> consistent (run events w).
Proof.
  revert w. induction events as [|e events IH]; intros w Inv; [exact Inv|].
  unfold run, Controller.run. cbn [fold_left].
  exact (IH _ (step_consistent e w Inv)).
Qed.

(** While anything is under way, one of the two flags is set. *)
Lemma in_flight_busy (w : World) :
  consistent w -> in_flight w = true -> busy (store w) = true.
Proof.
  intros (A & B & _) F. unfold busy.
  destruct (isRecording (state (store w))) eqn:R; [reflexivity|].
  destruct (isProcessing (state (store w))) eqn:P; [reflexivity|].
  destruct (A eq_refl) as [I L]. specialize (B eq_refl).
  unfold in_flight in F. rewrite I, L, B in F. discriminate F.
Qed.

(** C8. Whenever a session is capturing or processing, [startRecording]
    of the current render leaves the store, with every state cell and
    ref, as it was, and [processRecording] called while processing does
    nothing.  Over every run of the mounted component - clicks on Start,
    Clear and Retry, ticks, chunks, the recorder stopped by the browser,
    its [stop] event, the settling of a processing call, in any order -
    a click on Start is a no-op while a timer runs, a recorder is live
    or a processing call is under way; a click on Start that changes
    anything finds none of these and neither flag set; and at no time is
    there more than one timer or more than one processing call.  A
    start that failed leaves nothing under way, so the next start
    begins a session; a session whose recording has ended and is being
    processed still refuses a start. *)
Theorem one_session_in_flight (events : list event) :
  let w := Controller.run f analyze svc save events initial_world in
  (forall s simulation env,
      busy s = true -> startRecording (render simulation s) env s = s)
  /\ (forall s simulation now m_result m_catch m_finally chunks,
        isProcessing (state s) = true ->
        processRecording f analyze svc save now m_result m_catch m_finally
          (render simulation s) chunks s
        = (s, Fulfilled tt))
  /\ (forall simulation env,
        in_flight w = true ->
        Controller.step f analyze svc save (ClickStart simulation env) w
        = w)
  /\ (forall simulation env,
        Controller.step f analyze svc save (ClickStart simulation env) w
        <> w ->
        in_flight w = false /\ busy (store w) = false)
  /\ (List.length (intervals (store w)) <= 1)%nat
  /\ (List.length (processing w) <= 1)%nat
  /\ (let w1 := Controller.run f analyze svc save session_events
                  initial_world in
      List.length (processing w1) = 1%nat
      /\ List.length (intervals (store w1)) = 1%nat
      /\ in_flight w1 = true
      /\ Controller.step f analyze svc save (ClickStart true sim_env) w1
         = w1)
  /\ (let w2 := Controller.run f analyze svc save
                  [ClickStart false failing_env] initial_world in
      in_flight w2 = false
      /\ in_flight (Controller.step f analyze svc save
                      (ClickStart false live_env) w2) = true).
Proof.
  pose proof (run_consistent events initial_world initial_consistent)
    as Inv.
  fold run. set (w := run events initial_world) in *.
  assert (G : forall simulation env,
             busy (store w) = true ->
             Controller.step f analyze svc save
               (ClickStart simulation env) w = w).
  { intros simulation env B. destruct w as [s ps].
    unfold Controller.step, with_store. cbn [store processing] in *.
    now rewrite (start_guard simulation env s B). }
  split; [intros s simulation env; apply start_guard|].
  split.
  { intros s simulation now m_result m_catch m_finally chunks P.
    unfold processRecording, render. cbn [view]. now rewrite P. }
  split.
  { intros simulation env F. apply G. now apply in_flight_busy. }
  split.
  { intros simulation env N.
    destruct (busy (store w)) eqn:B; [exfalso; apply N; now apply G|].
    split; [|reflexivity].
    destruct (in_flight w) eqn:F; [|reflexivity].
    rewrite (in_flight_busy w Inv F) in B. discriminate B. }
  split; [exact (proj1 (proj2 (proj2 Inv)))|].
  split; [exact (proj1 (proj2 (proj2 (proj2 Inv))))|].
  split; cbv zeta; vm_compute; repeat split.
Qed.

End SessionFacts.

(** The same session with an extractor that answers, a service that
    replies in time and a store that saves: once the call has settled
    the result is set and [isProcessing] is cleared, but [isRecording]
    is still set and the timer still runs, so Start stays a no-op. *)
Example ex_session_after_processing :
  let run := Controller.run (fun _ => "?")
               (fun _ _ _ => Fulfilled (Some snake_case_response))
               (fun _ => Settles 1200
                           (Body true None "### REPORT_STATUS: OPTIMAL"))
               (fun _ _ => Fulfilled true) in
  let w := run (session_events
                ++ [Controller.Settled "2025-01-01T00:00:00.000Z"
                      true true true]) Controller.initial_world in
  result (state (Controller.store w))
  = Some (assemble snake_case_response "2025-01-01T00:00:00.000Z"
            "### REPORT_STATUS: OPTIMAL")
  /\ isProcessing (state (Controller.store w)) = false
  /\ isRecording (state (Controller.store w)) = true
  /\ Controller.processing w = []
  /\ List.length (intervals (Controller.store w)) = 1%nat
  /\ run [Controller.ClickStart true sim_env] w = w.
Proof. vm_compute. repeat split. Qed.

